(** * Save.co: pricing and order totals of the phone-repair backend

    A shallow embedding of [product/models.py], [product/serializers.py] and
    [product/views.py], and the properties of the pricing rules, the order
    snapshot and the order life cycle that the specification states.

    Layout: the embedding first (decimals, model classes, the store,
    serializers, views), then the lemmas. *)

From Stdlib Require Import ZArith QArith Qminmax List String Bool Lia Lqa.
Import ListNotations.
Local Open Scope Z_scope.

(* ================================================================== *)
(** ** Decimals *)

(** Python's [decimal.Decimal] restricted to what the application holds:
    a signed coefficient and a number of fractional digits, the value being
    [coef / 10^places].  Every decimal of the program has a non-positive
    exponent (model fields are declared with [decimal_places=2], the
    literals are ['0.00'] and ['100'], and [sum] starts from the integer 0),
    so [places] is the negated exponent.

    Arithmetic is exact.  Python rounds a result to the 28 significant
    digits of the default context; the amounts the fields can hold (at most
    ten digits for an amount, five for a percentage) never reach them in the
    formulas below, for an order of fewer than 10^9 lines: sums, differences
    and products keep every digit, and the only division of the program is
    by [Decimal('100')], which moves the decimal point.  The representation
    (the exponent of each result) follows Python's rules, so that a result
    can be read with its trailing zeros; the sign of a zero is not kept. *)
Module Dec.

Record Decimal : Type := mkDecimal { coef : Z; places : nat }.

Definition pow10 (n : nat) : Z := 10 ^ Z.of_nat n.

(** The coefficient of [d] written with [p] fractional digits
    ([places d <= p] wherever it is used). *)
Definition rescale (d : Decimal) (p : nat) : Z :=
  coef d * pow10 (p - places d).

(** [Decimal('0.00')], and the integer [0] that a decimal is compared
    with and that [sum] starts from. *)
Definition zero2 : Decimal := mkDecimal 0 2.
Definition int0 : Decimal := mkDecimal 0 0.

(** [a + b]: the exponent of the result is the smaller exponent. *)
Definition add (a b : Decimal) : Decimal :=
  let p := Nat.max (places a) (places b) in
  mkDecimal (rescale a p + rescale b p) p.

(** [a - b]. *)
Definition sub (a b : Decimal) : Decimal :=
  let p := Nat.max (places a) (places b) in
  mkDecimal (rescale a p - rescale b p) p.

(** [a * b]: coefficients multiply, exponents add. *)
Definition mul (a b : Decimal) : Decimal :=
  mkDecimal (coef a * coef b) (places a + places b).

(** [a / Decimal('100')].  The quotient is exact; Python keeps the
    exponent of [a] when the coefficient ends in two zeros, and lowers it
    by one or two otherwise. *)
Definition div100 (a : Decimal) : Decimal :=
  if coef a mod 100 =? 0 then mkDecimal (coef a / 100) (places a)
  else if coef a mod 10 =? 0 then mkDecimal (coef a / 10) (S (places a))
  else mkDecimal (coef a) (S (S (places a))).

(** Comparison is by value. *)
Definition compare (a b : Decimal) : comparison :=
  let p := Nat.max (places a) (places b) in
  Z.compare (rescale a p) (rescale b p).

Definition gtb (a b : Decimal) : bool :=
  match compare a b with Gt => true | _ => false end.
Definition ltb (a b : Decimal) : bool :=
  match compare a b with Lt => true | _ => false end.

(** Python's [max(a, b)]: the first argument unless the second is
    strictly greater. *)
Definition max (a b : Decimal) : Decimal := if gtb b a then b else a.

(** [sum(xs)]: Python starts from the integer 0 and adds from the left. *)
Definition sum (xs : list Decimal) : Decimal := fold_left add xs int0.

(** [d.quantize(Decimal('0.01'))] under ROUND_HALF_EVEN, the rounding of
    the serializer fields declared with [decimal_places=2]. *)
Definition quantize2 (d : Decimal) : Decimal :=
  if Nat.leb (places d) 2 then mkDecimal (rescale d 2) 2
  else
    let unit := pow10 (places d - 2) in
    let q := Z.abs (coef d) / unit in
    let r := Z.abs (coef d) mod unit in
    let q' := match Z.compare (2 * r) unit with
              | Gt => q + 1
              | Eq => if Z.odd q then q + 1 else q
              | Lt => q
              end in
    mkDecimal (Z.sgn (coef d) * q') 2.

(** The rational number a decimal denotes. *)
Definition value (d : Decimal) : Q :=
  (inject_Z (coef d) / inject_Z (pow10 (places d)))%Q.

End Dec.

Abbreviation Decimal := Dec.Decimal.
Notation "$ d" := (Dec.value d) (at level 9, d at level 9, format "$ d").

(* ================================================================== *)
(** ** Field declarations *)

(** [MinValueValidator(limit)] and [MaxValueValidator(limit)]. *)
Inductive Validator : Type :=
| MinValueValidator (limit : Decimal)
| MaxValueValidator (limit : Decimal).

(** A validator accepts [x] unless [x < limit], respectively
    [x > limit]. *)
Definition validator_accepts (v : Validator) (x : Decimal) : bool :=
  match v with
  | MinValueValidator limit => negb (Dec.ltb x limit)
  | MaxValueValidator limit => negb (Dec.gtb x limit)
  end.

(** [DecimalField(max_digits=..., decimal_places=..., validators=[...])], as
    declared on a model or on a serializer (where [min_value] and
    [max_value] stand for the two validators). *)
Record DecimalField : Type := mkDecimalField {
  max_digits : nat;
  decimal_places : nat;
  validators : list Validator
}.

(** What a serializer's decimal field does with an incoming decimal: it
    refuses a value with more fractional digits than [decimal_places] or
    more whole digits than [max_digits - decimal_places], writes the value
    with [decimal_places] digits, and runs the validators. *)
Definition validate_precision (f : DecimalField) (x : Decimal) : bool :=
  Nat.leb (Dec.places x) (decimal_places f)
  && (Z.abs (Dec.coef x)
      <? Dec.pow10 (max_digits f - decimal_places f + Dec.places x)).

Definition run_validators (f : DecimalField) (x : Decimal) : bool :=
  forallb (fun v => validator_accepts v x) (validators f).

Definition to_internal_value (f : DecimalField) (x : Decimal) : option Decimal :=
  if validate_precision f x then
    let q := Dec.mkDecimal (Dec.rescale x (decimal_places f)) (decimal_places f) in
    if run_validators f q then Some q else None
  else None.

(* ================================================================== *)
(** ** Model classes ([product/models.py]) *)

(** A related object reached through a foreign key ([repair_price.problem],
    [phone_model.brand]) is held inside the record that refers to it, as the
    views read it.  Only the fields the pricing, grouping and life-cycle
    code reads or writes are kept: images, creation stamps, customer
    identity, notes and the random [order_number] are left out. *)

Module PhoneBrand.
Record t : Type := mk { id : Z; name : string; is_active : bool }.
End PhoneBrand.

Module PhoneModel.
Record t : Type := mk {
  id : Z;
  brand : PhoneBrand.t;
  name : string;
  is_active : bool
}.
End PhoneModel.

Module PhoneProblem.
Record t : Type := mk {
  id : Z;
  name : string;
  description : string;
  icon : string;
  estimated_time : Z
}.
End PhoneProblem.

(** [PART_TYPE_CHOICES]: the two values a [part_type] column holds (the
    serializers and forms that write the column accept no other). *)
Inductive PartType : Type := Original | Duplicate.

Definition part_type_value (t : PartType) : string :=
  match t with
  | Original => "original"
  | Duplicate => "duplicate"
  end.

Definition PART_TYPE_CHOICES : list (string * PartType) :=
  [("original"%string, Original); ("duplicate"%string, Duplicate)].

Definition part_type_eqb (a b : PartType) : bool :=
  match a, b with
  | Original, Original | Duplicate, Duplicate => true
  | _, _ => false
  end.

Module RepairPrice.

Record t : Type := mk {
  id : Z;
  phone_model : PhoneModel.t;
  problem : PhoneProblem.t;
  part_type : PartType;
  base_price : Decimal;
  discount_percentage : Decimal;
  discount_amount : Decimal;
  in_stock : bool;
  warranty_days : Z;
  is_active : bool
}.

Definition base_price_field : DecimalField :=
  mkDecimalField 10 2 [MinValueValidator Dec.zero2].
Definition discount_percentage_field : DecimalField :=
  mkDecimalField 5 2
    [MinValueValidator Dec.zero2; MaxValueValidator (Dec.mkDecimal 10000 2)].
Definition discount_amount_field : DecimalField :=
  mkDecimalField 10 2 [MinValueValidator Dec.zero2].

(** The [final_price] property. *)
Definition final_price (self : t) : Decimal :=
  let price := base_price self in
  let price :=
    if Dec.gtb (discount_percentage self) Dec.int0
    then Dec.sub price
           (Dec.div100 (Dec.mul price (discount_percentage self)))
    else price in
  let price := Dec.sub price (discount_amount self) in
  Dec.max price Dec.zero2.

(** The [total_discount] property. *)
Definition total_discount (self : t) : Decimal :=
  Dec.sub (base_price self) (final_price self).

End RepairPrice.

Module OrderItem.

Record t : Type := mk {
  id : Z;
  problem : PhoneProblem.t;
  part_type : PartType;
  base_price : Decimal;
  discount_percentage : Decimal;
  discount_amount : Decimal;
  final_price : Decimal;
  warranty_days : Z;
  warranty_expires_at : option Z;
  is_completed : bool;
  completed_at : option Z
}.

(** The [item_discount] property. *)
Definition item_discount (self : t) : Decimal :=
  Dec.sub (base_price self) (final_price self).

(** [set_warranty_expiry], given [self.order.confirmed_at].  A moment is
    a number of seconds and a date a number of days, both counted from the
    same origin; [timedelta(days=n)] is [86400 * n] seconds and [.date()]
    drops the time of day. *)
Definition set_warranty_expiry (confirmed_at : option Z) (self : t) : t :=
  match confirmed_at with
  | Some at_ =>
      mk (id self) (problem self) (part_type self) (base_price self)
         (discount_percentage self) (discount_amount self)
         (final_price self) (warranty_days self)
         (Some ((at_ + 86400 * warranty_days self) / 86400))
         (is_completed self) (completed_at self)
  | None => self
  end.

End OrderItem.

Module Order.

(** An order owns its items (they are deleted with it), so the rows of
    [order.order_items.all()] are kept with the order, in [id] order. *)
Record t : Type := mk {
  id : Z;
  phone_model : PhoneModel.t;
  subtotal : Decimal;
  item_discount : Decimal;
  website_discount_percentage : Decimal;
  website_discount_amount : Decimal;
  total_amount : Decimal;
  status : string;
  payment_status : string;
  confirmed_at : option Z;
  completed_at : option Z;
  order_items : list OrderItem.t
}.

Definition website_discount_percentage_field : DecimalField :=
  mkDecimalField 5 2
    [MinValueValidator Dec.zero2; MaxValueValidator (Dec.mkDecimal 10000 2)].
Definition website_discount_amount_field : DecimalField :=
  mkDecimalField 10 2 [MinValueValidator Dec.zero2].

Definition set_totals (self : t) (subtotal' item_discount' total' : Decimal) : t :=
  mk (id self) (phone_model self) subtotal' item_discount'
     (website_discount_percentage self) (website_discount_amount self)
     total' (status self) (payment_status self)
     (confirmed_at self) (completed_at self) (order_items self).

Definition set_status (self : t) (status' : string) (confirmed_at' : option Z) : t :=
  mk (id self) (phone_model self) (subtotal self) (item_discount self)
     (website_discount_percentage self) (website_discount_amount self)
     (total_amount self) status' (payment_status self)
     confirmed_at' (completed_at self) (order_items self).

Definition set_order_items (self : t) (items : list OrderItem.t) : t :=
  mk (id self) (phone_model self) (subtotal self) (item_discount self)
     (website_discount_percentage self) (website_discount_amount self)
     (total_amount self) (status self) (payment_status self)
     (confirmed_at self) (completed_at self) items.

(** [calculate_totals]: sets [subtotal], [item_discount] and
    [total_amount] from the order's items. *)
Definition calculate_totals (self : t) : t :=
  let items := order_items self in
  let subtotal' := Dec.sum (map OrderItem.base_price items) in
  let item_discount' := Dec.sum (map OrderItem.item_discount items) in
  let price_after_items := Dec.sub subtotal' item_discount' in
  let website_discount := Dec.zero2 in
  let website_discount :=
    if Dec.gtb (website_discount_percentage self) Dec.int0
    then Dec.mul price_after_items
           (Dec.div100 (website_discount_percentage self))
    else website_discount in
  let website_discount :=
    Dec.add website_discount (website_discount_amount self) in
  let total' :=
    Dec.max (Dec.sub price_after_items website_discount) Dec.zero2 in
  set_totals self subtotal' item_discount' total'.

(** The [total_discount] property. *)
Definition total_discount (self : t) : Decimal :=
  Dec.sub (subtotal self) (total_amount self).

End Order.

Module WebsiteDiscount.

Record t : Type := mk {
  id : Z;
  amount : Decimal;
  percentage : Decimal;
  is_active : bool
}.

(** Neither field declares a validator. *)
Definition amount_field : DecimalField := mkDecimalField 10 2 [].
Definition percentage_field : DecimalField := mkDecimalField 5 2 [].

End WebsiteDiscount.

(* ================================================================== *)
(** ** The store and its queries *)

(** The tables the views read and write.  The repair prices and the website
    discounts are listed in the order a query yields them; an order is
    found by its key.  A table holds a decimal as it was handed over (the
    rounding of a database column to its two fractional digits belongs to
    the persistence layer).  Permission classes are not modelled: a request
    is taken past authentication. *)
Record Store : Type := mkStore {
  phone_models : list PhoneModel.t;
  repair_prices : list RepairPrice.t;
  website_discounts : list WebsiteDiscount.t;
  orders : list Order.t
}.

(** The outcome of [Model.objects.get(...)]. *)
Inductive GetResult (A : Type) : Type :=
| Found (row : A)
| DoesNotExist
| MultipleObjectsReturned.
Arguments Found {A} row.
Arguments DoesNotExist {A}.
Arguments MultipleObjectsReturned {A}.

Definition objects_get {A : Type} (cond : A -> bool) (rows : list A) : GetResult A :=
  match filter cond rows with
  | [] => DoesNotExist
  | [row] => Found row
  | _ :: _ :: _ => MultipleObjectsReturned
  end.

(** [queryset.first()]. *)
Definition objects_first {A : Type} (rows : list A) : option A := hd_error rows.

(** The primary key a new row receives: one more than the largest key in
    use. *)
Definition fresh_id (ids : list Z) : Z := 1 + fold_right Z.max 0 ids.

Definition with_orders (s : Store) (orders' : list Order.t) : Store :=
  mkStore (phone_models s) (repair_prices s) (website_discounts s) orders'.

Definition with_repair_prices (s : Store) (rows : list RepairPrice.t) : Store :=
  mkStore (phone_models s) rows (website_discounts s) (orders s).

Definition with_website_discounts (s : Store) (rows : list WebsiteDiscount.t) : Store :=
  mkStore (phone_models s) (repair_prices s) rows (orders s).

(** [order.save()] of an order already in the table. *)
Definition save_order (s : Store) (order : Order.t) : Store :=
  with_orders s
    (map (fun o => if Order.id o =? Order.id order then order else o) (orders s)).

(* ================================================================== *)
(** ** Requests and responses *)

Module Request.

(** One entry of ["items"]: either key may be missing. *)
Record item : Type := mk_item {
  problem_id : option Z;
  part_type : option string
}.

(** The body of a price or order request.  A missing ["items"] key and an
    empty list are both the empty list (either is refused).  The customer
    fields and the notes of an order body are taken as present and valid:
    they are stored as they are and play no part in the figures. *)
Record data : Type := mk_data {
  phone_model_id : option Z;
  items : list item;
  website_discount_percentage : option Decimal;
  website_discount_amount : option Decimal
}.

(** The body of a request that creates a website discount. *)
Record discount : Type := mk_discount {
  percentage : option Decimal;
  amount : option Decimal
}.

End Request.

(** The error a response or a validation failure carries, with the text of
    its message. *)
Inductive Error : Type :=
| phone_model_id_is_required
    (* "phone_model_id is required" *)
| items_list_is_required
    (* "items list is required" *)
| invalid_or_inactive_phone_model
    (* "Invalid or inactive phone model" *)
| invalid_repair_option (problem_id : option Z) (part_type : option string)
    (* "Invalid repair option for problem ID {problem_id} with part type
        {part_type}" *)
| part_not_in_stock (problem_name : string) (part_type : string)
    (* "Part not in stock for {problem.name} ({part_type})" *)
| at_least_one_repair_item_is_required
    (* "At least one repair item is required" *)
| field_required (field : string)
    (* "This field is required." *)
| invalid_choice (field : string) (input : string)
    (* "... is not a valid choice." *)
| invalid_decimal (field : string)
    (* a decimal outside the digits or bounds of its field *)
| no_repair_prices_found
    (* "No repair prices found for the given phone model or brand" *)
| only_pending_orders_can_be_confirmed
    (* "Only pending orders can be confirmed" *)
| cannot_cancel_order_with_status (status : string).
    (* "Cannot cancel order with status: {order.status}" *)

Inductive Response (A : Type) : Type :=
| HTTP_200_OK (body : A)
| HTTP_201_CREATED (body : A)
| HTTP_400_BAD_REQUEST (errors : list Error)
| HTTP_404_NOT_FOUND (errors : list Error)
| Uncaught.
    (* an exception that no handler of the view catches *)
Arguments HTTP_200_OK {A} body.
Arguments HTTP_201_CREATED {A} body.
Arguments HTTP_400_BAD_REQUEST {A} errors.
Arguments HTTP_404_NOT_FOUND {A} errors.
Arguments Uncaught {A}.

(* ================================================================== *)
(** ** Serializers ([product/serializers.py]) *)

Module RepairPriceSerializer.

Record data : Type := mk {
  id : Z;
  phone_model : Z;
  problem : Z;
  problem_name : string;
  problem_icon : string;
  problem_description : string;
  part_type : string;
  base_price : Decimal;
  discount_percentage : Decimal;
  discount_amount : Decimal;
  final_price : Decimal;
  total_discount : Decimal;
  in_stock : bool;
  warranty_days : Z;
  estimated_time : Z;
  is_active : bool
}.

(** [RepairPriceSerializer(repair_price).data]; a decimal field renders
    its value with two fractional digits. *)
Definition to_representation (rp : RepairPrice.t) : data :=
  mk (RepairPrice.id rp)
     (PhoneModel.id (RepairPrice.phone_model rp))
     (PhoneProblem.id (RepairPrice.problem rp))
     (PhoneProblem.name (RepairPrice.problem rp))
     (PhoneProblem.icon (RepairPrice.problem rp))
     (PhoneProblem.description (RepairPrice.problem rp))
     (part_type_value (RepairPrice.part_type rp))
     (Dec.quantize2 (RepairPrice.base_price rp))
     (Dec.quantize2 (RepairPrice.discount_percentage rp))
     (Dec.quantize2 (RepairPrice.discount_amount rp))
     (Dec.quantize2 (RepairPrice.final_price rp))
     (Dec.quantize2 (RepairPrice.total_discount rp))
     (RepairPrice.in_stock rp)
     (RepairPrice.warranty_days rp)
     (PhoneProblem.estimated_time (RepairPrice.problem rp))
     (RepairPrice.is_active rp).

End RepairPriceSerializer.

(** The outcome of [serializer.is_valid(raise_exception=True)]. *)
Inductive Validation (A : Type) : Type :=
| Valid (validated_data : A)
| Invalid (errors : list Error)
| Raised.
    (* an exception other than a validation error *)
Arguments Valid {A} validated_data.
Arguments Invalid {A} errors.
Arguments Raised {A}.

Module OrderItemCreateSerializer.

Record validated : Type := mk {
  problem_id : Z;
  part_type : PartType
}.

(** [ChoiceField(choices=PART_TYPE_CHOICES, default='original')]. *)
Definition part_type_field (input : option string) : Error + PartType :=
  match input with
  | None => inr Original
  | Some s =>
      match find (fun c => String.eqb (fst c) s) PART_TYPE_CHOICES with
      | Some c => inr (snd c)
      | None => inl (invalid_choice "part_type" s)
      end
  end.

(** [IntegerField()]: required. *)
Definition problem_id_field (input : option Z) : Error + Z :=
  match input with
  | None => inl (field_required "problem_id")
  | Some n => inr n
  end.

Definition run_validation (item : Request.item) : list Error + validated :=
  match problem_id_field (Request.problem_id item),
        part_type_field (Request.part_type item) with
  | inr n, inr t => inr (mk n t)
  | inl e, inr _ => inl [e]
  | inr _, inl e => inl [e]
  | inl e1, inl e2 => inl [e1; e2]
  end.

End OrderItemCreateSerializer.

Module OrderCreateSerializer.

Record validated : Type := mk {
  phone_model_id : Z;
  items : list OrderItemCreateSerializer.validated;
  website_discount_percentage : Decimal;
  website_discount_amount : Decimal
}.

Definition website_discount_percentage_field : DecimalField :=
  mkDecimalField 5 2
    [MinValueValidator Dec.zero2; MaxValueValidator (Dec.mkDecimal 10000 2)].
Definition website_discount_amount_field : DecimalField :=
  mkDecimalField 10 2 [MinValueValidator Dec.zero2].

(** A decimal field with [default=Decimal('0.00')]. *)
Definition decimal_field (name : string) (f : DecimalField)
    (input : option Decimal) : list Error + Decimal :=
  match input with
  | None => inr Dec.zero2
  | Some x =>
      match to_internal_value f x with
      | Some q => inr q
      | None => inl [invalid_decimal name]
      end
  end.

Definition phone_model_id_field (input : option Z) : list Error + Z :=
  match input with
  | None => inl [field_required "phone_model_id"]
  | Some n => inr n
  end.

(** [OrderItemCreateSerializer(many=True)]: every entry is validated and
    the errors of all entries are reported together. *)
Fixpoint items_children (input : list Request.item)
    : list Error + list OrderItemCreateSerializer.validated :=
  match input with
  | [] => inr []
  | item :: rest =>
      match OrderItemCreateSerializer.run_validation item, items_children rest with
      | inr v, inr vs => inr (v :: vs)
      | inl e, inr _ => inl e
      | inr _, inl es => inl es
      | inl e, inl es => inl (e ++ es)
      end
  end.

(** [validate_items]. *)
Definition validate_items (value : list OrderItemCreateSerializer.validated)
    : list Error + list OrderItemCreateSerializer.validated :=
  match value with
  | [] => inl [at_least_one_repair_item_is_required]
  | _ :: _ => inr value
  end.

Definition items_field (input : list Request.item)
    : list Error + list OrderItemCreateSerializer.validated :=
  match items_children input with
  | inr value => validate_items value
  | inl es => inl es
  end.

Definition errors_of {A : Type} (r : list Error + A) : list Error :=
  match r with inl es => es | inr _ => [] end.

(** The fields, each validated on its own; the errors of all fields are
    raised together. *)
Definition to_internal_value (d : Request.data) : list Error + validated :=
  let r1 := phone_model_id_field (Request.phone_model_id d) in
  let r2 := items_field (Request.items d) in
  let r3 := decimal_field "website_discount_percentage"
              website_discount_percentage_field
              (Request.website_discount_percentage d) in
  let r4 := decimal_field "website_discount_amount"
              website_discount_amount_field
              (Request.website_discount_amount d) in
  match r1, r2, r3, r4 with
  | inr a, inr b, inr c, inr e => inr (mk a b c e)
  | _, _, _, _ => inl (errors_of r1 ++ errors_of r2 ++ errors_of r3 ++ errors_of r4)
  end.

(** [RepairPrice.objects.get(phone_model=phone_model, problem_id=...,
    part_type=..., is_active=True)] for a validated item: the query of
    [validate], which [OrderViewSet.create] repeats. *)
Definition get_repair_price (s : Store) (phone_model : PhoneModel.t)
    (item : OrderItemCreateSerializer.validated) : GetResult RepairPrice.t :=
  objects_get
    (fun rp =>
       (PhoneModel.id (RepairPrice.phone_model rp) =? PhoneModel.id phone_model)
       && (PhoneProblem.id (RepairPrice.problem rp)
           =? OrderItemCreateSerializer.problem_id item)
       && part_type_eqb (RepairPrice.part_type rp)
            (OrderItemCreateSerializer.part_type item)
       && RepairPrice.is_active rp)
    (repair_prices s).

(** The loop of [validate] over the items. *)
Fixpoint validate_repair_prices (s : Store) (phone_model : PhoneModel.t)
    (items : list OrderItemCreateSerializer.validated) : Validation unit :=
  match items with
  | [] => Valid tt
  | item :: rest =>
      match get_repair_price s phone_model item with
      | Found repair_price =>
          if negb (RepairPrice.in_stock repair_price) then
            Invalid [part_not_in_stock
                       (PhoneProblem.name (RepairPrice.problem repair_price))
                       (part_type_value (OrderItemCreateSerializer.part_type item))]
          else validate_repair_prices s phone_model rest
      | DoesNotExist =>
          Invalid [invalid_repair_option
                     (Some (OrderItemCreateSerializer.problem_id item))
                     (Some (part_type_value (OrderItemCreateSerializer.part_type item)))]
      | MultipleObjectsReturned => Raised
      end
  end.

(** [validate]. *)
Definition validate (s : Store) (data : validated) : Validation validated :=
  match objects_get
          (fun pm => (PhoneModel.id pm =? phone_model_id data)
                     && PhoneModel.is_active pm)
          (phone_models s) with
  | Found phone_model =>
      match validate_repair_prices s phone_model (items data) with
      | Valid _ => Valid data
      | Invalid es => Invalid es
      | Raised => Raised
      end
  | DoesNotExist => Invalid [invalid_or_inactive_phone_model]
  | MultipleObjectsReturned => Raised
  end.

(** [is_valid(raise_exception=True)]: the fields first, then
    [validate]. *)
Definition is_valid (s : Store) (d : Request.data) : Validation validated :=
  match to_internal_value d with
  | inl es => Invalid es
  | inr data => validate s data
  end.

End OrderCreateSerializer.

Module OrderItemSerializer.

Record data : Type := mk {
  id : Z;
  problem : Z;
  problem_name : string;
  problem_icon : string;
  part_type : string;
  base_price : Decimal;
  discount_percentage : Decimal;
  discount_amount : Decimal;
  final_price : Decimal;
  item_discount : Decimal;
  warranty_days : Z;
  warranty_expires_at : option Z
}.

Definition to_representation (item : OrderItem.t) : data :=
  mk (OrderItem.id item)
     (PhoneProblem.id (OrderItem.problem item))
     (PhoneProblem.name (OrderItem.problem item))
     (PhoneProblem.icon (OrderItem.problem item))
     (part_type_value (OrderItem.part_type item))
     (Dec.quantize2 (OrderItem.base_price item))
     (Dec.quantize2 (OrderItem.discount_percentage item))
     (Dec.quantize2 (OrderItem.discount_amount item))
     (Dec.quantize2 (OrderItem.final_price item))
     (Dec.quantize2 (OrderItem.item_discount item))
     (OrderItem.warranty_days item)
     (OrderItem.warranty_expires_at item).

End OrderItemSerializer.

Module OrderSerializer.

Record data : Type := mk {
  id : Z;
  phone_model : Z;
  subtotal : Decimal;
  item_discount : Decimal;
  website_discount_percentage : Decimal;
  website_discount_amount : Decimal;
  total_amount : Decimal;
  total_discount : Decimal;
  status : string;
  payment_status : string;
  order_items : list OrderItemSerializer.data;
  confirmed_at : option Z;
  completed_at : option Z
}.

Definition to_representation (order : Order.t) : data :=
  mk (Order.id order)
     (PhoneModel.id (Order.phone_model order))
     (Dec.quantize2 (Order.subtotal order))
     (Dec.quantize2 (Order.item_discount order))
     (Dec.quantize2 (Order.website_discount_percentage order))
     (Dec.quantize2 (Order.website_discount_amount order))
     (Dec.quantize2 (Order.total_amount order))
     (Dec.quantize2 (Order.total_discount order))
     (Order.status order)
     (Order.payment_status order)
     (map OrderItemSerializer.to_representation (Order.order_items order))
     (Order.confirmed_at order)
     (Order.completed_at order).

End OrderSerializer.

Module WebsiteDiscountSerializer.

Record validated : Type := mk {
  percentage : Decimal;
  amount : Decimal
}.

(** A model serializer takes each field's digits, default and validators
    from the model field. *)
Definition decimal_field (name : string) (f : DecimalField)
    (input : option Decimal) : list Error + Decimal :=
  match input with
  | None => inr Dec.zero2
  | Some x =>
      match to_internal_value f x with
      | Some q => inr q
      | None => inl [invalid_decimal name]
      end
  end.

Definition is_valid (d : Request.discount) : Validation validated :=
  let r1 := decimal_field "percentage" WebsiteDiscount.percentage_field
              (Request.percentage d) in
  let r2 := decimal_field "amount" WebsiteDiscount.amount_field
              (Request.amount d) in
  match r1, r2 with
  | inr p, inr a => Valid (mk p a)
  | inl e, inr _ => Invalid e
  | inr _, inl e => Invalid e
  | inl e1, inl e2 => Invalid (e1 ++ e2)
  end.

End WebsiteDiscountSerializer.

(* ================================================================== *)
(** ** Views ([product/views.py]) *)

Module RepairPriceViewSet.

Definition get_queryset (s : Store) : list RepairPrice.t :=
  filter RepairPrice.is_active (repair_prices s).

(** *** [list]: repair prices grouped by problem *)

(** One value of [problems_dict]. *)
Record group : Type := mk_group {
  problem_id : Z;
  problem_name : string;
  problem_icon : string;
  problem_description : string;
  estimated_time : Z;
  original : option RepairPriceSerializer.data;
  duplicate : option RepairPriceSerializer.data
}.

(** [group[part_type] = data]. *)
Definition set_part (g : group) (t : PartType)
    (data : RepairPriceSerializer.data) : group :=
  match t with
  | Original =>
      mk_group (problem_id g) (problem_name g) (problem_icon g)
        (problem_description g) (estimated_time g) (Some data) (duplicate g)
  | Duplicate =>
      mk_group (problem_id g) (problem_name g) (problem_icon g)
        (problem_description g) (estimated_time g) (original g) (Some data)
  end.

(** [problems_dict] is a dictionary: its keys are in insertion order, and
    assigning under a key that is present keeps the key's position. *)
Definition dict_contains (key : Z) (d : list (Z * group)) : bool :=
  existsb (fun kv => fst kv =? key) d.

Definition dict_update (key : Z) (f : group -> group)
    (d : list (Z * group)) : list (Z * group) :=
  map (fun kv => if fst kv =? key then (fst kv, f (snd kv)) else kv) d.

(** The body of the loop over the queryset. *)
Definition group_step (problems_dict : list (Z * group))
    (repair_price : RepairPrice.t) : list (Z * group) :=
  let problem := RepairPrice.problem repair_price in
  let problem_id := PhoneProblem.id problem in
  let problems_dict :=
    if negb (dict_contains problem_id problems_dict) then
      problems_dict ++
        [(problem_id,
          mk_group problem_id (PhoneProblem.name problem)
            (PhoneProblem.icon problem) (PhoneProblem.description problem)
            (PhoneProblem.estimated_time problem) None None)]
    else problems_dict in
  dict_update problem_id
    (fun g => set_part g (RepairPrice.part_type repair_price)
                (RepairPriceSerializer.to_representation repair_price))
    problems_dict.

(** The grouping loop and [list(problems_dict.values())]. *)
Definition group_by_problem (queryset : list RepairPrice.t) : list group :=
  map snd (fold_left group_step queryset []).

(** [list], with the query parameters [phone_model] and [brand]. *)
Definition list_ (s : Store) (phone_model_id brand_id : option Z)
    : Response (list group) :=
  let queryset := get_queryset s in
  let queryset :=
    match phone_model_id, brand_id with
    | Some m, _ =>
        filter (fun rp => PhoneModel.id (RepairPrice.phone_model rp) =? m) queryset
    | None, Some b =>
        filter (fun rp =>
                  PhoneBrand.id (PhoneModel.brand (RepairPrice.phone_model rp)) =? b)
               queryset
    | None, None => queryset
    end in
  match queryset with
  | [] => HTTP_404_NOT_FOUND [no_repair_prices_found]
  | _ :: _ => HTTP_200_OK (group_by_problem queryset)
  end.

(** *** [calculate_price]: the price preview *)

(** The response writes each decimal with [str]; the records below keep the
    decimal. *)

Record item_breakdown : Type := mk_item {
  item_problem_id : option Z;
  item_problem_name : string;
  item_part_type : string;
  item_base_price : Decimal;
  item_discount_ : Decimal;
  item_final_price : Decimal;
  item_warranty_days : Z
}.

Record price_data : Type := mk_price {
  phone_model : string;
  brand : string;
  subtotal : Decimal;
  item_discount : Decimal;
  price_after_item_discount : Decimal;
  website_discount_percentage : Decimal;
  website_discount_amount : Decimal;
  website_discount : Decimal;
  total_amount : Decimal;
  total_discount : Decimal;
  items : list item_breakdown
}.

(** The repair price that an entry of ["items"] selects; a missing
    [part_type] is ['original']. *)
Definition get_repair_price (s : Store) (phone_model : PhoneModel.t)
    (problem_id : option Z) (part_type : string) : GetResult RepairPrice.t :=
  objects_get
    (fun rp =>
       (PhoneModel.id (RepairPrice.phone_model rp) =? PhoneModel.id phone_model)
       && match problem_id with
          | Some n => PhoneProblem.id (RepairPrice.problem rp) =? n
          | None => false
          end
       && String.eqb (part_type_value (RepairPrice.part_type rp)) part_type
       && RepairPrice.is_active rp)
    (repair_prices s).

(** The loop over [items_data]: it either runs to the end, with the
    running [subtotal], [item_discount] and [items_breakdown], or returns
    a response from inside. *)
Fixpoint price_items (s : Store) (phone_model : PhoneModel.t)
    (items_data : list Request.item)
    (subtotal item_discount : Decimal) (items_breakdown : list item_breakdown)
    : Response price_data + (Decimal * Decimal * list item_breakdown) :=
  match items_data with
  | [] => inr (subtotal, item_discount, items_breakdown)
  | item_data :: rest =>
      let problem_id := Request.problem_id item_data in
      let part_type :=
        match Request.part_type item_data with
        | Some t => t
        | None => "original"%string
        end in
      match get_repair_price s phone_model problem_id part_type with
      | Found repair_price =>
          let base_price := RepairPrice.base_price repair_price in
          let final_price := RepairPrice.final_price repair_price in
          let discount := Dec.sub base_price final_price in
          let subtotal := Dec.add subtotal base_price in
          let item_discount := Dec.add item_discount discount in
          let items_breakdown :=
            items_breakdown ++
              [mk_item problem_id
                 (PhoneProblem.name (RepairPrice.problem repair_price))
                 part_type base_price discount final_price
                 (RepairPrice.warranty_days repair_price)] in
          price_items s phone_model rest subtotal item_discount items_breakdown
      | DoesNotExist =>
          inl (HTTP_400_BAD_REQUEST [invalid_repair_option problem_id (Some part_type)])
      | MultipleObjectsReturned => inl Uncaught
      end
  end.

(** [calculate_price].  The body's [website_discount_percentage] and
    [website_discount_amount] are not read: the two lines that read them
    are commented out. *)
Definition calculate_price (s : Store) (d : Request.data) : Response price_data :=
  match Request.phone_model_id d with
  | None | Some 0 => HTTP_400_BAD_REQUEST [phone_model_id_is_required]
  | Some phone_model_id =>
      match Request.items d with
      | [] => HTTP_400_BAD_REQUEST [items_list_is_required]
      | items_data =>
          match objects_get
                  (fun pm => (PhoneModel.id pm =? phone_model_id)
                             && PhoneModel.is_active pm)
                  (phone_models s) with
          | DoesNotExist => HTTP_400_BAD_REQUEST [invalid_or_inactive_phone_model]
          | MultipleObjectsReturned => Uncaught
          | Found phone_model =>
              let website_discount_obj :=
                objects_first (filter WebsiteDiscount.is_active (website_discounts s)) in
              let website_discount_percentage :=
                match website_discount_obj with
                | Some o => WebsiteDiscount.percentage o
                | None => Dec.zero2
                end in
              let website_discount_amount :=
                match website_discount_obj with
                | Some o => WebsiteDiscount.amount o
                | None => Dec.zero2
                end in
              match price_items s phone_model items_data Dec.zero2 Dec.zero2 [] with
              | inl response => response
              | inr (subtotal, item_discount, items_breakdown) =>
                  let price_after_items := Dec.sub subtotal item_discount in
                  let website_discount :=
                    Dec.add
                      (Dec.mul price_after_items
                         (Dec.div100 website_discount_percentage))
                      website_discount_amount in
                  let total_amount :=
                    Dec.max (Dec.sub price_after_items website_discount) Dec.zero2 in
                  let total_discount := Dec.sub subtotal total_amount in
                  HTTP_200_OK
                    (mk_price (PhoneModel.name phone_model)
                       (PhoneBrand.name (PhoneModel.brand phone_model))
                       subtotal item_discount price_after_items
                       website_discount_percentage website_discount_amount
                       website_discount total_amount total_discount
                       items_breakdown)
              end
          end
      end
  end.

End RepairPriceViewSet.

Module OrderViewSet.

(** The loop of [create] over the validated items: one [OrderItem] per
    entry, copied from the repair price that the entry selects.
    [next_id] is the key the next item receives. *)
Fixpoint create_items (s : Store) (phone_model : PhoneModel.t)
    (items : list OrderItemCreateSerializer.validated) (next_id : Z)
    : option (list OrderItem.t) :=
  match items with
  | [] => Some []
  | item_data :: rest =>
      match OrderCreateSerializer.get_repair_price s phone_model item_data with
      | Found repair_price =>
          match create_items s phone_model rest (next_id + 1) with
          | Some created =>
              Some (OrderItem.mk next_id
                      (RepairPrice.problem repair_price)
                      (OrderItemCreateSerializer.part_type item_data)
                      (RepairPrice.base_price repair_price)
                      (RepairPrice.discount_percentage repair_price)
                      (RepairPrice.discount_amount repair_price)
                      (RepairPrice.final_price repair_price)
                      (RepairPrice.warranty_days repair_price)
                      None false None
                    :: created)
          | None => None
          end
      | DoesNotExist | MultipleObjectsReturned => None
      end
  end.

Definition all_item_ids (s : Store) : list Z :=
  flat_map (fun o => map OrderItem.id (Order.order_items o)) (orders s).

(** [create], under [transaction.atomic]: when an exception leaves the
    view the store is as it was. *)
Definition create (s : Store) (d : Request.data)
    : Store * Response OrderSerializer.data :=
  match OrderCreateSerializer.is_valid s d with
  | Invalid es => (s, HTTP_400_BAD_REQUEST es)
  | Raised => (s, Uncaught)
  | Valid data =>
      match objects_get
              (fun pm => PhoneModel.id pm =? OrderCreateSerializer.phone_model_id data)
              (phone_models s) with
      | Found phone_model =>
          let order :=
            Order.mk (fresh_id (map Order.id (orders s)))
              phone_model
              Dec.zero2 Dec.zero2
              (OrderCreateSerializer.website_discount_percentage data)
              (OrderCreateSerializer.website_discount_amount data)
              Dec.zero2
              "pending" "pending" None None [] in
          match create_items s phone_model (OrderCreateSerializer.items data)
                  (fresh_id (all_item_ids s)) with
          | Some created =>
              let order := Order.set_order_items order created in
              let order := Order.calculate_totals order in
              (with_orders s (orders s ++ [order]),
               HTTP_201_CREATED (OrderSerializer.to_representation order))
          | None => (s, Uncaught)
          end
      | DoesNotExist | MultipleObjectsReturned => (s, Uncaught)
      end
  end.

(** [get_object]: the order with primary key [pk], for a request without
    query parameters (the filters of [get_queryset] on the user, on
    [status] and on [payment_status] are not modelled). *)
Definition get_object (s : Store) (pk : Z) : GetResult Order.t :=
  objects_get (fun o => Order.id o =? pk) (orders s).


(** [confirm]; [now] is [timezone.now()]. *)
Definition confirm (s : Store) (now : Z) (pk : Z)
    : Store * Response OrderSerializer.data :=
  match get_object s pk with
  | Found order =>
      if negb (String.eqb (Order.status order) "pending") then
        (s, HTTP_400_BAD_REQUEST [only_pending_orders_can_be_confirmed])
      else
        let order := Order.set_status order "confirmed" (Some now) in
        let order :=
          Order.set_order_items order
            (map (OrderItem.set_warranty_expiry (Order.confirmed_at order))
                 (Order.order_items order)) in
        (save_order s order, HTTP_200_OK (OrderSerializer.to_representation order))
  | DoesNotExist => (s, HTTP_404_NOT_FOUND [])
  | MultipleObjectsReturned => (s, Uncaught)
  end.

(** [cancel]. *)
Definition cancel (s : Store) (pk : Z) : Store * Response OrderSerializer.data :=
  match get_object s pk with
  | Found order =>
      if existsb (String.eqb (Order.status order))
           ["completed"; "cancelled"; "refunded"]%string then
        (s, HTTP_400_BAD_REQUEST [cannot_cancel_order_with_status (Order.status order)])
      else
        let order := Order.set_status order "cancelled" (Order.confirmed_at order) in
        (save_order s order, HTTP_200_OK (OrderSerializer.to_representation order))
  | DoesNotExist => (s, HTTP_404_NOT_FOUND [])
  | MultipleObjectsReturned => (s, Uncaught)
  end.

End OrderViewSet.

Module DiscountViewSet.

Definition get_queryset (s : Store) : list WebsiteDiscount.t :=
  filter WebsiteDiscount.is_active (website_discounts s).

(** [create], as a model view set provides it: the serializer validates
    the body and saves a new row; [is_active] is read-only and takes the
    model's default. *)
Definition create (s : Store) (d : Request.discount)
    : Store * Response WebsiteDiscount.t :=
  match WebsiteDiscountSerializer.is_valid d with
  | Valid data =>
      let row :=
        WebsiteDiscount.mk
          (fresh_id (map WebsiteDiscount.id (website_discounts s)))
          (WebsiteDiscountSerializer.amount data)
          (WebsiteDiscountSerializer.percentage data)
          true in
      (with_website_discounts s (website_discounts s ++ [row]),
       HTTP_201_CREATED row)
  | Invalid es => (s, HTTP_400_BAD_REQUEST es)
  | Raised => (s, Uncaught)
  end.

End DiscountViewSet.


(* ================================================================== *)
(** ** The specification's formulas, and sample data *)

(** The sum of a list of rationals, from the left. *)
Definition Qsum (xs : list Q) : Q := fold_left Qplus xs 0%Q.

(** [Decimal('a.bc')] written from its hundredths. *)
Definition cents (c : Z) : Decimal := Dec.mkDecimal c 2.

Definition apple : PhoneBrand.t := PhoneBrand.mk 1 "Apple" true.
Definition iphone : PhoneModel.t := PhoneModel.mk 1 apple "iPhone 15" true.
Definition display_change : PhoneProblem.t :=
  PhoneProblem.mk 1 "Display Change" "" "" 30.
Definition battery_replacement : PhoneProblem.t :=
  PhoneProblem.mk 2 "Battery Replacement" "" "" 30.

(** An active repair price of [iphone] with a warranty of 90 days. *)
Definition sample_price (id : Z) (problem : PhoneProblem.t) (t : PartType)
    (base percentage amount : Z) (in_stock : bool) : RepairPrice.t :=
  RepairPrice.mk id iphone problem t (cents base) (cents percentage)
    (cents amount) in_stock 90 true.

(** Scenario C: base 20.00, 100 percent and 50.00 off. *)
Definition scenario_C : RepairPrice.t :=
  sample_price 1 display_change Original 2000 10000 5000 true.

(** The order totals as section 4.1 of the specification words them, on
    rationals: a line is its base price and its final price. *)
Module Spec.

Record OrderTotals : Type := mkTotals {
  subtotal : Q;
  item_discount : Q;
  price_after_items : Q;
  site_discount : Q;
  total_amount : Q;
  total_discount : Q
}.

Definition computeOrderTotals (lines : list (Q * Q)) (percentage amount : Q)
    : OrderTotals :=
  let subtotal := Qsum (map fst lines) in
  let item_discount := Qsum (map (fun l => fst l - snd l)%Q lines) in
  let price_after_items := (subtotal - item_discount)%Q in
  let site_discount := (price_after_items * (percentage / 100) + amount)%Q in
  let total_amount := Qmax 0 (price_after_items - site_discount)%Q in
  let total_discount := (subtotal - total_amount)%Q in
  mkTotals subtotal item_discount price_after_items site_discount
    total_amount total_discount.

End Spec.

(** The lines of a price preview and of an order. *)
Definition preview_lines (body : RepairPriceViewSet.price_data) : list (Q * Q) :=
  map (fun it => ($(RepairPriceViewSet.item_base_price it),
                  $(RepairPriceViewSet.item_final_price it)))
      (RepairPriceViewSet.items body).

Definition order_lines (order : Order.t) : list (Q * Q) :=
  map (fun it => ($(OrderItem.base_price it), $(OrderItem.final_price it)))
      (Order.order_items order).

(** Scenario B: bases 100.00 and 50.00, final prices 85.00 and 40.00, a
    website discount of 5 percent and 0.00. *)
Definition scenario_B_prices : list RepairPrice.t :=
  [sample_price 1 display_change Original 10000 1000 500 true;
   sample_price 2 battery_replacement Duplicate 5000 2000 0 true].

Definition scenario_B_store : Store :=
  mkStore [iphone] scenario_B_prices
    [WebsiteDiscount.mk 1 (cents 0) (cents 500) true] [].

Definition scenario_B_request : Request.data :=
  Request.mk_data (Some 1)
    [Request.mk_item (Some 1) (Some "original"%string);
     Request.mk_item (Some 2) (Some "duplicate"%string)]
    (Some (cents 500)) (Some (cents 0)).

(** The two lines of scenario B as the items of a pending order. *)
Definition scenario_B_order : Order.t :=
  Order.mk 1 iphone (cents 0) (cents 0) (cents 500) (cents 0) (cents 0)
    "pending" "pending" None None
    [OrderItem.mk 1 display_change Original (cents 10000) (cents 1000)
       (cents 500) (cents 8500) 90 None false None;
     OrderItem.mk 2 battery_replacement Duplicate (cents 5000) (cents 2000)
       (cents 0) (cents 4000) 90 None false None].

(** The order that [OrderViewSet.create] saves for the validated [data],
    the phone model and the items it created. *)
Definition created_order (s : Store) (data : OrderCreateSerializer.validated)
    (phone_model : PhoneModel.t) (created : list OrderItem.t) : Order.t :=
  Order.calculate_totals
    (Order.set_order_items
       (Order.mk (fresh_id (map Order.id (orders s))) phone_model
          Dec.zero2 Dec.zero2
          (OrderCreateSerializer.website_discount_percentage data)
          (OrderCreateSerializer.website_discount_amount data)
          Dec.zero2 "pending" "pending" None None [])
       created).

(** The website discount in force: the first active row, if any. *)
Definition active_website_discount (s : Store) : option WebsiteDiscount.t :=
  objects_first (filter WebsiteDiscount.is_active (website_discounts s)).

(** A request body with its discount override replaced. *)
Definition with_override (d : Request.data) (percentage amount : option Decimal)
    : Request.data :=
  Request.mk_data (Request.phone_model_id d) (Request.items d) percentage amount.


(** A store with no rows, and a body asking for a website discount of
    150 percent and -5.00. *)
Definition empty_store : Store := mkStore [] [] [] [].

Definition out_of_bounds_discount : Request.discount :=
  Request.mk_discount (Some (cents 15000)) (Some (cents (-500))).

(** Scenario E: a store whose only order is cancelled. *)
Definition cancelled_order : Order.t :=
  Order.set_status (Order.calculate_totals scenario_B_order) "cancelled" None.

Definition scenario_E_store : Store :=
  with_orders scenario_B_store [cancelled_order].

(** An entry of ["items"] with a missing part type written out as
    ['original'], and a body with every entry so written. *)
Definition with_default_part_type (item : Request.item) : Request.item :=
  Request.mk_item (Request.problem_id item)
    (Some match Request.part_type item with
          | Some t => t
          | None => "original"%string
          end).

Definition explicit_part_types (d : Request.data) : Request.data :=
  Request.mk_data (Request.phone_model_id d)
    (map with_default_part_type (Request.items d))
    (Request.website_discount_percentage d)
    (Request.website_discount_amount d).

(** A body that selects the display change without naming a part type. *)
Definition no_part_type_request : Request.data :=
  Request.mk_data (Some 1) [Request.mk_item (Some 1) None] None None.

(** The store with the in-stock flag of every repair price set by [f]. *)
Definition set_in_stock (f : RepairPrice.t -> bool) (rp : RepairPrice.t)
    : RepairPrice.t :=
  RepairPrice.mk (RepairPrice.id rp) (RepairPrice.phone_model rp)
    (RepairPrice.problem rp) (RepairPrice.part_type rp)
    (RepairPrice.base_price rp) (RepairPrice.discount_percentage rp)
    (RepairPrice.discount_amount rp) (f rp) (RepairPrice.warranty_days rp)
    (RepairPrice.is_active rp).

Definition with_in_stock (f : RepairPrice.t -> bool) (s : Store) : Store :=
  with_repair_prices s (map (set_in_stock f) (repair_prices s)).

(** Scenario B with every part out of stock. *)
Definition out_of_stock_store : Store :=
  with_in_stock (fun _ => false) scenario_B_store.

(** An order item holds the figures of a repair price. *)
Definition snapshot_of (rp : RepairPrice.t) (item : OrderItem.t) : Prop :=
  OrderItem.problem item = RepairPrice.problem rp
  /\ OrderItem.part_type item = RepairPrice.part_type rp
  /\ OrderItem.base_price item = RepairPrice.base_price rp
  /\ OrderItem.discount_percentage item = RepairPrice.discount_percentage rp
  /\ OrderItem.discount_amount item = RepairPrice.discount_amount rp
  /\ OrderItem.final_price item = RepairPrice.final_price rp
  /\ OrderItem.warranty_days item = RepairPrice.warranty_days rp.

(** A repair price with its base price and its two discounts replaced, and
    the store with every repair price so changed. *)
Definition set_prices (base percentage amount : RepairPrice.t -> Decimal)
    (rp : RepairPrice.t) : RepairPrice.t :=
  RepairPrice.mk (RepairPrice.id rp) (RepairPrice.phone_model rp)
    (RepairPrice.problem rp) (RepairPrice.part_type rp)
    (base rp) (percentage rp) (amount rp)
    (RepairPrice.in_stock rp) (RepairPrice.warranty_days rp)
    (RepairPrice.is_active rp).

Definition with_prices (base percentage amount : RepairPrice.t -> Decimal)
    (s : Store) : Store :=
  with_repair_prices s
    (map (set_prices base percentage amount) (repair_prices s)).


(** [rp'] is [rp] with its discount percentage, its discount amount or
    both raised. *)
Definition discount_raised (rp rp' : RepairPrice.t) : Prop :=
  RepairPrice.base_price rp' = RepairPrice.base_price rp
  /\ ($(RepairPrice.discount_percentage rp)
      <= $(RepairPrice.discount_percentage rp'))%Q
  /\ ($(RepairPrice.discount_amount rp) <= $(RepairPrice.discount_amount rp'))%Q.

(** Scenario B with the display change at 25 percent instead of 10, and
    the order of scenario B with the figures this gives. *)
Definition raised_prices : list RepairPrice.t :=
  [sample_price 1 display_change Original 10000 2500 500 true;
   sample_price 2 battery_replacement Duplicate 5000 2000 0 true].

Definition raised_order : Order.t :=
  Order.mk 1 iphone (cents 0) (cents 0) (cents 500) (cents 0) (cents 0)
    "pending" "pending" None None
    [OrderItem.mk 1 display_change Original (cents 10000) (cents 2500)
       (cents 500) (RepairPrice.final_price
                      (sample_price 1 display_change Original 10000 2500 500 true))
       90 None false None;
     OrderItem.mk 2 battery_replacement Duplicate (cents 5000) (cents 2000)
       (cents 0) (RepairPrice.final_price
                    (sample_price 2 battery_replacement Duplicate 5000 2000 0 true))
       90 None false None].

(** The order of scenario B with the final prices as the properties
    compute them. *)
Definition plain_order : Order.t :=
  Order.mk 1 iphone (cents 0) (cents 0) (cents 500) (cents 0) (cents 0)
    "pending" "pending" None None
    [OrderItem.mk 1 display_change Original (cents 10000) (cents 1000)
       (cents 500) (RepairPrice.final_price
                      (sample_price 1 display_change Original 10000 1000 500 true))
       90 None false None;
     OrderItem.mk 2 battery_replacement Duplicate (cents 5000) (cents 2000)
       (cents 0) (RepairPrice.final_price
                    (sample_price 2 battery_replacement Duplicate 5000 2000 0 true))
       90 None false None].

(** The distinct keys of a list, each at its first appearance. *)
Fixpoint first_appearances (keys : list Z) : list Z :=
  match keys with
  | [] => []
  | k :: rest => k :: filter (fun j => negb (j =? k)) (first_appearances rest)
  end.

Definition problem_of (rp : RepairPrice.t) : Z :=
  PhoneProblem.id (RepairPrice.problem rp).

(** The last option of a sequence for a problem and a part type, and the
    first option for a problem. *)
Definition last_option (queryset : list RepairPrice.t) (problem_id : Z)
    (t : PartType) : option RepairPrice.t :=
  find (fun rp => (problem_of rp =? problem_id)
                  && part_type_eqb (RepairPrice.part_type rp) t)
       (rev queryset).

Definition first_option (queryset : list RepairPrice.t) (problem_id : Z)
    : option RepairPrice.t :=
  find (fun rp => problem_of rp =? problem_id) queryset.

(** What a group says of the sequence it was built from: each child is the
    data of the last option of the group's problem with that part type, or
    null when there is none, and the problem's fields are those of the
    first option of the problem. *)
Definition group_reflects (queryset : list RepairPrice.t)
    (g : RepairPriceViewSet.group) : Prop :=
  RepairPriceViewSet.original g
  = option_map RepairPriceSerializer.to_representation
      (last_option queryset (RepairPriceViewSet.problem_id g) Original)
  /\ RepairPriceViewSet.duplicate g
     = option_map RepairPriceSerializer.to_representation
         (last_option queryset (RepairPriceViewSet.problem_id g) Duplicate)
  /\ exists rp,
       first_option queryset (RepairPriceViewSet.problem_id g) = Some rp
       /\ RepairPriceViewSet.problem_name g = PhoneProblem.name (RepairPrice.problem rp)
       /\ RepairPriceViewSet.problem_icon g = PhoneProblem.icon (RepairPrice.problem rp)
       /\ RepairPriceViewSet.problem_description g
          = PhoneProblem.description (RepairPrice.problem rp)
       /\ RepairPriceViewSet.estimated_time g
          = PhoneProblem.estimated_time (RepairPrice.problem rp).

(** The percentage and the amount of the website discount in force. *)
Definition discount_in_force (s : Store) : Decimal * Decimal :=
  match active_website_discount s with
  | Some o => (WebsiteDiscount.percentage o, WebsiteDiscount.amount o)
  | None => (Dec.zero2, Dec.zero2)
  end.

(** The display change at 25 percent, the other percentages as they are;
    and a website discount of 7 percent. *)
Definition raised_percentage (rp : RepairPrice.t) : Decimal :=
  if RepairPrice.id rp =? 1 then cents 2500
  else RepairPrice.discount_percentage rp.

Definition seven_percent : list WebsiteDiscount.t :=
  [WebsiteDiscount.mk 1 (cents 0) (cents 700) true].

(** Three options in the order battery (duplicate), display (original),
    battery (original). *)
Definition three_options : list RepairPrice.t :=
  [sample_price 2 battery_replacement Duplicate 5000 2000 0 true;
   sample_price 1 display_change Original 10000 1000 500 true;
   sample_price 3 battery_replacement Original 8000 0 0 true].

(* ================================================================== *)
(** ** More of the code *)

From Stdlib Require Import Ascii.

(** *** [Order.generate_order_number] and [Order.save] ([product/models.py]) *)

Module OrderNumber.

(** [c.upper()] for one character, and [s.upper()]. *)
Definition upper_char (c : ascii) : ascii :=
  if (97 <=? nat_of_ascii c)%nat && (nat_of_ascii c <=? 122)%nat
  then ascii_of_nat (nat_of_ascii c - 32)
  else c.

Fixpoint upper (s : string) : string :=
  match s with
  | EmptyString => EmptyString
  | String c rest => String (upper_char c) (upper rest)
  end.

(** [f"ORD-{hex[:8].upper()}"] for [hex = uuid.uuid4().hex]. *)
Definition order_number_of (hex : string) : string :=
  ("ORD-" ++ upper (substring 0 8 hex))%string.

(** [generate_order_number]: the loop draws a number until one is not in
    the table.  [existing] are the order numbers in the table and [draws]
    the successive values of [uuid.uuid4().hex]; with no draw left the loop
    has not returned. *)
Fixpoint generate_order_number (existing : list string) (draws : list string)
    : option string :=
  match draws with
  | [] => None
  | hex :: rest =>
      let order_number := order_number_of hex in
      if negb (existsb (String.eqb order_number) existing)
      then Some order_number
      else generate_order_number existing rest
  end.

(** The number that [save] leaves on an order whose [order_number] is
    [current] (the empty string before the first save). *)
Definition save (current : string) (existing : list string) (draws : list string)
    : option string :=
  if String.eqb current "" then generate_order_number existing draws
  else Some current.

(** A digit of a hexadecimal number, in lower and in upper case. *)
Definition is_hex_lower (c : ascii) : bool :=
  ((48 <=? nat_of_ascii c)%nat && (nat_of_ascii c <=? 57)%nat)
  || ((97 <=? nat_of_ascii c)%nat && (nat_of_ascii c <=? 102)%nat).

Definition is_hex_upper (c : ascii) : bool :=
  ((48 <=? nat_of_ascii c)%nat && (nat_of_ascii c <=? 57)%nat)
  || ((65 <=? nat_of_ascii c)%nat && (nat_of_ascii c <=? 70)%nat).

(** What [uuid.uuid4().hex] returns: 32 hexadecimal digits in lower case. *)
Definition is_uuid_hex (s : string) : bool :=
  (String.length s =? 32)%nat && forallb is_hex_lower (list_ascii_of_string s).

End OrderNumber.

(** *** [PhoneModelDetailSerializer.get_available_repairs_count]
    ([product/serializers.py]) *)

Module PhoneModelDetailSerializer.

(** [obj.repair_prices.filter(is_active=True).values('problem').distinct()
    .count()]: the number of distinct problems among the active repair
    prices of the phone model. *)
Definition get_available_repairs_count (s : Store) (obj : PhoneModel.t) : nat :=
  List.length
    (nodup Z.eq_dec
       (map (fun rp => PhoneProblem.id (RepairPrice.problem rp))
          (filter RepairPrice.is_active
             (filter (fun rp => PhoneModel.id (RepairPrice.phone_model rp)
                                =? PhoneModel.id obj)
                (repair_prices s))))).

End PhoneModelDetailSerializer.

(** *** [SetCredentialsSerializer.validate_username]
    ([accounts/serializers.py]) *)

Module SetCredentialsSerializer.

    (* "Username already taken." *)

(** A character of the class [[a-z0-9_@.]]. *)
Definition allowed (c : ascii) : bool :=
  ((97 <=? nat_of_ascii c)%nat && (nat_of_ascii c <=? 122)%nat)
  || ((48 <=? nat_of_ascii c)%nat && (nat_of_ascii c <=? 57)%nat)
  || (nat_of_ascii c =? 95)%nat
  || (nat_of_ascii c =? 64)%nat
  || (nat_of_ascii c =? 46)%nat.



End SetCredentialsSerializer.

(* ================================================================== *)
(** ** Conditions and sample data for the further properties *)

(** The repair prices of a store have base prices and discount amounts of
    at least 0, as the validators of the two fields require. *)
Definition prices_nonneg (s : Store) : Prop :=
  forall rp, In rp (repair_prices s) ->
    (0 <= $(RepairPrice.base_price rp)
     /\ 0 <= $(RepairPrice.discount_amount rp))%Q.

(** A field with five digits, two of them fractional, and no validator. *)
Definition five_two : DecimalField := mkDecimalField 5 2 [].

(** The part type that an entry of ["items"] asks for. *)
Definition requested_part_type (raw : Request.item) : string :=
  match Request.part_type raw with
  | Some t => t
  | None => "original"%string
  end.

(** A body that selects the display change of a phone model that is not in
    the store, and one that selects a problem without repair price. *)
Definition unknown_model_request : Request.data :=
  Request.mk_data (Some 7) [Request.mk_item (Some 1) None] None None.

Definition unknown_option_request : Request.data :=
  Request.mk_data (Some 1)
    [Request.mk_item (Some 1) None; Request.mk_item (Some 9) None] None None.




(** A body with its entries replaced. *)
Definition with_items (d : Request.data) (items : list Request.item) : Request.data :=
  Request.mk_data (Request.phone_model_id d) items
    (Request.website_discount_percentage d) (Request.website_discount_amount d).

(** What a line of the preview says of the entry it answers and of the
    repair price [rp]. *)
Definition line_of (raw : Request.item) (rp : RepairPrice.t)
    (line : RepairPriceViewSet.item_breakdown) : Prop :=
  RepairPriceViewSet.item_problem_id line = Request.problem_id raw
  /\ RepairPriceViewSet.item_part_type line = requested_part_type raw
  /\ RepairPriceViewSet.item_problem_name line
     = PhoneProblem.name (RepairPrice.problem rp)
  /\ RepairPriceViewSet.item_base_price line = RepairPrice.base_price rp
  /\ RepairPriceViewSet.item_final_price line = RepairPrice.final_price rp
  /\ RepairPriceViewSet.item_discount_ line = RepairPrice.total_discount rp
  /\ RepairPriceViewSet.item_warranty_days line = RepairPrice.warranty_days rp.

(** Two items that differ at most in their warranty expiry. *)
Definition same_item_but_expiry (it it' : OrderItem.t) : Prop :=
  OrderItem.id it' = OrderItem.id it
  /\ OrderItem.problem it' = OrderItem.problem it
  /\ OrderItem.part_type it' = OrderItem.part_type it
  /\ OrderItem.base_price it' = OrderItem.base_price it
  /\ OrderItem.discount_percentage it' = OrderItem.discount_percentage it
  /\ OrderItem.discount_amount it' = OrderItem.discount_amount it
  /\ OrderItem.final_price it' = OrderItem.final_price it
  /\ OrderItem.warranty_days it' = OrderItem.warranty_days it
  /\ OrderItem.is_completed it' = OrderItem.is_completed it
  /\ OrderItem.completed_at it' = OrderItem.completed_at it.

(** Two orders with the same key, phone model, figures, payment status and
    completion time. *)
Definition same_order_figures (o o' : Order.t) : Prop :=
  Order.id o' = Order.id o
  /\ Order.phone_model o' = Order.phone_model o
  /\ Order.subtotal o' = Order.subtotal o
  /\ Order.item_discount o' = Order.item_discount o
  /\ Order.website_discount_percentage o' = Order.website_discount_percentage o
  /\ Order.website_discount_amount o' = Order.website_discount_amount o
  /\ Order.total_amount o' = Order.total_amount o
  /\ Order.payment_status o' = Order.payment_status o
  /\ Order.completed_at o' = Order.completed_at o.

(** A store whose only order is the pending order of scenario B. *)
Definition pending_store : Store :=
  with_orders scenario_B_store [Order.calculate_totals scenario_B_order].


(** The eight characters that follow ["ORD-"] in an order number. *)
Definition digits_of (order_number : string) : string :=
  substring 4 8 order_number.

(** A value of [uuid.uuid4().hex], and a table that holds the order number
    drawn from it. *)
Definition sample_hex : string := "3f2a9c0e5b7d4e1fa2b3c4d5e6f70812".
Definition other_hex : string := "00ff9c0e5b7d4e1fa2b3c4d5e6f70812".

(** [group[part_type]]: the child of a group for a part type. *)
Definition child (g : RepairPriceViewSet.group) (t : PartType)
    : option RepairPriceSerializer.data :=
  match t with
  | Original => RepairPriceViewSet.original g
  | Duplicate => RepairPriceViewSet.duplicate g
  end.

(** The repair prices that the query parameters of [list] ask for. *)
Definition in_scope (phone_model_id brand_id : option Z) (rp : RepairPrice.t)
    : bool :=
  match phone_model_id, brand_id with
  | Some m, _ => PhoneModel.id (RepairPrice.phone_model rp) =? m
  | None, Some b =>
      PhoneBrand.id (PhoneModel.brand (RepairPrice.phone_model rp)) =? b
  | None, None => true
  end.

(** [unique_together = ['phone_model', 'problem', 'part_type']] on the
    table of repair prices. *)
Definition unique_together (s : Store) : Prop :=
  NoDup (map (fun rp => (PhoneModel.id (RepairPrice.phone_model rp),
                         problem_of rp, RepairPrice.part_type rp))
             (repair_prices s)).

(** A store whose repair prices are the three options. *)
Definition three_options_store : Store :=
  mkStore [iphone] three_options [] [].

(** The value of a decimal of a request body; a missing one is 0. *)
Definition given (input : option Decimal) : Q :=
  match input with
  | Some x => $x
  | None => 0
  end.

(** The strings that the pattern of [validate_username] matches: one or
    more characters of the class, and possibly one newline after them. *)
Definition newline : ascii := ascii_of_nat 10.

(* ================================================================== *)
(** ** Lemmas on decimals *)

Lemma pow10_pos (n : nat) : 0 < Dec.pow10 n.
Proof. unfold Dec.pow10. apply Z.pow_pos_nonneg; lia. Qed.

Lemma pow10_add (n m : nat) : Dec.pow10 (n + m) = Dec.pow10 n * Dec.pow10 m.
Proof.
  unfold Dec.pow10. rewrite Nat2Z.inj_add, Z.pow_add_r; [reflexivity | lia | lia].
Qed.

Lemma pow10_Q_nonzero (n : nat) : ~ (inject_Z (Dec.pow10 n) == 0)%Q.
Proof.
  intro H. change 0%Q with (inject_Z 0) in H.
  apply (proj1 (inject_Z_injective _ _)) in H. pose proof (pow10_pos n). lia.
Qed.

Lemma value_mk (c : Z) (p : nat) :
  ($(Dec.mkDecimal c p) == inject_Z c / inject_Z (Dec.pow10 p))%Q.
Proof. reflexivity. Qed.

Lemma rescale_value (d : Decimal) (p : nat) :
  (Dec.places d <= p)%nat ->
  (inject_Z (Dec.rescale d p) / inject_Z (Dec.pow10 p) == $d)%Q.
Proof.
  intros Hp. unfold Dec.rescale, Dec.value.
  replace p with ((p - Dec.places d) + Dec.places d)%nat at 2 by lia.
  rewrite pow10_add, !inject_Z_mult.
  field. split; apply pow10_Q_nonzero.
Qed.

Lemma value_add (a b : Decimal) : ($(Dec.add a b) == $a + $b)%Q.
Proof.
  unfold Dec.add.
  rewrite value_mk, inject_Z_plus.
  rewrite <- (rescale_value a (Nat.max (Dec.places a) (Dec.places b))) by lia.
  rewrite <- (rescale_value b (Nat.max (Dec.places a) (Dec.places b))) by lia.
  field. apply pow10_Q_nonzero.
Qed.

Lemma value_sub (a b : Decimal) : ($(Dec.sub a b) == $a - $b)%Q.
Proof.
  unfold Dec.sub.
  rewrite value_mk. unfold Z.sub. rewrite inject_Z_plus, inject_Z_opp.
  rewrite <- (rescale_value a (Nat.max (Dec.places a) (Dec.places b))) by lia.
  rewrite <- (rescale_value b (Nat.max (Dec.places a) (Dec.places b))) by lia.
  field. apply pow10_Q_nonzero.
Qed.

Lemma value_mul (a b : Decimal) : ($(Dec.mul a b) == $a * $b)%Q.
Proof.
  unfold Dec.mul, Dec.value; cbn [Dec.coef Dec.places].
  rewrite pow10_add, !inject_Z_mult.
  field. split; apply pow10_Q_nonzero.
Qed.

Lemma pow10_S (n : nat) : Dec.pow10 (S n) = 10 * Dec.pow10 n.
Proof. change (S n) with (1 + n)%nat. rewrite pow10_add. reflexivity. Qed.

Lemma value_div100 (a : Decimal) : ($(Dec.div100 a) == $a / 100)%Q.
Proof.
  unfold Dec.div100.
  destruct (Dec.coef a mod 100 =? 0) eqn:E100.
  - apply Z.eqb_eq in E100.
    unfold Dec.value; cbn [Dec.coef Dec.places].
    apply Z.div_exact in E100; [|lia].
    rewrite E100 at 2. rewrite inject_Z_mult.
    change (inject_Z 100) with 100%Q.
    field. apply pow10_Q_nonzero.
  - destruct (Dec.coef a mod 10 =? 0) eqn:E10.
    + apply Z.eqb_eq in E10.
      unfold Dec.value; cbn [Dec.coef Dec.places].
      apply Z.div_exact in E10; [|lia].
      rewrite E10 at 2. rewrite pow10_S, !inject_Z_mult.
      change (inject_Z 10) with 10%Q.
      field. apply pow10_Q_nonzero.
    + unfold Dec.value; cbn [Dec.coef Dec.places].
      rewrite !pow10_S, !inject_Z_mult.
      change (inject_Z 10) with 10%Q.
      field. apply pow10_Q_nonzero.
Qed.

Lemma value_zero2 : ($Dec.zero2 == 0)%Q.
Proof. reflexivity. Qed.

Lemma value_int0 : ($Dec.int0 == 0)%Q.
Proof. reflexivity. Qed.

Lemma Qdiv_pow10_lt (x y : Z) (p : nat) :
  (inject_Z x / inject_Z (Dec.pow10 p) < inject_Z y / inject_Z (Dec.pow10 p))%Q
  <-> x < y.
Proof.
  unfold Qdiv. rewrite Qmult_lt_r.
  - rewrite <- Zlt_Qlt. reflexivity.
  - apply Qinv_lt_0_compat. change 0%Q with (inject_Z 0).
    rewrite <- Zlt_Qlt. apply pow10_pos.
Qed.

(** Comparison of decimals is comparison of their values. *)
Lemma value_lt (a b : Decimal) :
  ($a < $b)%Q <->
  Dec.rescale a (Nat.max (Dec.places a) (Dec.places b))
  < Dec.rescale b (Nat.max (Dec.places a) (Dec.places b)).
Proof.
  rewrite <- (rescale_value a (Nat.max (Dec.places a) (Dec.places b))) by lia.
  rewrite <- (rescale_value b (Nat.max (Dec.places a) (Dec.places b))) by lia.
  apply Qdiv_pow10_lt.
Qed.

Lemma gtb_spec (a b : Decimal) : Dec.gtb a b = true <-> ($b < $a)%Q.
Proof.
  unfold Dec.gtb, Dec.compare.
  rewrite value_lt, (Nat.max_comm (Dec.places b)).
  destruct (Z.compare_spec
              (Dec.rescale a (Nat.max (Dec.places a) (Dec.places b)))
              (Dec.rescale b (Nat.max (Dec.places a) (Dec.places b))));
    split; intros; try discriminate; try lia; reflexivity.
Qed.

Lemma ltb_spec (a b : Decimal) : Dec.ltb a b = true <-> ($a < $b)%Q.
Proof.
  unfold Dec.ltb, Dec.compare.
  rewrite value_lt.
  destruct (Z.compare_spec
              (Dec.rescale a (Nat.max (Dec.places a) (Dec.places b)))
              (Dec.rescale b (Nat.max (Dec.places a) (Dec.places b))));
    split; intros; try discriminate; try lia; reflexivity.
Qed.

Lemma gtb_false (a b : Decimal) : Dec.gtb a b = false <-> ($a <= $b)%Q.
Proof.
  split; intros H.
  - apply Qnot_lt_le. intro L. apply gtb_spec in L. congruence.
  - destruct (Dec.gtb a b) eqn:E; [|reflexivity].
    apply gtb_spec in E. apply Qlt_not_le in E. contradiction.
Qed.

Lemma ltb_false (a b : Decimal) : Dec.ltb a b = false <-> ($b <= $a)%Q.
Proof.
  split; intros H.
  - apply Qnot_lt_le. intro L. apply ltb_spec in L. congruence.
  - destruct (Dec.ltb a b) eqn:E; [|reflexivity].
    apply ltb_spec in E. apply Qlt_not_le in E. contradiction.
Qed.

(** Python's [max] of two decimals denotes the larger value. *)
Lemma value_max (a b : Decimal) : ($(Dec.max a b) == Qmax $a $b)%Q.
Proof.
  unfold Dec.max. destruct (Dec.gtb b a) eqn:E.
  - apply gtb_spec in E. symmetry. apply Q.max_r. apply Qlt_le_weak, E.
  - apply gtb_false in E. symmetry. apply Q.max_l, E.
Qed.

Lemma value_max_zero2 (a : Decimal) : ($(Dec.max a Dec.zero2) == Qmax 0 $a)%Q.
Proof. rewrite value_max, value_zero2. apply Q.max_comm. Qed.

Lemma Qmax_nonneg_l (x : Q) : (0 <= Qmax 0 x)%Q.
Proof. apply Q.le_max_l. Qed.

Lemma fold_left_Qplus (xs : list Q) (a : Q) :
  (fold_left Qplus xs a == a + fold_left Qplus xs 0)%Q.
Proof.
  revert a. induction xs as [|x xs IH]; intros a; cbn.
  - ring.
  - rewrite (IH (a + x)%Q), (IH (0 + x)%Q). ring.
Qed.

Lemma Qsum_cons (x : Q) (xs : list Q) : (Qsum (x :: xs) == x + Qsum xs)%Q.
Proof. unfold Qsum. cbn. rewrite fold_left_Qplus. ring. Qed.

Lemma value_fold_add (xs : list Decimal) (a : Decimal) :
  ($(fold_left Dec.add xs a) == $a + Qsum (map Dec.value xs))%Q.
Proof.
  revert a. induction xs as [|x xs IH]; intros a; cbn [fold_left map].
  - unfold Qsum; cbn. ring.
  - rewrite IH, value_add, Qsum_cons. ring.
Qed.

Lemma value_sum (xs : list Decimal) : ($(Dec.sum xs) == Qsum (map Dec.value xs))%Q.
Proof. unfold Dec.sum. rewrite value_fold_add, value_int0. ring. Qed.

(* ================================================================== *)
(** ** Prices of repair options *)

Lemma final_price_value (rp : RepairPrice.t) :
  ($(RepairPrice.final_price rp) ==
   Qmax 0 ((if Dec.gtb (RepairPrice.discount_percentage rp) Dec.int0
            then $(RepairPrice.base_price rp)
                 - $(RepairPrice.base_price rp)
                   * $(RepairPrice.discount_percentage rp) / 100
            else $(RepairPrice.base_price rp))
           - $(RepairPrice.discount_amount rp)))%Q.
Proof.
  unfold RepairPrice.final_price.
  rewrite value_max_zero2, value_sub.
  destruct (Dec.gtb (RepairPrice.discount_percentage rp) Dec.int0).
  - rewrite value_sub, value_div100, value_mul. reflexivity.
  - reflexivity.
Qed.

Lemma final_price_nonneg (rp : RepairPrice.t) :
  (0 <= $(RepairPrice.final_price rp))%Q.
Proof. rewrite final_price_value. apply Qmax_nonneg_l. Qed.

(** C2.  For a repair price whose base price is at least 0, whose discount
    percentage lies between 0 and 100 and whose discount amount is at least
    0, [final_price] is the larger of 0 and
    [base_price - base_price * discount_percentage / 100 - discount_amount],
    [total_discount] is [base_price - final_price], and [final_price] is
    never negative; for a base price of 20.00 with 100 percent and 50.00
    off, [final_price] is [Decimal('0.00')]. *)
Theorem final_price_formula :
  (forall rp : RepairPrice.t,
     (0 <= $(RepairPrice.base_price rp))%Q ->
     (0 <= $(RepairPrice.discount_percentage rp)
      /\ $(RepairPrice.discount_percentage rp) <= 100)%Q ->
     (0 <= $(RepairPrice.discount_amount rp))%Q ->
     ($(RepairPrice.final_price rp) ==
      Qmax 0 ($(RepairPrice.base_price rp)
              - $(RepairPrice.base_price rp)
                * $(RepairPrice.discount_percentage rp) / 100
              - $(RepairPrice.discount_amount rp)))%Q
     /\ ($(RepairPrice.total_discount rp) ==
         $(RepairPrice.base_price rp) - $(RepairPrice.final_price rp))%Q
     /\ (0 <= $(RepairPrice.final_price rp))%Q)
  /\ RepairPrice.final_price scenario_C = cents 0.
Proof.
  split; [|reflexivity].
  intros rp Hb [Hp0 Hp100] Ha. repeat split.
  - rewrite final_price_value.
    destruct (Dec.gtb (RepairPrice.discount_percentage rp) Dec.int0) eqn:E.
    + reflexivity.
    + apply gtb_false in E. rewrite value_int0 in E.
      assert (Hz : ($(RepairPrice.discount_percentage rp) == 0)%Q)
        by (apply Qle_antisym; assumption).
      rewrite Hz. apply Q.max_compat; [reflexivity|]. field.
  - unfold RepairPrice.total_discount. apply value_sub.
  - apply final_price_nonneg.
Qed.

Lemma final_price_formula_witness :
  (0 <= $(RepairPrice.base_price scenario_C))%Q
  /\ ($(RepairPrice.final_price scenario_C) ==
      Qmax 0 (20 - 20 * 100 / 100 - 50))%Q.
Proof.
  split; [vm_compute; discriminate|].
  destruct (proj1 final_price_formula scenario_C) as [H _].
  - vm_compute; discriminate.
  - split; vm_compute; discriminate.
  - vm_compute; discriminate.
  - rewrite H. vm_compute. reflexivity.
Defined.

(* ================================================================== *)
(** ** Order totals *)

Lemma Qsum_app (xs ys : list Q) : (Qsum (xs ++ ys) == Qsum xs + Qsum ys)%Q.
Proof.
  induction xs as [|x xs IH]; cbn [app].
  - unfold Qsum at 2; cbn. ring.
  - rewrite !Qsum_cons, IH. ring.
Qed.

Lemma Qsum_map_ext {A : Type} (f g : A -> Q) (xs : list A) :
  (forall x, f x == g x)%Q -> (Qsum (map f xs) == Qsum (map g xs))%Q.
Proof.
  intros H. induction xs as [|x xs IH]; cbn [map].
  - reflexivity.
  - rewrite !Qsum_cons, IH, H. reflexivity.
Qed.

(** The loop of the preview adds the base price and the discount of each
    line it appends. *)
Lemma price_items_totals (s : Store) (pm : PhoneModel.t)
    (items_data : list Request.item) :
  forall subtotal item_discount breakdown subtotal' item_discount' breakdown',
    RepairPriceViewSet.price_items s pm items_data subtotal item_discount breakdown
    = inr (subtotal', item_discount', breakdown') ->
    exists added,
      breakdown' = breakdown ++ added
      /\ ($subtotal' == $subtotal
            + Qsum (map (fun it => $(RepairPriceViewSet.item_base_price it)) added))%Q
      /\ ($item_discount' == $item_discount
            + Qsum (map (fun it => $(RepairPriceViewSet.item_base_price it)
                                   - $(RepairPriceViewSet.item_final_price it))
                        added))%Q.
Proof.
  induction items_data as [|item rest IH]; intros sub disc bd sub' disc' bd' H;
    cbn [RepairPriceViewSet.price_items] in H.
  - injection H as <- <- <-. exists []. rewrite app_nil_r.
    split; [reflexivity|]. split; unfold Qsum; cbn; ring.
  - destruct (RepairPriceViewSet.get_repair_price s pm _ _) as [rp| |];
      try discriminate.
    apply IH in H. destruct H as (added & -> & Hs & Hd).
    eexists (_ :: added). rewrite <- app_assoc. split; [reflexivity|].
    cbn [map RepairPriceViewSet.item_base_price RepairPriceViewSet.item_final_price].
    rewrite !Qsum_cons. split.
    + rewrite Hs, value_add. ring.
    + rewrite Hd, value_add, value_sub. ring.
Qed.

(** A response returned from inside the loop is an error. *)
Lemma price_items_early_return (s : Store) (pm : PhoneModel.t)
    (items_data : list Request.item) :
  forall subtotal item_discount breakdown response body,
    RepairPriceViewSet.price_items s pm items_data subtotal item_discount breakdown
    = inl response ->
    response <> HTTP_200_OK body.
Proof.
  induction items_data as [|item rest IH]; intros sub disc bd r body H;
    cbn [RepairPriceViewSet.price_items] in H; [discriminate|].
  destruct (RepairPriceViewSet.get_repair_price s pm _ _).
  - eapply IH, H.
  - injection H as <-. discriminate.
  - injection H as <-. discriminate.
Qed.

(** The response of a successful preview, taken apart. *)
Lemma calculate_price_ok (s : Store) (d : Request.data)
    (body : RepairPriceViewSet.price_data) :
  RepairPriceViewSet.calculate_price s d = HTTP_200_OK body ->
  exists phone_model subtotal item_discount,
    RepairPriceViewSet.price_items s phone_model (Request.items d)
      Dec.zero2 Dec.zero2 []
    = inr (subtotal, item_discount, RepairPriceViewSet.items body)
    /\ RepairPriceViewSet.subtotal body = subtotal
    /\ RepairPriceViewSet.item_discount body = item_discount
    /\ RepairPriceViewSet.price_after_item_discount body
       = Dec.sub subtotal item_discount
    /\ RepairPriceViewSet.website_discount body
       = Dec.add (Dec.mul (Dec.sub subtotal item_discount)
                    (Dec.div100 (RepairPriceViewSet.website_discount_percentage body)))
           (RepairPriceViewSet.website_discount_amount body)
    /\ RepairPriceViewSet.total_amount body
       = Dec.max (Dec.sub (Dec.sub subtotal item_discount)
                    (RepairPriceViewSet.website_discount body))
           Dec.zero2
    /\ RepairPriceViewSet.total_discount body
       = Dec.sub subtotal (RepairPriceViewSet.total_amount body).
Proof.
  unfold RepairPriceViewSet.calculate_price. intros H.
  destruct (Request.phone_model_id d) as [[|p|p]|]; try discriminate;
    (destruct (Request.items d) as [|i is_] eqn:Ei; [discriminate|]);
    (destruct (objects_get _ (phone_models s)) as [pm| |]; try discriminate);
    (destruct (RepairPriceViewSet.price_items s pm (i :: is_) _ _ _)
       as [r|[[sub disc] bd]] eqn:Ep;
     [ exfalso; subst r; eapply price_items_early_return; [exact Ep|reflexivity]
     | injection H as <-; exists pm, sub, disc; cbn; repeat split; assumption ]).
Qed.

Lemma calculate_totals_website_discount (pct amt pa : Decimal) :
  (0 <= $pct)%Q ->
  ($(Dec.add (if Dec.gtb pct Dec.int0 then Dec.mul pa (Dec.div100 pct) else Dec.zero2)
       amt)
   == $pa * ($pct / 100) + $amt)%Q.
Proof.
  intros Hp. rewrite value_add.
  destruct (Dec.gtb pct Dec.int0) eqn:E.
  - rewrite value_mul, value_div100. reflexivity.
  - apply gtb_false in E. rewrite value_int0 in E.
    assert (Hz : ($pct == 0)%Q) by (apply Qle_antisym; assumption).
    rewrite Hz, value_zero2. field.
Qed.

(** The response of the preview against the steps of the specification. *)
Lemma calculate_price_steps (s : Store) (d : Request.data)
    (body : RepairPriceViewSet.price_data) :
  RepairPriceViewSet.calculate_price s d = HTTP_200_OK body ->
  let t := Spec.computeOrderTotals (preview_lines body)
             $(RepairPriceViewSet.website_discount_percentage body)
             $(RepairPriceViewSet.website_discount_amount body) in
  ($(RepairPriceViewSet.subtotal body) == Spec.subtotal t)%Q
  /\ ($(RepairPriceViewSet.item_discount body) == Spec.item_discount t)%Q
  /\ ($(RepairPriceViewSet.price_after_item_discount body)
      == Spec.price_after_items t)%Q
  /\ ($(RepairPriceViewSet.website_discount body) == Spec.site_discount t)%Q
  /\ ($(RepairPriceViewSet.total_amount body) == Spec.total_amount t)%Q
  /\ ($(RepairPriceViewSet.total_discount body) == Spec.total_discount t)%Q.
Proof.
  intros H t.
  destruct (calculate_price_ok _ _ _ H)
    as (pm & sub & disc & Hloop & Hs & Hd & Hpa & Hw & Ht & Htd).
  destruct (price_items_totals _ _ _ _ _ _ _ _ _ Hloop) as (added & Hadd & Hsub & Hdisc).
  cbn [app] in Hadd.
  assert (Es : ($sub == Spec.subtotal t)%Q).
  { rewrite Hsub, value_zero2. subst t. cbn [Spec.computeOrderTotals Spec.subtotal].
    unfold preview_lines. rewrite Hadd, map_map. cbn [fst]. ring. }
  assert (Ed : ($disc == Spec.item_discount t)%Q).
  { rewrite Hdisc, value_zero2. subst t.
    cbn [Spec.computeOrderTotals Spec.item_discount].
    unfold preview_lines. rewrite Hadd, map_map. cbn [fst snd]. ring. }
  assert (Ew : ($(RepairPriceViewSet.website_discount body)
                == Spec.site_discount t)%Q).
  { rewrite Hw, value_add, value_mul, value_div100, value_sub, Es, Ed.
    reflexivity. }
  assert (Et : ($(RepairPriceViewSet.total_amount body)
                == Spec.total_amount t)%Q).
  { rewrite Ht, value_max_zero2, !value_sub, Ew, Es, Ed. reflexivity. }
  repeat split.
  + rewrite Hs. exact Es.
  + rewrite Hd. exact Ed.
  + rewrite Hpa, value_sub, Es, Ed. reflexivity.
  + exact Ew.
  + exact Et.
  + rewrite Htd, value_sub, Et, Es. reflexivity.
Qed.

(** [Order.calculate_totals] against the steps of the specification. *)
Lemma calculate_totals_steps (order : Order.t) :
  (0 <= $(Order.website_discount_percentage order))%Q ->
  let order' := Order.calculate_totals order in
  let t := Spec.computeOrderTotals (order_lines order)
             $(Order.website_discount_percentage order)
             $(Order.website_discount_amount order) in
  ($(Order.subtotal order') == Spec.subtotal t)%Q
  /\ ($(Order.item_discount order') == Spec.item_discount t)%Q
  /\ ($(Order.total_amount order') == Spec.total_amount t)%Q
  /\ ($(Order.total_discount order') == Spec.total_discount t)%Q.
Proof.
  intros Hp order' t.
  assert (Es : ($(Order.subtotal order') == Spec.subtotal t)%Q).
  { subst order' t. cbn. rewrite value_sum. unfold order_lines.
    rewrite !map_map. reflexivity. }
  assert (Ed : ($(Order.item_discount order') == Spec.item_discount t)%Q).
  { subst order' t. cbn. rewrite value_sum. unfold order_lines.
    rewrite !map_map. apply Qsum_map_ext. intros it.
    unfold OrderItem.item_discount. rewrite value_sub. reflexivity. }
  assert (Et : ($(Order.total_amount order') == Spec.total_amount t)%Q).
  { subst order'.
    cbn [Order.calculate_totals Order.set_totals Order.total_amount].
    rewrite value_max_zero2, value_sub.
    rewrite calculate_totals_website_discount by exact Hp.
    rewrite value_sub.
    cbn [Order.calculate_totals Order.set_totals Order.subtotal
           Order.item_discount] in Es, Ed.
    rewrite Es, Ed. reflexivity. }
  repeat split; try assumption.
  unfold Order.total_discount. rewrite value_sub, Es, Et. reflexivity.
Qed.

(** C1.  The order totals follow the six steps of the specification, on
    exact decimals.  The price preview returns, for the lines and the
    website discount of its response, the subtotal, item discount, price
    after item discounts, website discount, total amount and total discount
    of [Spec.computeOrderTotals]; [Order.calculate_totals] stores the
    subtotal, item discount and total amount of [Spec.computeOrderTotals]
    for the order's items and website discount, and [total_discount] is the
    sixth step; and on bases 100.00 and 50.00 with final prices 85.00 and
    40.00 under 5 percent and 0.00, both give subtotal 150.00, item discount
    25.00, total amount 118.75 and total discount 31.25, the preview also
    price after items 125.00 and website discount 6.25. *)
Theorem order_totals_follow_the_steps :
  (forall (s : Store) (d : Request.data) (body : RepairPriceViewSet.price_data),
     RepairPriceViewSet.calculate_price s d = HTTP_200_OK body ->
     let t := Spec.computeOrderTotals (preview_lines body)
                $(RepairPriceViewSet.website_discount_percentage body)
                $(RepairPriceViewSet.website_discount_amount body) in
     ($(RepairPriceViewSet.subtotal body) == Spec.subtotal t)%Q
     /\ ($(RepairPriceViewSet.item_discount body) == Spec.item_discount t)%Q
     /\ ($(RepairPriceViewSet.price_after_item_discount body)
         == Spec.price_after_items t)%Q
     /\ ($(RepairPriceViewSet.website_discount body) == Spec.site_discount t)%Q
     /\ ($(RepairPriceViewSet.total_amount body) == Spec.total_amount t)%Q
     /\ ($(RepairPriceViewSet.total_discount body) == Spec.total_discount t)%Q)
  /\ (forall order : Order.t,
        (0 <= $(Order.website_discount_percentage order))%Q ->
        let order' := Order.calculate_totals order in
        let t := Spec.computeOrderTotals (order_lines order)
                   $(Order.website_discount_percentage order)
                   $(Order.website_discount_amount order) in
        ($(Order.subtotal order') == Spec.subtotal t)%Q
        /\ ($(Order.item_discount order') == Spec.item_discount t)%Q
        /\ ($(Order.total_amount order') == Spec.total_amount t)%Q
        /\ ($(Order.total_discount order') == Spec.total_discount t)%Q)
  /\ (exists body,
        RepairPriceViewSet.calculate_price scenario_B_store scenario_B_request
        = HTTP_200_OK body
        /\ map RepairPriceViewSet.item_base_price (RepairPriceViewSet.items body)
           = [cents 10000; cents 5000]
        /\ map (fun it => Dec.quantize2 (RepairPriceViewSet.item_final_price it))
             (RepairPriceViewSet.items body)
           = [cents 8500; cents 4000]
        /\ Dec.quantize2 (RepairPriceViewSet.subtotal body) = cents 15000
        /\ Dec.quantize2 (RepairPriceViewSet.item_discount body) = cents 2500
        /\ Dec.quantize2 (RepairPriceViewSet.price_after_item_discount body)
           = cents 12500
        /\ Dec.quantize2 (RepairPriceViewSet.website_discount body) = cents 625
        /\ Dec.quantize2 (RepairPriceViewSet.total_amount body) = cents 11875
        /\ Dec.quantize2 (RepairPriceViewSet.total_discount body) = cents 3125
        /\ ($(RepairPriceViewSet.website_discount body) == 625 # 100)%Q
        /\ ($(RepairPriceViewSet.total_amount body) == 11875 # 100)%Q
        /\ ($(RepairPriceViewSet.total_discount body) == 3125 # 100)%Q)
  /\ (exists store' body,
        OrderViewSet.create scenario_B_store scenario_B_request
        = (store', HTTP_201_CREATED body)
        /\ OrderSerializer.subtotal body = cents 15000
        /\ OrderSerializer.item_discount body = cents 2500
        /\ OrderSerializer.total_amount body = cents 11875
        /\ OrderSerializer.total_discount body = cents 3125).
Proof.
  split; [|split; [|split]].
  - apply calculate_price_steps.
  - apply calculate_totals_steps.
  - eexists. split; [vm_compute; reflexivity|].
    repeat split; vm_compute; reflexivity.
  - eexists _, _. split; [vm_compute; reflexivity|].
    repeat split; vm_compute; reflexivity.
Qed.

Lemma order_totals_follow_the_steps_witness :
  (exists body,
     RepairPriceViewSet.calculate_price scenario_B_store scenario_B_request
     = HTTP_200_OK body
     /\ ($(RepairPriceViewSet.total_amount body)
         == Spec.total_amount
              (Spec.computeOrderTotals (preview_lines body)
                 $(RepairPriceViewSet.website_discount_percentage body)
                 $(RepairPriceViewSet.website_discount_amount body)))%Q)
  /\ (0 <= $(Order.website_discount_percentage scenario_B_order))%Q
  /\ ($(Order.total_amount (Order.calculate_totals scenario_B_order))
      == Spec.total_amount
           (Spec.computeOrderTotals (order_lines scenario_B_order)
              $(Order.website_discount_percentage scenario_B_order)
              $(Order.website_discount_amount scenario_B_order)))%Q.
Proof.
  split; [|split].
  - eexists. split.
    + vm_compute. reflexivity.
    + apply (proj1 order_totals_follow_the_steps
               scenario_B_store scenario_B_request).
      vm_compute. reflexivity.
  - vm_compute. discriminate.
  - apply (proj1 (proj2 order_totals_follow_the_steps) scenario_B_order).
    vm_compute. discriminate.
Defined.

(* ================================================================== *)
(** ** Which website discount is applied *)

Lemma calculate_price_website_discount (s : Store) (d : Request.data)
    (body : RepairPriceViewSet.price_data) :
  RepairPriceViewSet.calculate_price s d = HTTP_200_OK body ->
  RepairPriceViewSet.website_discount_percentage body
  = match active_website_discount s with
    | Some o => WebsiteDiscount.percentage o
    | None => Dec.zero2
    end
  /\ RepairPriceViewSet.website_discount_amount body
     = match active_website_discount s with
       | Some o => WebsiteDiscount.amount o
       | None => Dec.zero2
       end.
Proof.
  unfold RepairPriceViewSet.calculate_price, active_website_discount. intros H.
  destruct (Request.phone_model_id d) as [[|p|p]|]; try discriminate;
    (destruct (Request.items d) as [|i is_]; [discriminate|]);
    (destruct (objects_get _ (phone_models s)) as [pm| |]; try discriminate);
    (destruct (RepairPriceViewSet.price_items s pm (i :: is_) _ _ _)
       as [r|[[sub disc] bd]] eqn:Ep;
     [ exfalso; subst r; eapply price_items_early_return; [exact Ep|reflexivity]
     | injection H as <-; cbn; split; reflexivity ]).
Qed.

(** What a serializer's decimal field returns denotes its input. *)
Lemma to_internal_value_value (f : DecimalField) (x q : Decimal) :
  to_internal_value f x = Some q -> ($q == $x)%Q /\ run_validators f q = true.
Proof.
  unfold to_internal_value, validate_precision. intros H.
  destruct (Nat.leb (Dec.places x) (decimal_places f)) eqn:Ep; [|discriminate].
  cbn [andb] in H.
  destruct (Z.abs (Dec.coef x) <? _); [|discriminate].
  destruct (run_validators f _) eqn:Ev; [|discriminate].
  injection H as <-. split; [|exact Ev].
  rewrite value_mk. apply rescale_value. apply Nat.leb_le, Ep.
Qed.

Lemma validate_returns_data (s : Store) (data data' : OrderCreateSerializer.validated) :
  OrderCreateSerializer.validate s data = Valid data' -> data' = data.
Proof.
  unfold OrderCreateSerializer.validate. intros H.
  destruct (objects_get _ (phone_models s)); try discriminate.
  destruct (OrderCreateSerializer.validate_repair_prices s row _); try discriminate.
  injection H as <-. reflexivity.
Qed.

(** A valid body, taken apart. *)
Lemma is_valid_fields (s : Store) (d : Request.data)
    (data : OrderCreateSerializer.validated) :
  OrderCreateSerializer.is_valid s d = Valid data ->
  OrderCreateSerializer.validate s data = Valid data
  /\ OrderCreateSerializer.phone_model_id_field (Request.phone_model_id d)
     = inr (OrderCreateSerializer.phone_model_id data)
  /\ OrderCreateSerializer.items_field (Request.items d)
     = inr (OrderCreateSerializer.items data)
  /\ OrderCreateSerializer.decimal_field "website_discount_percentage"
       OrderCreateSerializer.website_discount_percentage_field
       (Request.website_discount_percentage d)
     = inr (OrderCreateSerializer.website_discount_percentage data)
  /\ OrderCreateSerializer.decimal_field "website_discount_amount"
       OrderCreateSerializer.website_discount_amount_field
       (Request.website_discount_amount d)
     = inr (OrderCreateSerializer.website_discount_amount data).
Proof.
  unfold OrderCreateSerializer.is_valid, OrderCreateSerializer.to_internal_value.
  intros H.
  destruct (OrderCreateSerializer.phone_model_id_field _) as [e1|a];
    destruct (OrderCreateSerializer.items_field _) as [e2|b];
    destruct (OrderCreateSerializer.decimal_field "website_discount_percentage" _ _)
      as [e3|c];
    destruct (OrderCreateSerializer.decimal_field "website_discount_amount" _ _)
      as [e4|e]; try discriminate.
  pose proof (validate_returns_data _ _ _ H) as ->.
  cbn. repeat split; try reflexivity. exact H.
Qed.

(** A created order, taken apart. *)
Lemma create_created (s s' : Store) (d : Request.data) (body : OrderSerializer.data) :
  OrderViewSet.create s d = (s', HTTP_201_CREATED body) ->
  exists data phone_model created,
    OrderCreateSerializer.is_valid s d = Valid data
    /\ objects_get
         (fun pm => PhoneModel.id pm =? OrderCreateSerializer.phone_model_id data)
         (phone_models s) = Found phone_model
    /\ OrderViewSet.create_items s phone_model (OrderCreateSerializer.items data)
         (fresh_id (OrderViewSet.all_item_ids s)) = Some created
    /\ s' = with_orders s (orders s ++ [created_order s data phone_model created])
    /\ body = OrderSerializer.to_representation
                (created_order s data phone_model created).
Proof.
  unfold OrderViewSet.create. intros H.
  destruct (OrderCreateSerializer.is_valid s d) as [data|es|] eqn:Ev;
    try (injection H; discriminate).
  destruct (objects_get _ (phone_models s)) as [pm| |] eqn:Em;
    try (injection H; discriminate).
  destruct (OrderViewSet.create_items s pm _ _) as [created|] eqn:Ec;
    try (injection H; discriminate).
  injection H as <- <-. exists data, pm, created. repeat split; assumption.
Qed.

Lemma percentage_field_bounds (q : Decimal) :
  run_validators OrderCreateSerializer.website_discount_percentage_field q = true ->
  (0 <= $q /\ $q <= 100)%Q.
Proof.
  unfold run_validators; cbn [forallb validators validator_accepts
    OrderCreateSerializer.website_discount_percentage_field].
  rewrite !andb_true_iff, !negb_true_iff. intros (Hmin & Hmax & _).
  apply ltb_false in Hmin. apply gtb_false in Hmax. split.
  - rewrite <- value_zero2. exact Hmin.
  - eapply Qle_trans; [exact Hmax|]. vm_compute. discriminate.
Qed.

Lemma validated_percentage_nonneg (s : Store) (d : Request.data)
    (data : OrderCreateSerializer.validated) :
  OrderCreateSerializer.is_valid s d = Valid data ->
  (0 <= $(OrderCreateSerializer.website_discount_percentage data))%Q.
Proof.
  intros H. destruct (is_valid_fields _ _ _ H) as (_ & _ & _ & Hp & _).
  unfold OrderCreateSerializer.decimal_field in Hp.
  destruct (Request.website_discount_percentage d) as [p|].
  - destruct (to_internal_value _ p) as [q|] eqn:E; [|discriminate].
    injection Hp as <-. apply to_internal_value_value in E.
    apply percentage_field_bounds, (proj2 E).
  - injection Hp as <-. vm_compute. discriminate.
Qed.




(** With 5 percent active and no override in the body, [create] stores a
    website discount of 0.00 percent and a total of 125.00. *)
Lemma create_without_override_applies_zero :
  exists s' body,
    OrderViewSet.create scenario_B_store
      (with_override scenario_B_request None None)
    = (s', HTTP_201_CREATED body)
    /\ OrderSerializer.website_discount_percentage body = cents 0
    /\ OrderSerializer.total_amount body = cents 12500.
Proof.
  eexists _, _. split; [vm_compute; reflexivity|]. split; reflexivity.
Qed.

(* ================================================================== *)
(** ** Bounds of a website discount *)

(** C9 at a failing input.  Creating a website discount of 150 percent and
    -5.00 succeeds and stores an active row outside the bounds, which is
    the discount in force from then on; the validators that the order model
    declares for the same two quantities, and the fields of the order
    serializer, refuse the two values. *)
Theorem website_discount_bounds_not_enforced :
  exists s' row,
    DiscountViewSet.create empty_store out_of_bounds_discount
    = (s', HTTP_201_CREATED row)
    /\ website_discounts s' = [row]
    /\ active_website_discount s' = Some row
    /\ (100 < $(WebsiteDiscount.percentage row))%Q
    /\ ($(WebsiteDiscount.amount row) < 0)%Q
    /\ run_validators Order.website_discount_percentage_field (cents 15000)
       = false
    /\ run_validators Order.website_discount_amount_field (cents (-500))
       = false
    /\ to_internal_value OrderCreateSerializer.website_discount_percentage_field
         (cents 15000) = None
    /\ to_internal_value OrderCreateSerializer.website_discount_amount_field
         (cents (-500)) = None.
Proof.
  eexists _, _. split; [vm_compute; reflexivity|].
  repeat split; vm_compute; reflexivity.
Qed.

(* ================================================================== *)
(** ** The life cycle of an order *)

Lemma objects_get_found {A : Type} (cond : A -> bool) (rows : list A) (row : A) :
  objects_get cond rows = Found row <-> filter cond rows = [row].
Proof.
  unfold objects_get. destruct (filter cond rows) as [|x [|y l]]; split;
    intros H; try discriminate; congruence.
Qed.

Lemma objects_get_cond {A : Type} (cond : A -> bool) (rows : list A) (row : A) :
  objects_get cond rows = Found row -> In row rows /\ cond row = true.
Proof.
  intros H. apply objects_get_found in H.
  apply filter_In. rewrite H. left. reflexivity.
Qed.

Lemma filter_save_order (order' : Order.t) (rows : list Order.t) :
  filter (fun o => Order.id o =? Order.id order')
    (map (fun o => if Order.id o =? Order.id order' then order' else o) rows)
  = map (fun _ => order') (filter (fun o => Order.id o =? Order.id order') rows).
Proof.
  induction rows as [|o rows IH]; cbn [map filter]; [reflexivity|].
  destruct (Order.id o =? Order.id order') eqn:E.
  - rewrite Z.eqb_refl. cbn [map]. f_equal. exact IH.
  - rewrite E. exact IH.
Qed.

(** Saving an order puts it where the order with its key was. *)
Lemma get_object_save_order (s : Store) (pk : Z) (order order' : Order.t) :
  OrderViewSet.get_object s pk = Found order ->
  Order.id order' = pk ->
  OrderViewSet.get_object (save_order s order') pk = Found order'.
Proof.
  unfold OrderViewSet.get_object. intros H <-.
  apply objects_get_found in H. apply objects_get_found.
  unfold save_order; cbn [orders with_orders].
  rewrite filter_save_order, H. reflexivity.
Qed.

Lemma get_object_id (s : Store) (pk : Z) (order : Order.t) :
  OrderViewSet.get_object s pk = Found order -> Order.id order = pk.
Proof.
  intros H. apply objects_get_cond in H. apply Z.eqb_eq, (proj2 H).
Qed.

(** C5.  For an order in the store: [confirm] succeeds when the status is
    ['pending'], and the stored order then has status ['confirmed'] and the
    confirmation time; from any other status it answers with an error and
    leaves the store as it was.  [cancel] answers with an error and leaves
    the store as it was when the status is ['completed'], ['cancelled'] or
    ['refunded'], and otherwise stores the order with status ['cancelled'].
    Confirming the cancelled order of scenario E fails and its status stays
    ['cancelled']. *)
Theorem confirm_cancel_transitions :
  (forall (s : Store) (now pk : Z) (order : Order.t),
     OrderViewSet.get_object s pk = Found order ->
     (Order.status order = "pending"%string ->
        exists order',
          OrderViewSet.confirm s now pk
          = (save_order s order',
             HTTP_200_OK (OrderSerializer.to_representation order'))
          /\ Order.status order' = "confirmed"%string
          /\ Order.confirmed_at order' = Some now
          /\ OrderViewSet.get_object (save_order s order') pk = Found order')
     /\ (Order.status order <> "pending"%string ->
           OrderViewSet.confirm s now pk
           = (s, HTTP_400_BAD_REQUEST [only_pending_orders_can_be_confirmed]))
     /\ (In (Order.status order) ["completed"; "cancelled"; "refunded"]%string ->
           OrderViewSet.cancel s pk
           = (s, HTTP_400_BAD_REQUEST
                   [cannot_cancel_order_with_status (Order.status order)]))
     /\ (~ In (Order.status order) ["completed"; "cancelled"; "refunded"]%string ->
           exists order',
             OrderViewSet.cancel s pk
             = (save_order s order',
                HTTP_200_OK (OrderSerializer.to_representation order'))
             /\ Order.status order' = "cancelled"%string
             /\ OrderViewSet.get_object (save_order s order') pk = Found order'))
  /\ (OrderViewSet.get_object scenario_E_store 1 = Found cancelled_order
      /\ Order.status cancelled_order = "cancelled"%string
      /\ OrderViewSet.confirm scenario_E_store 1700000000 1
         = (scenario_E_store,
            HTTP_400_BAD_REQUEST [only_pending_orders_can_be_confirmed])).
Proof.
  split; [|repeat split; vm_compute; reflexivity].
  intros s now pk order H. pose proof (get_object_id _ _ _ H) as Hid.
  split; [|split; [|split]].
  - intros Hs. unfold OrderViewSet.confirm. rewrite H, Hs. cbn [String.eqb negb].
    eexists. split; [reflexivity|]. cbn.
    split; [reflexivity|]. split; [reflexivity|].
    apply (get_object_save_order _ _ _ _ H). exact Hid.
  - intros Hs. unfold OrderViewSet.confirm. rewrite H.
    apply String.eqb_neq in Hs. rewrite Hs. reflexivity.
  - intros Hs. unfold OrderViewSet.cancel. rewrite H.
    assert (E : existsb (String.eqb (Order.status order))
                  ["completed"; "cancelled"; "refunded"]%string = true).
    { apply existsb_exists. exists (Order.status order).
      split; [exact Hs|apply String.eqb_refl]. }
    rewrite E. reflexivity.
  - intros Hs. unfold OrderViewSet.cancel. rewrite H.
    assert (E : existsb (String.eqb (Order.status order))
                  ["completed"; "cancelled"; "refunded"]%string = false).
    { apply not_true_is_false. intros E. apply existsb_exists in E.
      destruct E as (x & Hx & Ex). apply String.eqb_eq in Ex. subst x.
      contradiction. }
    rewrite E. eexists. split; [reflexivity|]. cbn.
    split; [reflexivity|].
    apply (get_object_save_order _ _ _ _ H). exact Hid.
Qed.

Lemma confirm_cancel_transitions_witness :
  OrderViewSet.get_object scenario_E_store 1 = Found cancelled_order
  /\ OrderViewSet.cancel scenario_E_store 1
     = (scenario_E_store,
        HTTP_400_BAD_REQUEST
          [cannot_cancel_order_with_status (Order.status cancelled_order)]).
Proof.
  split; [vm_compute; reflexivity|].
  apply (proj1 confirm_cancel_transitions scenario_E_store 0 1 cancelled_order).
  - vm_compute. reflexivity.
  - vm_compute. right. left. reflexivity.
Defined.

(* ================================================================== *)
(** ** A missing part type *)

Lemma run_validation_default (item : Request.item) :
  OrderItemCreateSerializer.run_validation (with_default_part_type item)
  = OrderItemCreateSerializer.run_validation item.
Proof.
  destruct item as [pid [t|]]; reflexivity.
Qed.

Lemma items_children_default (items : list Request.item) :
  OrderCreateSerializer.items_children (map with_default_part_type items)
  = OrderCreateSerializer.items_children items.
Proof.
  induction items as [|item rest IH]; cbn [map OrderCreateSerializer.items_children].
  - reflexivity.
  - rewrite run_validation_default, IH. reflexivity.
Qed.

Lemma price_items_default (s : Store) (pm : PhoneModel.t)
    (items : list Request.item) :
  forall subtotal item_discount breakdown,
    RepairPriceViewSet.price_items s pm (map with_default_part_type items)
      subtotal item_discount breakdown
    = RepairPriceViewSet.price_items s pm items subtotal item_discount breakdown.
Proof.
  induction items as [|item rest IH]; intros sub disc bd;
    cbn [map RepairPriceViewSet.price_items]; [reflexivity|].
  destruct item as [pid [t|]]; cbn [with_default_part_type Request.problem_id
    Request.part_type];
    destruct (RepairPriceViewSet.get_repair_price s pm pid _);
    try reflexivity; apply IH.
Qed.

(** C10.  An entry of ["items"] without a part type is not refused: the
    preview and [create] answer a body with missing part types as they
    answer the body with ['original'] written in their place, the item
    serializer validates such an entry to the part type [Original], and on
    the sample store the preview prices the entry as ['original'] and
    [create] stores an item of part type [Original] with the figures of the
    original part. *)
Theorem missing_part_type_is_original :
  (forall (s : Store) (d : Request.data),
     RepairPriceViewSet.calculate_price s (explicit_part_types d)
     = RepairPriceViewSet.calculate_price s d)
  /\ (forall (s : Store) (d : Request.data),
        OrderViewSet.create s (explicit_part_types d) = OrderViewSet.create s d)
  /\ (forall n : Z,
        OrderItemCreateSerializer.run_validation (Request.mk_item (Some n) None)
        = inr (OrderItemCreateSerializer.mk n Original))
  /\ (exists body,
        RepairPriceViewSet.calculate_price scenario_B_store no_part_type_request
        = HTTP_200_OK body
        /\ map RepairPriceViewSet.item_part_type (RepairPriceViewSet.items body)
           = ["original"%string]
        /\ map RepairPriceViewSet.item_base_price (RepairPriceViewSet.items body)
           = [cents 10000])
  /\ (exists s' body order,
        OrderViewSet.create scenario_B_store no_part_type_request
        = (s', HTTP_201_CREATED body)
        /\ orders s' = [order]
        /\ map OrderItem.part_type (Order.order_items order) = [Original]
        /\ map OrderItem.base_price (Order.order_items order) = [cents 10000]).
Proof.
  split; [|split; [|split; [|split]]].
  - intros s d. unfold RepairPriceViewSet.calculate_price.
    cbn [explicit_part_types Request.phone_model_id Request.items].
    destruct (Request.phone_model_id d) as [[|p|p]|]; try reflexivity;
      (destruct (Request.items d) as [|i is_] eqn:Ei; [reflexivity|]);
      change (map with_default_part_type (i :: is_))
        with (with_default_part_type i :: map with_default_part_type is_);
      cbv iota;
      (destruct (objects_get _ (phone_models s)) as [pm| |]; try reflexivity);
      change (with_default_part_type i :: map with_default_part_type is_)
        with (map with_default_part_type (i :: is_));
      rewrite price_items_default; reflexivity.
  - intros s d. unfold OrderViewSet.create.
    assert (E : OrderCreateSerializer.is_valid s (explicit_part_types d)
                = OrderCreateSerializer.is_valid s d).
    { unfold OrderCreateSerializer.is_valid,
        OrderCreateSerializer.to_internal_value,
        OrderCreateSerializer.items_field.
      cbn [explicit_part_types Request.phone_model_id Request.items
             Request.website_discount_percentage Request.website_discount_amount].
      rewrite items_children_default. reflexivity. }
    rewrite E. reflexivity.
  - intros n. reflexivity.
  - eexists. split; [vm_compute; reflexivity|]. split; reflexivity.
  - eexists _, _, _. split; [vm_compute; reflexivity|].
    repeat split; reflexivity.
Qed.

(* ================================================================== *)
(** ** Stock *)

Lemma filter_map_same {A : Type} (cond : A -> bool) (g : A -> A) (rows : list A) :
  (forall x, cond (g x) = cond x) ->
  filter cond (map g rows) = map g (filter cond rows).
Proof.
  intros H. induction rows as [|x rows IH]; cbn [map filter]; [reflexivity|].
  rewrite H. destruct (cond x); cbn [map]; rewrite IH; reflexivity.
Qed.

Lemma objects_get_map {A : Type} (cond : A -> bool) (g : A -> A) (rows : list A) :
  (forall x, cond (g x) = cond x) ->
  objects_get cond (map g rows)
  = match objects_get cond rows with
    | Found row => Found (g row)
    | DoesNotExist => DoesNotExist
    | MultipleObjectsReturned => MultipleObjectsReturned
    end.
Proof.
  intros H. unfold objects_get. rewrite (filter_map_same _ _ _ H).
  destruct (filter cond rows) as [|x [|y l]]; reflexivity.
Qed.

(** The loop of the preview does not read the in-stock flag. *)
Lemma price_items_in_stock (f : RepairPrice.t -> bool) (s : Store)
    (pm : PhoneModel.t) (items : list Request.item) :
  forall subtotal item_discount breakdown,
    RepairPriceViewSet.price_items (with_in_stock f s) pm items
      subtotal item_discount breakdown
    = RepairPriceViewSet.price_items s pm items subtotal item_discount breakdown.
Proof.
  induction items as [|item rest IH]; intros sub disc bd;
    cbn [RepairPriceViewSet.price_items]; [reflexivity|].
  unfold RepairPriceViewSet.get_repair_price at 1.
  cbn [with_in_stock with_repair_prices repair_prices].
  rewrite objects_get_map by (intros x; reflexivity).
  fold (RepairPriceViewSet.get_repair_price s pm (Request.problem_id item)
          match Request.part_type item with
          | Some t => t
          | None => "original"%string
          end).
  destruct (RepairPriceViewSet.get_repair_price s pm _ _) as [rp| |];
    try reflexivity.
  apply IH.
Qed.

(** When the loop of [validate] passes, every item selects a part that is
    in stock. *)
Lemma validate_repair_prices_valid (s : Store) (pm : PhoneModel.t)
    (items : list OrderItemCreateSerializer.validated) (u : unit) :
  OrderCreateSerializer.validate_repair_prices s pm items = Valid u ->
  forall item, In item items ->
    exists rp, OrderCreateSerializer.get_repair_price s pm item = Found rp
               /\ RepairPrice.in_stock rp = true.
Proof.
  induction items as [|i rest IH]; intros H item Hin; [contradiction|].
  cbn [OrderCreateSerializer.validate_repair_prices] in H.
  destruct (OrderCreateSerializer.get_repair_price s pm i) as [rp| |] eqn:E;
    try discriminate.
  destruct (RepairPrice.in_stock rp) eqn:Es; [|discriminate].
  cbn [negb] in H. destruct Hin as [<-|Hin].
  - exists rp. split; [exact E|exact Es].
  - apply IH; assumption.
Qed.

(** The loop of [validate] stops at the first item whose part is out of
    stock. *)
Lemma validate_repair_prices_out_of_stock (s : Store) (pm : PhoneModel.t)
    (before after : list OrderItemCreateSerializer.validated)
    (item : OrderItemCreateSerializer.validated) (rp : RepairPrice.t) :
  (forall i, In i before ->
     exists r, OrderCreateSerializer.get_repair_price s pm i = Found r
               /\ RepairPrice.in_stock r = true) ->
  OrderCreateSerializer.get_repair_price s pm item = Found rp ->
  RepairPrice.in_stock rp = false ->
  OrderCreateSerializer.validate_repair_prices s pm (before ++ item :: after)
  = Invalid [part_not_in_stock
               (PhoneProblem.name (RepairPrice.problem rp))
               (part_type_value (OrderItemCreateSerializer.part_type item))].
Proof.
  intros Hb Hi Hs. induction before as [|i rest IH];
    cbn [app OrderCreateSerializer.validate_repair_prices].
  - rewrite Hi, Hs. reflexivity.
  - destruct (Hb i (or_introl eq_refl)) as (r & -> & ->). cbn [negb].
    apply IH. intros j Hj. apply Hb. right. exact Hj.
Qed.

(** C6.  Stock is enforced by [create] and not by the preview.  The
    preview answers the same whatever the in-stock flags are.  [create], for
    a body whose fields are valid and whose phone model is active, fails and
    leaves the store as it was when an item selects a part that is out of
    stock; when the items before it select parts in stock, the error names
    the problem and the part type.  On the sample store with every part out
    of stock, the preview prices the selection and [create] refuses it. *)
Theorem stock_checked_by_create_only :
  (forall (f : RepairPrice.t -> bool) (s : Store) (d : Request.data),
     RepairPriceViewSet.calculate_price (with_in_stock f s) d
     = RepairPriceViewSet.calculate_price s d)
  /\ (forall (s : Store) (d : Request.data)
        (data : OrderCreateSerializer.validated) (pm : PhoneModel.t)
        (item : OrderItemCreateSerializer.validated) (rp : RepairPrice.t),
        OrderCreateSerializer.to_internal_value d = inr data ->
        objects_get
          (fun pm => (PhoneModel.id pm =? OrderCreateSerializer.phone_model_id data)
                     && PhoneModel.is_active pm)
          (phone_models s) = Found pm ->
        In item (OrderCreateSerializer.items data) ->
        OrderCreateSerializer.get_repair_price s pm item = Found rp ->
        RepairPrice.in_stock rp = false ->
        fst (OrderViewSet.create s d) = s
        /\ forall body, snd (OrderViewSet.create s d) <> HTTP_201_CREATED body)
  /\ (forall (s : Store) (d : Request.data)
        (data : OrderCreateSerializer.validated) (pm : PhoneModel.t)
        (before after : list OrderItemCreateSerializer.validated)
        (item : OrderItemCreateSerializer.validated) (rp : RepairPrice.t),
        OrderCreateSerializer.to_internal_value d = inr data ->
        objects_get
          (fun pm => (PhoneModel.id pm =? OrderCreateSerializer.phone_model_id data)
                     && PhoneModel.is_active pm)
          (phone_models s) = Found pm ->
        OrderCreateSerializer.items data = before ++ item :: after ->
        (forall i, In i before ->
           exists r, OrderCreateSerializer.get_repair_price s pm i = Found r
                     /\ RepairPrice.in_stock r = true) ->
        OrderCreateSerializer.get_repair_price s pm item = Found rp ->
        RepairPrice.in_stock rp = false ->
        OrderViewSet.create s d
        = (s, HTTP_400_BAD_REQUEST
                [part_not_in_stock
                   (PhoneProblem.name (RepairPrice.problem rp))
                   (part_type_value (OrderItemCreateSerializer.part_type item))]))
  /\ ((exists body,
         RepairPriceViewSet.calculate_price out_of_stock_store scenario_B_request
         = HTTP_200_OK body
         /\ Dec.quantize2 (RepairPriceViewSet.total_amount body) = cents 11875)
      /\ OrderViewSet.create out_of_stock_store scenario_B_request
         = (out_of_stock_store,
            HTTP_400_BAD_REQUEST [part_not_in_stock "Display Change" "original"])).
Proof.
  split; [|split; [|split]].
  - intros f s d. unfold RepairPriceViewSet.calculate_price.
    cbn [with_in_stock with_repair_prices phone_models website_discounts].
    destruct (Request.phone_model_id d) as [[|p|p]|]; try reflexivity;
      (destruct (Request.items d) as [|i is_]; [reflexivity|]);
      (destruct (objects_get _ (phone_models s)) as [pm| |]; try reflexivity);
      fold (with_in_stock f s); rewrite price_items_in_stock; reflexivity.
  - intros s d data pm item rp Hf Hm Hin Hg Hs.
    unfold OrderViewSet.create, OrderCreateSerializer.is_valid,
      OrderCreateSerializer.validate.
    rewrite Hf, Hm.
    destruct (OrderCreateSerializer.validate_repair_prices s pm _) as [u|es|] eqn:Ev.
    + destruct (validate_repair_prices_valid _ _ _ _ Ev item Hin) as (r & Hr & Hrs).
      rewrite Hg in Hr. injection Hr as <-. congruence.
    + split; [reflexivity|]. intros body. discriminate.
    + split; [reflexivity|]. intros body. discriminate.
  - intros s d data pm before after item rp Hf Hm Hitems Hb Hg Hs.
    unfold OrderViewSet.create, OrderCreateSerializer.is_valid,
      OrderCreateSerializer.validate.
    rewrite Hf, Hm, Hitems.
    rewrite (validate_repair_prices_out_of_stock _ _ _ _ _ _ Hb Hg Hs).
    reflexivity.
  - split.
    + eexists. split; [vm_compute; reflexivity|]. vm_compute. reflexivity.
    + vm_compute. reflexivity.
Qed.

Lemma stock_checked_by_create_only_witness :
  OrderCreateSerializer.get_repair_price out_of_stock_store iphone
    (OrderItemCreateSerializer.mk 2 Duplicate)
  = Found (set_in_stock (fun _ => false)
             (sample_price 2 battery_replacement Duplicate 5000 2000 0 true))
  /\ fst (OrderViewSet.create out_of_stock_store scenario_B_request)
     = out_of_stock_store
  /\ OrderViewSet.create out_of_stock_store scenario_B_request
     = (out_of_stock_store,
        HTTP_400_BAD_REQUEST
          [part_not_in_stock
             (PhoneProblem.name display_change)
             (part_type_value Original)]).
Proof.
  split; [vm_compute; reflexivity|]. split.
  - eapply (proj1 (proj2 stock_checked_by_create_only) out_of_stock_store
              scenario_B_request _ iphone (OrderItemCreateSerializer.mk 2 Duplicate)).
    + vm_compute. reflexivity.
    + vm_compute. reflexivity.
    + cbn. right. left. reflexivity.
    + vm_compute. reflexivity.
    + reflexivity.
  - eapply (proj1 (proj2 (proj2 stock_checked_by_create_only)) out_of_stock_store
              scenario_B_request _ iphone []
              [OrderItemCreateSerializer.mk 2 Duplicate]
              (OrderItemCreateSerializer.mk 1 Original)
              (set_in_stock (fun _ => false)
                 (sample_price 1 display_change Original 10000 1000 500 true))).
    + vm_compute. reflexivity.
    + vm_compute. reflexivity.
    + reflexivity.
    + intros i [].
    + vm_compute. reflexivity.
    + reflexivity.
Defined.

(* ================================================================== *)
(** ** Order items are snapshots *)

Lemma fresh_id_above (ids : list Z) (n : Z) : In n ids -> n < fresh_id ids.
Proof.
  unfold fresh_id. induction ids as [|m ids IH]; intros H; [contradiction|].
  cbn [fold_right]. destruct H as [->|H].
  - lia.
  - specialize (IH H). lia.
Qed.

Lemma filter_none {A : Type} (cond : A -> bool) (rows : list A) :
  (forall x, In x rows -> cond x = false) -> filter cond rows = [].
Proof.
  intros H. induction rows as [|x rows IH]; cbn [filter]; [reflexivity|].
  rewrite (H x (or_introl eq_refl)). apply IH. intros y Hy. apply H. right. exact Hy.
Qed.


(** Each item that [create] makes holds the figures of the repair price
    its entry selects. *)
Lemma create_items_snapshots (s : Store) (pm : PhoneModel.t)
    (items : list OrderItemCreateSerializer.validated) :
  forall next_id created,
    OrderViewSet.create_items s pm items next_id = Some created ->
    Forall2 (fun item it =>
               exists rp, OrderCreateSerializer.get_repair_price s pm item = Found rp
                          /\ snapshot_of rp it)
            items created.
Proof.
  induction items as [|item rest IH]; intros n created H;
    cbn [OrderViewSet.create_items] in H.
  - injection H as <-. constructor.
  - destruct (OrderCreateSerializer.get_repair_price s pm item) as [rp| |] eqn:E;
      try discriminate.
    destruct (OrderViewSet.create_items s pm rest (n + 1)) as [tail|] eqn:Et;
      try discriminate.
    injection H as <-. constructor.
    + exists rp. split; [exact E|].
      pose proof (objects_get_cond _ _ _ E) as [_ Hc].
      rewrite !andb_true_iff in Hc. destruct Hc as [[[_ _] Hpt] _].
      unfold snapshot_of; cbn. repeat split.
      destruct (RepairPrice.part_type rp), (OrderItemCreateSerializer.part_type item);
        try reflexivity; discriminate.
    + eapply IH, Et.
Qed.



(* ================================================================== *)
(** ** Raising a discount *)

(** The part of the base price that the percentage takes off. *)
Lemma percentage_part_monotone (b p p' : Q) (g g' : bool) :
  (0 <= b)%Q -> (p <= p')%Q ->
  (g = true <-> (0 < p)%Q) -> (g' = true <-> (0 < p')%Q) ->
  ((if g' then b - b * p' / 100 else b) <= (if g then b - b * p / 100 else b))%Q.
Proof.
  intros Hb Hp Hg Hg'.
  assert (Hm : forall x y : Q, (x <= y -> b * x / 100 <= b * y / 100)%Q).
  { intros x y Hxy. unfold Qdiv. apply Qmult_le_compat_r.
    - rewrite !(Qmult_comm b). apply Qmult_le_compat_r; assumption.
    - vm_compute. discriminate. }
  destruct g, g'.
  - specialize (Hm p p' Hp). lra.
  - assert (0 < p)%Q by (apply Hg; reflexivity).
    assert (~ 0 < p')%Q by (intros H'; apply Hg' in H'; discriminate). lra.
  - assert (0 < p')%Q by (apply Hg'; reflexivity).
    specialize (Hm 0%Q p' (Qlt_le_weak _ _ H)).
    assert (b * 0 / 100 == 0)%Q by field. lra.
  - lra.
Qed.

Lemma final_price_monotone (rp rp' : RepairPrice.t) :
  (0 <= $(RepairPrice.base_price rp))%Q ->
  discount_raised rp rp' ->
  ($(RepairPrice.final_price rp') <= $(RepairPrice.final_price rp))%Q.
Proof.
  intros Hb (Eb & Hp & Ha).
  rewrite !final_price_value, Eb.
  apply Q.max_le_compat_l.
  pose proof (percentage_part_monotone
                $(RepairPrice.base_price rp)
                $(RepairPrice.discount_percentage rp)
                $(RepairPrice.discount_percentage rp')
                (Dec.gtb (RepairPrice.discount_percentage rp) Dec.int0)
                (Dec.gtb (RepairPrice.discount_percentage rp') Dec.int0)
                Hb Hp) as Hm.
  assert (H1 : Dec.gtb (RepairPrice.discount_percentage rp) Dec.int0 = true
               <-> (0 < $(RepairPrice.discount_percentage rp))%Q)
    by (rewrite gtb_spec, value_int0; reflexivity).
  assert (H2 : Dec.gtb (RepairPrice.discount_percentage rp') Dec.int0 = true
               <-> (0 < $(RepairPrice.discount_percentage rp'))%Q)
    by (rewrite gtb_spec, value_int0; reflexivity).
  specialize (Hm H1 H2). lra.
Qed.

(** The price after the item discounts is the sum of the final prices. *)
Lemma price_after_items_sum (lines : list (Q * Q)) :
  (Qsum (map fst lines) - Qsum (map (fun l => fst l - snd l) lines)
   == Qsum (map snd lines))%Q.
Proof.
  induction lines as [|l lines IH]; cbn [map].
  - reflexivity.
  - rewrite !Qsum_cons. lra.
Qed.

Lemma Qsum_final_prices (lines lines' : list (Q * Q)) :
  Forall2 (fun l l' => 0 <= snd l' /\ snd l' <= snd l)%Q lines lines' ->
  (0 <= Qsum (map snd lines') /\ Qsum (map snd lines') <= Qsum (map snd lines))%Q.
Proof.
  induction 1 as [|l l' lines lines' [H0 H1] _ IH]; cbn [map].
  - split; apply Qle_refl.
  - rewrite !Qsum_cons. lra.
Qed.

(** The total of the specification falls when final prices fall and the
    website discount rises. *)
Lemma spec_total_monotone (lines lines' : list (Q * Q)) (s s' f f' : Q) :
  Forall2 (fun l l' => 0 <= snd l' /\ snd l' <= snd l)%Q lines lines' ->
  (0 <= s)%Q -> (s <= s')%Q -> (s' <= 100)%Q -> (f <= f')%Q ->
  (Spec.total_amount (Spec.computeOrderTotals lines' s' f')
   <= Spec.total_amount (Spec.computeOrderTotals lines s f))%Q.
Proof.
  intros Hl Hs0 Hs Hs' Hf. cbn [Spec.computeOrderTotals Spec.total_amount].
  rewrite !price_after_items_sum.
  destruct (Qsum_final_prices _ _ Hl) as [H0 H1].
  set (P := Qsum (map snd lines)) in *. set (P' := Qsum (map snd lines')) in *.
  apply Q.max_le_compat_l.
  unfold Qdiv. change (/ 100)%Q with (1 # 100)%Q.
  assert (A : (P' * (1 - s' * (1 # 100)) <= P * (1 - s' * (1 # 100)))%Q).
  { apply Qmult_le_compat_r; [exact H1|]. lra. }
  assert (B : (P * (s * (1 # 100)) <= P * (s' * (1 # 100)))%Q).
  { rewrite !(Qmult_comm P). apply Qmult_le_compat_r; lra. }
  lra.
Qed.

Lemma lines_of_raised (rps rps' : list RepairPrice.t) :
  Forall (fun rp => 0 <= $(RepairPrice.base_price rp))%Q rps ->
  Forall2 discount_raised rps rps' ->
  forall items items' : list OrderItem.t,
    Forall2 snapshot_of rps items ->
    Forall2 snapshot_of rps' items' ->
    Forall2 (fun l l' : Q * Q => 0 <= snd l' /\ snd l' <= snd l)%Q
      (map (fun it => ($(OrderItem.base_price it), $(OrderItem.final_price it)))
           items)
      (map (fun it => ($(OrderItem.base_price it), $(OrderItem.final_price it)))
           items').
Proof.
  intros Hb Hr. induction Hr as [|rp rp' rps rps' Hraised _ IH];
    intros items items' Hs Hs'; inversion Hs; inversion Hs'; subst; cbn [map].
  - constructor.
  - inversion Hb; subst. constructor.
    + cbn [snd].
      match goal with
      | H1 : snapshot_of rp ?it, H2 : snapshot_of rp' ?it' |- _ =>
          destruct H1 as (_ & _ & _ & _ & _ & -> & _);
          destruct H2 as (_ & _ & _ & _ & _ & -> & _)
      end.
      split; [apply final_price_nonneg|apply final_price_monotone; assumption].
    + apply IH; assumption.
Qed.

(** The loop of the preview on a store whose discounts were raised: it
    runs to the end as before, and each line's final price is at least 0
    and not larger than before. *)
Lemma price_items_raised (s : Store) (percentage amount : RepairPrice.t -> Decimal)
    (rows : list WebsiteDiscount.t) (pm : PhoneModel.t)
    (items : list Request.item) :
  (forall rp, In rp (repair_prices s) -> 0 <= $(RepairPrice.base_price rp))%Q ->
  (forall rp, In rp (repair_prices s) ->
              $(RepairPrice.discount_percentage rp) <= $(percentage rp)
              /\ $(RepairPrice.discount_amount rp) <= $(amount rp))%Q ->
  forall sub disc bd sub2 disc2 bd2 sub1 disc1 bd1,
    RepairPriceViewSet.price_items s pm items sub disc bd = inr (sub1, disc1, bd1) ->
    exists added added' sub' disc',
      bd1 = bd ++ added
      /\ RepairPriceViewSet.price_items
           (with_website_discounts
              (with_prices RepairPrice.base_price percentage amount s) rows)
           pm items sub2 disc2 bd2
         = inr (sub', disc', bd2 ++ added')
      /\ Forall2 (fun it it' =>
                    0 <= $(RepairPriceViewSet.item_final_price it')
                    /\ $(RepairPriceViewSet.item_final_price it')
                       <= $(RepairPriceViewSet.item_final_price it))%Q
           added added'.
Proof.
  intros Hbase Hraise.
  induction items as [|item rest IH]; intros sub disc bd sub2 disc2 bd2 sub1 disc1 bd1 H;
    cbn [RepairPriceViewSet.price_items] in H |- *.
  - injection H as <- <- <-. exists [], [], sub2, disc2. rewrite !app_nil_r.
    repeat split. constructor.
  - unfold RepairPriceViewSet.get_repair_price at 1.
    cbn [with_website_discounts with_prices with_repair_prices repair_prices].
    rewrite objects_get_map by (intros x; reflexivity).
    fold (RepairPriceViewSet.get_repair_price s pm (Request.problem_id item)
            match Request.part_type item with
            | Some t => t
            | None => "original"%string
            end).
    destruct (RepairPriceViewSet.get_repair_price s pm _ _) as [rp| |] eqn:E;
      try discriminate.
    edestruct IH as (added & added' & sub' & disc' & -> & Hl & HF); [exact H|].
    rewrite <- !app_assoc. cbn [app].
    exists (RepairPriceViewSet.mk_item (Request.problem_id item)
              (PhoneProblem.name (RepairPrice.problem rp))
              match Request.part_type item with
              | Some t => t
              | None => "original"%string
              end
              (RepairPrice.base_price rp)
              (Dec.sub (RepairPrice.base_price rp) (RepairPrice.final_price rp))
              (RepairPrice.final_price rp) (RepairPrice.warranty_days rp)
            :: added).
    eexists (_ :: added'), sub', disc'.
    split; [reflexivity|]. split.
    { rewrite Hl, <- app_assoc. reflexivity. }
    constructor; [|exact HF].
    cbn [RepairPriceViewSet.item_final_price]. split.
    + apply final_price_nonneg.
    + apply final_price_monotone.
      * apply Hbase. apply (objects_get_cond _ _ _ E).
      * split; [reflexivity|]. apply Hraise. apply (objects_get_cond _ _ _ E).
Qed.

Lemma calculate_price_raised (s : Store)
    (percentage amount : RepairPrice.t -> Decimal)
    (rows : list WebsiteDiscount.t) (d : Request.data)
    (body : RepairPriceViewSet.price_data) :
  (forall rp, In rp (repair_prices s) -> 0 <= $(RepairPrice.base_price rp))%Q ->
  (forall rp, In rp (repair_prices s) ->
              $(RepairPrice.discount_percentage rp) <= $(percentage rp)
              /\ $(RepairPrice.discount_amount rp) <= $(amount rp))%Q ->
  RepairPriceViewSet.calculate_price s d = HTTP_200_OK body ->
  exists body',
    RepairPriceViewSet.calculate_price
      (with_website_discounts
         (with_prices RepairPrice.base_price percentage amount s) rows) d
    = HTTP_200_OK body'
    /\ Forall2 (fun l l' : Q * Q => 0 <= snd l' /\ snd l' <= snd l)%Q
         (preview_lines body) (preview_lines body').
Proof.
  intros Hbase Hraise. unfold RepairPriceViewSet.calculate_price.
  cbn [with_website_discounts with_prices with_repair_prices phone_models
         website_discounts].
  intros H.
  destruct (Request.phone_model_id d) as [[|p|p]|]; try discriminate;
    (destruct (Request.items d) as [|i is_]; [discriminate|]);
    (destruct (objects_get _ (phone_models s)) as [pm| |]; try discriminate);
    (destruct (RepairPriceViewSet.price_items s pm (i :: is_) _ _ _)
       as [r|[[sub disc] bd]] eqn:Ep;
     [ exfalso; subst r; eapply price_items_early_return; [exact Ep|reflexivity]
     | ]);
    destruct (price_items_raised s percentage amount rows pm (i :: is_)
                Hbase Hraise _ _ _ Dec.zero2 Dec.zero2 [] _ _ _ Ep)
      as (added & added' & sub' & disc' & Hbd & Hloop & HF);
    rewrite Hloop; injection H as <-; eexists; (split; [reflexivity|]);
    unfold preview_lines; cbn [RepairPriceViewSet.items app] in Hbd |- *;
    subst bd; clear - HF;
    induction HF; cbn [map]; constructor; auto.
Qed.

Lemma discount_in_force_fields (s : Store) :
  fst (discount_in_force s)
  = match active_website_discount s with
    | Some o => WebsiteDiscount.percentage o
    | None => Dec.zero2
    end
  /\ snd (discount_in_force s)
     = match active_website_discount s with
       | Some o => WebsiteDiscount.amount o
       | None => Dec.zero2
       end.
Proof. unfold discount_in_force. destruct (active_website_discount s); split; reflexivity. Qed.

(** C7.  Raising a discount never raises a price.  For a repair price with
    a base price of at least 0, raising its discount percentage or its
    discount amount does not raise [final_price].  For two orders whose
    items hold the figures of repair prices with base prices of at least 0,
    the second order's repair prices having equal or raised discounts and
    its website discount an equal or raised percentage, within 0 to 100, and
    an equal or raised amount, [calculate_totals] gives the second order a
    total amount that is not larger.  And when the discounts of the repair
    prices of a store and the website discount in force are so raised, a
    selection that the preview priced is priced again, with a total amount
    that is not larger. *)
Theorem discounts_are_monotone :
  (forall rp rp' : RepairPrice.t,
     (0 <= $(RepairPrice.base_price rp))%Q ->
     discount_raised rp rp' ->
     ($(RepairPrice.final_price rp') <= $(RepairPrice.final_price rp))%Q)
  /\ (forall (rps rps' : list RepairPrice.t) (order order' : Order.t),
        Forall (fun rp => 0 <= $(RepairPrice.base_price rp))%Q rps ->
        Forall2 discount_raised rps rps' ->
        Forall2 snapshot_of rps (Order.order_items order) ->
        Forall2 snapshot_of rps' (Order.order_items order') ->
        (0 <= $(Order.website_discount_percentage order))%Q ->
        ($(Order.website_discount_percentage order)
         <= $(Order.website_discount_percentage order'))%Q ->
        ($(Order.website_discount_percentage order') <= 100)%Q ->
        ($(Order.website_discount_amount order)
         <= $(Order.website_discount_amount order'))%Q ->
        ($(Order.total_amount (Order.calculate_totals order'))
         <= $(Order.total_amount (Order.calculate_totals order)))%Q)
  /\ (forall (s : Store) (percentage amount : RepairPrice.t -> Decimal)
        (rows : list WebsiteDiscount.t) (d : Request.data)
        (body : RepairPriceViewSet.price_data),
        let s' := with_website_discounts
                    (with_prices RepairPrice.base_price percentage amount s)
                    rows in
        (forall rp, In rp (repair_prices s) ->
                    0 <= $(RepairPrice.base_price rp))%Q ->
        (forall rp, In rp (repair_prices s) ->
                    $(RepairPrice.discount_percentage rp) <= $(percentage rp)
                    /\ $(RepairPrice.discount_amount rp) <= $(amount rp))%Q ->
        (0 <= $(fst (discount_in_force s)))%Q ->
        ($(fst (discount_in_force s)) <= $(fst (discount_in_force s')))%Q ->
        ($(fst (discount_in_force s')) <= 100)%Q ->
        ($(snd (discount_in_force s)) <= $(snd (discount_in_force s')))%Q ->
        RepairPriceViewSet.calculate_price s d = HTTP_200_OK body ->
        exists body',
          RepairPriceViewSet.calculate_price s' d = HTTP_200_OK body'
          /\ ($(RepairPriceViewSet.total_amount body')
              <= $(RepairPriceViewSet.total_amount body))%Q).
Proof.
  split; [|split].
  - apply final_price_monotone.
  - intros rps rps' order order' Hb Hr Hs Hs' Hp0 Hp Hp100 Ha.
    assert (Hp0' : (0 <= $(Order.website_discount_percentage order'))%Q)
      by (eapply Qle_trans; eassumption).
    destruct (calculate_totals_steps order Hp0) as (_ & _ & -> & _).
    destruct (calculate_totals_steps order' Hp0') as (_ & _ & -> & _).
    apply spec_total_monotone; try assumption.
    apply (lines_of_raised rps rps'); assumption.
  - intros s percentage amount rows d body s' Hb Hr Hp0 Hp Hp100 Ha H.
    destruct (calculate_price_raised s percentage amount rows d body Hb Hr H)
      as (body' & H' & HF).
    exists body'. split; [exact H'|].
    destruct (calculate_price_steps _ _ _ H) as (_ & _ & _ & _ & -> & _).
    destruct (calculate_price_steps _ _ _ H') as (_ & _ & _ & _ & -> & _).
    destruct (calculate_price_website_discount _ _ _ H) as [-> ->].
    destruct (calculate_price_website_discount _ _ _ H') as [-> ->].
    destruct (discount_in_force_fields s) as [<- <-].
    destruct (discount_in_force_fields
                (with_website_discounts
                   (with_prices RepairPrice.base_price percentage amount s) rows))
      as [<- <-].
    apply spec_total_monotone; assumption.
Qed.

Lemma discounts_are_monotone_witness :
  (0 <= $(RepairPrice.base_price (sample_price 1 display_change Original
                                    10000 1000 500 true)))%Q
  /\ ($(RepairPrice.final_price (sample_price 1 display_change Original
                                   10000 2500 500 true))
      <= $(RepairPrice.final_price (sample_price 1 display_change Original
                                      10000 1000 500 true)))%Q
  /\ Forall2 discount_raised scenario_B_prices raised_prices
  /\ ($(Order.total_amount (Order.calculate_totals raised_order))
      <= $(Order.total_amount (Order.calculate_totals plain_order)))%Q
  /\ (exists body body',
        RepairPriceViewSet.calculate_price scenario_B_store scenario_B_request
        = HTTP_200_OK body
        /\ RepairPriceViewSet.calculate_price
             (with_website_discounts
                (with_prices RepairPrice.base_price raised_percentage
                   RepairPrice.discount_amount scenario_B_store)
                seven_percent)
             scenario_B_request
           = HTTP_200_OK body'
        /\ ($(RepairPriceViewSet.total_amount body')
            <= $(RepairPriceViewSet.total_amount body))%Q).
Proof.
  assert (R : Forall2 discount_raised scenario_B_prices raised_prices).
  { repeat constructor; vm_compute; discriminate. }
  split; [vm_compute; discriminate|]. split; [|split; [exact R|split]].
  - apply (proj1 discounts_are_monotone).
    + vm_compute. discriminate.
    + repeat split; vm_compute; discriminate.
  - apply (proj1 (proj2 discounts_are_monotone) scenario_B_prices raised_prices).
    + repeat constructor; vm_compute; discriminate.
    + exact R.
    + repeat constructor.
    + repeat constructor.
    + vm_compute. discriminate.
    + vm_compute. discriminate.
    + vm_compute. discriminate.
    + vm_compute. discriminate.
  - destruct (RepairPriceViewSet.calculate_price scenario_B_store
                scenario_B_request) as [body| | | |] eqn:E;
      try (vm_compute in E; discriminate).
    exists body.
    destruct (proj2 (proj2 discounts_are_monotone) scenario_B_store
                raised_percentage RepairPrice.discount_amount seven_percent
                scenario_B_request body) as (body' & H' & Hle);
      [ | | | | | | exact E
      | exists body'; split; [reflexivity|split; [exact H'|exact Hle]] ].
    + intros rp [<-|[<-|[]]]; vm_compute; discriminate.
    + intros rp [<-|[<-|[]]]; split; vm_compute; discriminate.
    + vm_compute. discriminate.
    + vm_compute. discriminate.
    + vm_compute. discriminate.
    + vm_compute. discriminate.
Defined.

(* ================================================================== *)
(** ** Grouping repair prices by problem *)

Lemma first_appearances_In (keys : list Z) (k : Z) :
  In k (first_appearances keys) <-> In k keys.
Proof.
  induction keys as [|j keys IH]; cbn [first_appearances]; [reflexivity|].
  cbn [In]. rewrite filter_In, IH, negb_true_iff, Z.eqb_neq.
  destruct (Z.eq_dec j k) as [->|Hne]; [tauto|].
  split; [tauto|]. intros [H|H]; [tauto|]. right. split; [exact H|congruence].
Qed.

Lemma first_appearances_NoDup (keys : list Z) : NoDup (first_appearances keys).
Proof.
  induction keys as [|j keys IH]; cbn [first_appearances]; constructor.
  - rewrite filter_In, negb_true_iff, Z.eqb_neq. tauto.
  - apply NoDup_filter, IH.
Qed.

Lemma existsb_first_appearances (keys : list Z) (k : Z) :
  existsb (fun j => j =? k) (first_appearances keys)
  = existsb (fun j => j =? k) keys.
Proof.
  apply eq_true_iff_eq. rewrite !existsb_exists.
  split; intros (j & Hj & E); exists j; split; try exact E;
    apply first_appearances_In; exact Hj.
Qed.

Lemma filter_all {A : Type} (cond : A -> bool) (rows : list A) :
  (forall x, In x rows -> cond x = true) -> filter cond rows = rows.
Proof.
  intros H. induction rows as [|x rows IH]; cbn [filter]; [reflexivity|].
  rewrite (H x (or_introl eq_refl)). f_equal. apply IH.
  intros y Hy. apply H. right. exact Hy.
Qed.

Lemma first_appearances_snoc (keys : list Z) (k : Z) :
  first_appearances (keys ++ [k])
  = if existsb (fun j => j =? k) keys then first_appearances keys
    else first_appearances keys ++ [k].
Proof.
  induction keys as [|j keys IH]; cbn [app first_appearances existsb filter];
    [reflexivity|].
  rewrite IH. destruct (j =? k) eqn:Ejk; cbn [orb].
  - apply Z.eqb_eq in Ejk. subst j.
    destruct (existsb (fun j => j =? k) keys); [reflexivity|].
    rewrite filter_app. cbn [filter]. rewrite Z.eqb_refl. cbn [negb].
    rewrite app_nil_r. reflexivity.
  - destruct (existsb (fun j => j =? k) keys); [reflexivity|].
    rewrite filter_app. cbn [filter]. rewrite Z.eqb_sym, Ejk. reflexivity.
Qed.

Lemma dict_update_keys (key : Z)
    (f : RepairPriceViewSet.group -> RepairPriceViewSet.group)
    (d : list (Z * RepairPriceViewSet.group)) :
  map fst (RepairPriceViewSet.dict_update key f d) = map fst d.
Proof.
  unfold RepairPriceViewSet.dict_update. rewrite map_map. apply map_ext.
  intros kv. destruct (fst kv =? key); reflexivity.
Qed.

Lemma dict_contains_keys (key : Z) (d : list (Z * RepairPriceViewSet.group)) :
  RepairPriceViewSet.dict_contains key d
  = existsb (fun j => j =? key) (map fst d).
Proof.
  unfold RepairPriceViewSet.dict_contains.
  induction d as [|kv d IH]; cbn [existsb map]; [reflexivity|].
  rewrite IH. reflexivity.
Qed.

Lemma dict_update_absent (key : Z)
    (f : RepairPriceViewSet.group -> RepairPriceViewSet.group)
    (d : list (Z * RepairPriceViewSet.group)) :
  RepairPriceViewSet.dict_contains key d = false ->
  RepairPriceViewSet.dict_update key f d = d.
Proof.
  unfold RepairPriceViewSet.dict_contains, RepairPriceViewSet.dict_update.
  intros H. rewrite <- (map_id d) at 2. apply map_ext_in. intros kv Hin.
  destruct (fst kv =? key) eqn:E; [|reflexivity].
  exfalso. apply not_true_iff_false in H. apply H.
  apply existsb_exists. exists kv. split; assumption.
Qed.

Lemma last_option_snoc (qs : list RepairPrice.t) (rp : RepairPrice.t)
    (k : Z) (t : PartType) :
  last_option (qs ++ [rp]) k t
  = if (problem_of rp =? k) && part_type_eqb (RepairPrice.part_type rp) t
    then Some rp else last_option qs k t.
Proof. unfold last_option. rewrite rev_app_distr. reflexivity. Qed.

Lemma last_option_absent (qs : list RepairPrice.t) (k : Z) (t : PartType) :
  existsb (fun j => j =? k) (map problem_of qs) = false ->
  last_option qs k t = None.
Proof.
  intros H. unfold last_option.
  destruct (find _ (rev qs)) as [rp|] eqn:E; [|reflexivity].
  apply find_some in E. destruct E as [Hin Hc].
  apply andb_true_iff in Hc. destruct Hc as [Hk _].
  exfalso. apply not_true_iff_false in H. apply H.
  apply existsb_exists. exists (problem_of rp). split; [|exact Hk].
  apply in_map, in_rev, Hin.
Qed.

Lemma first_option_snoc (qs : list RepairPrice.t) (rp : RepairPrice.t) (k : Z) :
  first_option (qs ++ [rp]) k
  = match first_option qs k with
    | Some x => Some x
    | None => if problem_of rp =? k then Some rp else None
    end.
Proof.
  unfold first_option. induction qs as [|q qs IH]; cbn [app find].
  - reflexivity.
  - destruct (problem_of q =? k); [reflexivity|exact IH].
Qed.

Lemma first_option_absent (qs : list RepairPrice.t) (k : Z) :
  existsb (fun j => j =? k) (map problem_of qs) = false ->
  first_option qs k = None.
Proof.
  intros H. unfold first_option.
  destruct (find _ qs) as [rp|] eqn:E; [|reflexivity].
  apply find_some in E. destruct E as [Hin Hk].
  exfalso. apply not_true_iff_false in H. apply H.
  apply existsb_exists. exists (problem_of rp). split; [|exact Hk].
  apply in_map, Hin.
Qed.

(** A group of another problem is not touched by a new option. *)
Lemma group_reflects_other (qs : list RepairPrice.t) (rp : RepairPrice.t)
    (g : RepairPriceViewSet.group) :
  problem_of rp <> RepairPriceViewSet.problem_id g ->
  group_reflects qs g -> group_reflects (qs ++ [rp]) g.
Proof.
  intros Hne (Ho & Hd & first & Hf & Hrest). apply Z.eqb_neq in Hne.
  unfold group_reflects. rewrite !last_option_snoc, first_option_snoc, Hne, Hf.
  cbn [andb]. split; [exact Ho|]. split; [exact Hd|].
  exists first. split; [reflexivity|exact Hrest].
Qed.

(** A new option of the group's problem takes the child of its part type. *)
Lemma group_reflects_set (qs : list RepairPrice.t) (rp : RepairPrice.t)
    (g : RepairPriceViewSet.group) :
  problem_of rp = RepairPriceViewSet.problem_id g ->
  group_reflects qs g ->
  group_reflects (qs ++ [rp])
    (RepairPriceViewSet.set_part g (RepairPrice.part_type rp)
       (RepairPriceSerializer.to_representation rp)).
Proof.
  intros He (Ho & Hd & first & Hf & Hrest). apply Z.eqb_eq in He.
  unfold group_reflects.
  destruct (RepairPrice.part_type rp) eqn:Et;
    cbn [RepairPriceViewSet.set_part RepairPriceViewSet.problem_id
           RepairPriceViewSet.original RepairPriceViewSet.duplicate
           RepairPriceViewSet.problem_name RepairPriceViewSet.problem_icon
           RepairPriceViewSet.problem_description
           RepairPriceViewSet.estimated_time];
    rewrite !last_option_snoc, first_option_snoc, He, Et, Hf;
    cbn [andb part_type_eqb option_map];
    (split; [first [reflexivity | assumption]|]);
    (split; [first [reflexivity | assumption]|]);
    exists first; (split; [reflexivity|exact Hrest]).
Qed.

(** The group that the first option of a problem opens. *)
Lemma group_reflects_new (qs : list RepairPrice.t) (rp : RepairPrice.t) :
  existsb (fun j => j =? problem_of rp) (map problem_of qs) = false ->
  group_reflects (qs ++ [rp])
    (RepairPriceViewSet.set_part
       (RepairPriceViewSet.mk_group (problem_of rp)
          (PhoneProblem.name (RepairPrice.problem rp))
          (PhoneProblem.icon (RepairPrice.problem rp))
          (PhoneProblem.description (RepairPrice.problem rp))
          (PhoneProblem.estimated_time (RepairPrice.problem rp)) None None)
       (RepairPrice.part_type rp)
       (RepairPriceSerializer.to_representation rp)).
Proof.
  intros Habs. unfold group_reflects.
  destruct (RepairPrice.part_type rp) eqn:Et;
    cbn [RepairPriceViewSet.set_part RepairPriceViewSet.problem_id
           RepairPriceViewSet.original RepairPriceViewSet.duplicate
           RepairPriceViewSet.problem_name RepairPriceViewSet.problem_icon
           RepairPriceViewSet.problem_description
           RepairPriceViewSet.estimated_time];
    rewrite !last_option_snoc, first_option_snoc, Z.eqb_refl, Et,
      (first_option_absent _ _ Habs), !(last_option_absent _ _ _ Habs);
    cbn [andb part_type_eqb option_map];
    repeat split; exists rp; repeat split.
Qed.

(** What the dictionary of the grouping loop holds after a sequence. *)
Lemma grouping_invariant (qs : list RepairPrice.t) :
  map fst (fold_left RepairPriceViewSet.group_step qs [])
  = first_appearances (map problem_of qs)
  /\ Forall (fun kv => RepairPriceViewSet.problem_id (snd kv) = fst kv
                       /\ group_reflects qs (snd kv))
       (fold_left RepairPriceViewSet.group_step qs []).
Proof.
  induction qs as [|rp qs [Hk Hf]] using rev_ind.
  - split; [reflexivity|constructor].
  - rewrite fold_left_app. cbn [fold_left].
    set (d := fold_left RepairPriceViewSet.group_step qs []) in *.
    unfold RepairPriceViewSet.group_step. fold (problem_of rp).
    rewrite map_app. cbn [map]. rewrite first_appearances_snoc.
    assert (Ex : existsb (fun j => j =? problem_of rp) (map problem_of qs)
                 = RepairPriceViewSet.dict_contains (problem_of rp) d)
      by (rewrite dict_contains_keys, Hk, existsb_first_appearances; reflexivity).
    rewrite Ex.
    destruct (RepairPriceViewSet.dict_contains (problem_of rp) d) eqn:Ec;
      cbn [negb].
    + split; [rewrite dict_update_keys; exact Hk|].
      unfold RepairPriceViewSet.dict_update. apply Forall_map.
      eapply Forall_impl; [|exact Hf]. intros [k g] [Hid Hr]. cbn [fst snd] in *.
      destruct (k =? problem_of rp) eqn:E; cbn [fst snd].
      * apply Z.eqb_eq in E. split.
        -- destruct (RepairPrice.part_type rp); exact Hid.
        -- apply group_reflects_set; [congruence|exact Hr].
      * apply Z.eqb_neq in E. split; [exact Hid|].
        apply group_reflects_other; [congruence|exact Hr].
    + unfold RepairPriceViewSet.dict_update. rewrite map_app.
      fold (RepairPriceViewSet.dict_update (problem_of rp)
              (fun g => RepairPriceViewSet.set_part g (RepairPrice.part_type rp)
                          (RepairPriceSerializer.to_representation rp)) d).
      rewrite (dict_update_absent _ _ _ Ec). cbn [map fst]. rewrite Z.eqb_refl.
      split; [rewrite map_app, Hk; reflexivity|].
      apply Forall_app. split.
      * rewrite Forall_forall in Hf |- *. intros [k g] Hin.
        destruct (Hf _ Hin) as [Hid Hr]. cbn [fst snd] in *.
        split; [exact Hid|]. apply group_reflects_other; [|exact Hr].
        intros E. apply not_true_iff_false in Ec. apply Ec.
        unfold RepairPriceViewSet.dict_contains. apply existsb_exists.
        exists (k, g). split; [exact Hin|]. cbn [fst]. apply Z.eqb_eq. congruence.
      * constructor; [|constructor]. cbn [fst snd]. split.
        -- destruct (RepairPrice.part_type rp); reflexivity.
        -- apply group_reflects_new. exact Ex.
Qed.

(** C8.  For every sequence of repair prices, the grouping gives one group
    for each distinct problem, in the order in which the problems first
    appear; each group has its two children, [original] and [duplicate]: a
    child is null when the sequence has no option of the problem with that
    part type, and otherwise the data of that option (of the last one, when
    several options have the problem and the part type). *)
Theorem groups_by_first_appearance (queryset : list RepairPrice.t) :
  let groups := RepairPriceViewSet.group_by_problem queryset in
  map RepairPriceViewSet.problem_id groups
  = first_appearances (map problem_of queryset)
  /\ NoDup (map RepairPriceViewSet.problem_id groups)
  /\ (forall k, In k (map RepairPriceViewSet.problem_id groups)
                <-> In k (map problem_of queryset))
  /\ Forall (group_reflects queryset) groups.
Proof.
  intros groups. subst groups. unfold RepairPriceViewSet.group_by_problem.
  destruct (grouping_invariant queryset) as [Hk Hf].
  assert (Hids : map RepairPriceViewSet.problem_id
                   (map snd (fold_left RepairPriceViewSet.group_step queryset []))
                 = first_appearances (map problem_of queryset)).
  { rewrite <- Hk, map_map. apply map_ext_in. intros kv Hin.
    rewrite Forall_forall in Hf. apply (Hf kv Hin). }
  split; [exact Hids|]. rewrite Hids.
  split; [apply first_appearances_NoDup|].
  split; [intros k; apply first_appearances_In|].
  apply Forall_map. eapply Forall_impl; [|exact Hf]. intros kv [_ Hr]. exact Hr.
Qed.

(** On three options, battery (duplicate), display (original) and battery
    (original): the battery group comes first with both children, the
    display group second with no duplicate. *)
Lemma group_by_problem_example :
  map (fun g => (RepairPriceViewSet.problem_name g,
                 option_map RepairPriceSerializer.id (RepairPriceViewSet.original g),
                 option_map RepairPriceSerializer.id (RepairPriceViewSet.duplicate g)))
      (RepairPriceViewSet.group_by_problem three_options)
  = [("Battery Replacement"%string, Some 3, Some 2);
     ("Display Change"%string, Some 1, None)].
Proof. reflexivity. Qed.

(* ================================================================== *)
(** ** Further properties: prices *)

Lemma percentage_part_nonneg (b p : Q) : (0 <= b -> 0 <= p -> 0 <= b * p / 100)%Q.
Proof.
  intros Hb Hp. unfold Qdiv. apply Qmult_le_0_compat.
  - apply Qmult_le_0_compat; assumption.
  - vm_compute. discriminate.
Qed.

Lemma gtb_int0 (d : Decimal) : Dec.gtb d Dec.int0 = true <-> (0 < $d)%Q.
Proof. rewrite gtb_spec, value_int0. reflexivity. Qed.

Lemma final_price_bounds (rp : RepairPrice.t) :
  (0 <= $(RepairPrice.base_price rp))%Q ->
  (0 <= $(RepairPrice.discount_amount rp))%Q ->
  (0 <= $(RepairPrice.final_price rp)
   /\ $(RepairPrice.final_price rp) <= $(RepairPrice.base_price rp))%Q.
Proof.
  intros Hb Ha. rewrite final_price_value. split; [apply Qmax_nonneg_l|].
  apply Q.max_lub; [exact Hb|].
  destruct (Dec.gtb (RepairPrice.discount_percentage rp) Dec.int0) eqn:E.
  - apply gtb_int0 in E.
    pose proof (percentage_part_nonneg _ _ Hb (Qlt_le_weak _ _ E)). lra.
  - lra.
Qed.

(** X1.  For a repair price with a base price and a discount amount of at
    least 0, whatever its discount percentage is, [final_price] lies
    between 0 and the base price, and so does [total_discount]. *)
Theorem final_price_within_base (rp : RepairPrice.t) :
  (0 <= $(RepairPrice.base_price rp))%Q ->
  (0 <= $(RepairPrice.discount_amount rp))%Q ->
  (0 <= $(RepairPrice.final_price rp))%Q
  /\ ($(RepairPrice.final_price rp) <= $(RepairPrice.base_price rp))%Q
  /\ (0 <= $(RepairPrice.total_discount rp))%Q
  /\ ($(RepairPrice.total_discount rp) <= $(RepairPrice.base_price rp))%Q.
Proof.
  intros Hb Ha. destruct (final_price_bounds rp Hb Ha) as [H0 H1].
  unfold RepairPrice.total_discount. rewrite value_sub.
  repeat split; try assumption; lra.
Qed.

Lemma final_price_within_base_witness :
  (0 <= $(RepairPrice.base_price scenario_C))%Q
  /\ (0 <= $(RepairPrice.discount_amount scenario_C))%Q
  /\ ($(RepairPrice.final_price scenario_C)
      <= $(RepairPrice.base_price scenario_C))%Q.
Proof.
  split; [vm_compute; discriminate|]. split; [vm_compute; discriminate|].
  apply (final_price_within_base scenario_C); vm_compute; discriminate.
Defined.

(** X2.  The two ends of the discount.  A percentage of 100 or more takes
    the whole price: [final_price] is 0, for a base price and a discount
    amount of at least 0.  A percentage of 0 or less is not applied: with a
    discount amount of 0, [final_price] is the base price. *)
Theorem final_price_extremes (rp : RepairPrice.t) :
  (0 <= $(RepairPrice.base_price rp))%Q ->
  ((100 <= $(RepairPrice.discount_percentage rp))%Q ->
   (0 <= $(RepairPrice.discount_amount rp))%Q ->
   ($(RepairPrice.final_price rp) == 0)%Q)
  /\ (($(RepairPrice.discount_percentage rp) <= 0)%Q ->
      ($(RepairPrice.discount_amount rp) == 0)%Q ->
      ($(RepairPrice.final_price rp) == $(RepairPrice.base_price rp))%Q).
Proof.
  intros Hb. split.
  - intros Hp Ha. rewrite final_price_value. apply Q.max_l.
    assert (E : Dec.gtb (RepairPrice.discount_percentage rp) Dec.int0 = true)
      by (apply gtb_int0; lra).
    rewrite E.
    assert (H : ($(RepairPrice.base_price rp) * 100 / 100
                 <= $(RepairPrice.base_price rp)
                    * $(RepairPrice.discount_percentage rp) / 100)%Q).
    { unfold Qdiv. apply Qmult_le_compat_r; [|vm_compute; discriminate].
      rewrite !(Qmult_comm $(RepairPrice.base_price rp)).
      apply Qmult_le_compat_r; assumption. }
    assert (E100 : ($(RepairPrice.base_price rp) * 100 / 100
                    == $(RepairPrice.base_price rp))%Q) by field.
    lra.
  - intros Hp Ha. rewrite final_price_value.
    assert (E : Dec.gtb (RepairPrice.discount_percentage rp) Dec.int0 = false)
      by (apply gtb_false; rewrite value_int0; exact Hp).
    rewrite E, Ha. rewrite Q.max_r; lra.
Qed.

Lemma final_price_extremes_witness :
  (0 <= $(RepairPrice.base_price scenario_C))%Q
  /\ ($(RepairPrice.final_price scenario_C) == 0)%Q.
Proof.
  split; [vm_compute; discriminate|].
  apply (proj1 (final_price_extremes scenario_C ltac:(vm_compute; discriminate)));
    vm_compute; discriminate.
Defined.

(* ================================================================== *)
(** ** Further properties: the totals of an order *)

Lemma Qsum_nonneg (xs : list Q) : Forall (fun x => 0 <= x)%Q xs -> (0 <= Qsum xs)%Q.
Proof.
  induction 1 as [|x xs Hx _ IH]; [apply Qle_refl|]. rewrite Qsum_cons. lra.
Qed.

(** What [calculate_totals] stores, whatever the website percentage is. *)
Lemma calculate_totals_values (order : Order.t) :
  let order' := Order.calculate_totals order in
  let price_after := Qsum (map snd (order_lines order)) in
  ($(Order.subtotal order') == Qsum (map fst (order_lines order)))%Q
  /\ ($(Order.subtotal order') - $(Order.item_discount order') == price_after)%Q
  /\ ($(Order.total_amount order')
      == Qmax 0 (price_after
                 - ((if Dec.gtb (Order.website_discount_percentage order) Dec.int0
                     then price_after
                          * ($(Order.website_discount_percentage order) / 100)
                     else 0)
                    + $(Order.website_discount_amount order))))%Q.
Proof.
  intros order' price_after.
  assert (Es : ($(Order.subtotal order') == Qsum (map fst (order_lines order)))%Q).
  { subst order'. cbn. rewrite value_sum. unfold order_lines.
    rewrite !map_map. reflexivity. }
  assert (Ed : ($(Order.item_discount order')
                == Qsum (map (fun l => fst l - snd l) (order_lines order)))%Q).
  { subst order'. cbn. rewrite value_sum. unfold order_lines.
    rewrite !map_map. apply Qsum_map_ext. intros it.
    unfold OrderItem.item_discount. rewrite value_sub. reflexivity. }
  assert (Ep : ($(Order.subtotal order') - $(Order.item_discount order')
                == price_after)%Q).
  { rewrite Es, Ed. apply price_after_items_sum. }
  split; [exact Es|]. split; [exact Ep|].
  subst order'.
  cbn [Order.calculate_totals Order.set_totals Order.total_amount
         Order.subtotal Order.item_discount] in Ep |- *.
  rewrite value_max_zero2, value_sub, value_add, value_sub, Ep.
  destruct (Dec.gtb (Order.website_discount_percentage order) Dec.int0).
  - rewrite value_mul, value_div100, value_sub, Ep. reflexivity.
  - rewrite value_zero2. reflexivity.
Qed.

Lemma order_totals_bounds (order : Order.t) :
  Forall (fun it => 0 <= $(OrderItem.final_price it)
                    /\ $(OrderItem.final_price it) <= $(OrderItem.base_price it))%Q
    (Order.order_items order) ->
  (0 <= $(Order.website_discount_amount order))%Q ->
  let order' := Order.calculate_totals order in
  (0 <= $(Order.item_discount order'))%Q
  /\ ($(Order.item_discount order') <= $(Order.subtotal order'))%Q
  /\ (0 <= $(Order.total_amount order'))%Q
  /\ ($(Order.total_amount order')
      <= $(Order.subtotal order') - $(Order.item_discount order'))%Q.
Proof.
  intros Hitems Ha order'.
  destruct (calculate_totals_values order) as (Es & Ep & Et).
  fold order' in Es, Ep, Et.
  set (P := Qsum (map snd (order_lines order))) in *.
  assert (HP : (0 <= P)%Q).
  { subst P. apply Qsum_nonneg. unfold order_lines. rewrite map_map.
    apply Forall_map. eapply Forall_impl; [|exact Hitems].
    intros it [H0 _]. exact H0. }
  assert (HS : (P <= $(Order.subtotal order'))%Q).
  { rewrite Es. subst P. unfold order_lines. rewrite !map_map. cbn [fst snd].
    clear - Hitems. induction Hitems as [|it items [H0 H1] _ IH]; cbn [map].
    - apply Qle_refl.
    - rewrite !Qsum_cons. lra. }
  assert (HW : (0 <= (if Dec.gtb (Order.website_discount_percentage order) Dec.int0
                      then P * ($(Order.website_discount_percentage order) / 100)
                      else 0)
                     + $(Order.website_discount_amount order))%Q).
  { destruct (Dec.gtb (Order.website_discount_percentage order) Dec.int0) eqn:E.
    - apply gtb_int0 in E.
      assert (0 <= P * ($(Order.website_discount_percentage order) / 100))%Q.
      { apply Qmult_le_0_compat; [exact HP|]. unfold Qdiv.
        apply Qmult_le_0_compat; [lra|vm_compute; discriminate]. }
      lra.
    - lra. }
  split; [lra|]. split; [lra|]. rewrite Et, Ep. split.
  - apply Q.le_max_l.
  - apply Q.max_lub; lra.
Qed.

(** X3.  For an order whose items have final prices between 0 and their
    base prices and whose website discount amount is at least 0, whatever
    the website percentage is, [calculate_totals] stores an item discount
    between 0 and the subtotal and a total amount between 0 and the price
    after the item discounts; [total_discount] then lies between the item
    discount and the subtotal. *)
Theorem calculate_totals_within_bounds (order : Order.t) :
  Forall (fun it => 0 <= $(OrderItem.final_price it)
                    /\ $(OrderItem.final_price it) <= $(OrderItem.base_price it))%Q
    (Order.order_items order) ->
  (0 <= $(Order.website_discount_amount order))%Q ->
  let order' := Order.calculate_totals order in
  (0 <= $(Order.item_discount order'))%Q
  /\ ($(Order.item_discount order') <= $(Order.subtotal order'))%Q
  /\ (0 <= $(Order.total_amount order'))%Q
  /\ ($(Order.total_amount order')
      <= $(Order.subtotal order') - $(Order.item_discount order'))%Q
  /\ ($(Order.item_discount order') <= $(Order.total_discount order'))%Q
  /\ ($(Order.total_discount order') <= $(Order.subtotal order'))%Q.
Proof.
  intros Hitems Ha order'.
  destruct (order_totals_bounds order Hitems Ha) as (H1 & H2 & H3 & H4).
  fold order' in H1, H2, H3, H4.
  unfold Order.total_discount. rewrite value_sub.
  repeat split; try assumption; lra.
Qed.

Lemma calculate_totals_within_bounds_witness :
  (0 <= $(Order.website_discount_amount scenario_B_order))%Q
  /\ ($(Order.total_discount (Order.calculate_totals scenario_B_order))
      <= $(Order.subtotal (Order.calculate_totals scenario_B_order)))%Q.
Proof.
  split; [vm_compute; discriminate|].
  apply (calculate_totals_within_bounds scenario_B_order).
  - repeat constructor; vm_compute; discriminate.
  - vm_compute. discriminate.
Defined.

(* ================================================================== *)
(** ** Further properties: creating an order *)






(** The query for a repair price reads the key of the phone model only. *)
Lemma get_repair_price_same_key (s : Store) (pm pm' : PhoneModel.t)
    (item : OrderItemCreateSerializer.validated) :
  PhoneModel.id pm = PhoneModel.id pm' ->
  OrderCreateSerializer.get_repair_price s pm item
  = OrderCreateSerializer.get_repair_price s pm' item.
Proof.
  intros E. unfold OrderCreateSerializer.get_repair_price. rewrite E. reflexivity.
Qed.








Lemma amount_field_bounds (q : Decimal) :
  run_validators OrderCreateSerializer.website_discount_amount_field q = true ->
  (0 <= $q)%Q.
Proof.
  unfold run_validators; cbn [forallb validators validator_accepts
    OrderCreateSerializer.website_discount_amount_field].
  rewrite !andb_true_iff, !negb_true_iff. intros (Hmin & _).
  apply ltb_false in Hmin. rewrite <- value_zero2. exact Hmin.
Qed.

(** The website discount of a valid body is within its bounds. *)
Lemma validated_discount_bounds (s : Store) (d : Request.data)
    (data : OrderCreateSerializer.validated) :
  OrderCreateSerializer.is_valid s d = Valid data ->
  (0 <= $(OrderCreateSerializer.website_discount_percentage data)
   /\ $(OrderCreateSerializer.website_discount_percentage data) <= 100
   /\ 0 <= $(OrderCreateSerializer.website_discount_amount data))%Q.
Proof.
  intros H. destruct (is_valid_fields _ _ _ H) as (_ & _ & _ & Hp & Ha).
  unfold OrderCreateSerializer.decimal_field in Hp, Ha. split; [|split].
  - apply (validated_percentage_nonneg _ _ _ H).
  - destruct (Request.website_discount_percentage d) as [p|].
    + destruct (to_internal_value _ p) as [q|] eqn:E; [|discriminate].
      injection Hp as <-. apply to_internal_value_value in E.
      apply percentage_field_bounds, (proj2 E).
    + injection Hp as <-. vm_compute. discriminate.
  - destruct (Request.website_discount_amount d) as [a|].
    + destruct (to_internal_value _ a) as [q|] eqn:E; [|discriminate].
      injection Ha as <-. apply to_internal_value_value in E.
      apply amount_field_bounds, (proj2 E).
    + injection Ha as <-. vm_compute. discriminate.
Qed.

(** X6.  When the repair prices of the store have base prices and discount
    amounts of at least 0, a created order meets the bounds that the order
    model declares: its subtotal, item discount and total amount are at
    least 0, the item discount is at most the subtotal, the total amount is
    at most the subtotal less the item discount, the website percentage
    lies between 0 and 100 and the website amount is at least 0. *)
Theorem created_order_within_bounds
    (s s' : Store) (d : Request.data) (body : OrderSerializer.data) :
  prices_nonneg s ->
  OrderViewSet.create s d = (s', HTTP_201_CREATED body) ->
  exists order,
    orders s' = orders s ++ [order]
    /\ (0 <= $(Order.subtotal order))%Q
    /\ (0 <= $(Order.item_discount order))%Q
    /\ ($(Order.item_discount order) <= $(Order.subtotal order))%Q
    /\ (0 <= $(Order.total_amount order))%Q
    /\ ($(Order.total_amount order)
        <= $(Order.subtotal order) - $(Order.item_discount order))%Q
    /\ (0 <= $(Order.website_discount_percentage order))%Q
    /\ ($(Order.website_discount_percentage order) <= 100)%Q
    /\ (0 <= $(Order.website_discount_amount order))%Q.
Proof.
  intros Hprices H.
  destruct (create_created _ _ _ _ H) as (data & pm & created & Hv & _ & Hc & -> & _).
  exists (created_order s data pm created).
  destruct (validated_discount_bounds _ _ _ Hv) as (Hp0 & Hp100 & Ha).
  split; [reflexivity|].
  assert (Hitems :
            Forall (fun it => 0 <= $(OrderItem.final_price it)
                              /\ $(OrderItem.final_price it)
                                 <= $(OrderItem.base_price it))%Q created).
  { pose proof (create_items_snapshots _ _ _ _ _ Hc) as HF.
    clear - HF Hprices. induction HF as [|v it vs its (rp & Hget & Hsnap) _ IH];
      constructor; [|exact IH].
    destruct (objects_get_cond _ _ _ Hget) as [Hin _].
    destruct (Hprices rp Hin) as [Hb Hamt].
    destruct Hsnap as (_ & _ & -> & _ & _ & -> & _).
    apply final_price_bounds; assumption. }
  unfold created_order.
  match goal with |- context [Order.calculate_totals ?o] =>
    pose proof (order_totals_bounds o Hitems Ha) as (H1 & H2 & H3 & H4) end.
  cbn [Order.calculate_totals Order.set_totals Order.set_order_items
         Order.subtotal Order.item_discount Order.total_amount
         Order.website_discount_percentage Order.website_discount_amount
         Order.order_items] in *.
  repeat split; try assumption. lra.
Qed.

Lemma created_order_within_bounds_witness :
  prices_nonneg scenario_B_store
  /\ exists s' body order,
       OrderViewSet.create scenario_B_store scenario_B_request
       = (s', HTTP_201_CREATED body)
       /\ orders s' = [order]
       /\ ($(Order.total_amount order)
           <= $(Order.subtotal order) - $(Order.item_discount order))%Q.
Proof.
  assert (P : prices_nonneg scenario_B_store).
  { intros rp [<-|[<-|[]]]; split; vm_compute; discriminate. }
  split; [exact P|].
  destruct (OrderViewSet.create scenario_B_store scenario_B_request)
    as [s' r] eqn:E.
  destruct r as [body|body| | |]; try (vm_compute in E; discriminate).
  destruct (created_order_within_bounds _ _ _ _ P E)
    as (order & Ho & _ & _ & _ & _ & Ht & _).
  exists s', body, order. split; [reflexivity|]. split; assumption.
Defined.







(** The loop of [validate] stops at the first item that selects no active
    repair price. *)
Lemma validate_repair_prices_unknown (s : Store) (pm : PhoneModel.t)
    (before after : list OrderItemCreateSerializer.validated)
    (item : OrderItemCreateSerializer.validated) :
  (forall i, In i before ->
     exists r, OrderCreateSerializer.get_repair_price s pm i = Found r
               /\ RepairPrice.in_stock r = true) ->
  OrderCreateSerializer.get_repair_price s pm item = DoesNotExist ->
  OrderCreateSerializer.validate_repair_prices s pm (before ++ item :: after)
  = Invalid [invalid_repair_option
               (Some (OrderItemCreateSerializer.problem_id item))
               (Some (part_type_value (OrderItemCreateSerializer.part_type item)))].
Proof.
  intros Hb Hi. induction before as [|i rest IH];
    cbn [app OrderCreateSerializer.validate_repair_prices].
  - rewrite Hi. reflexivity.
  - destruct (Hb i (or_introl eq_refl)) as (r & -> & ->). cbn [negb].
    apply IH. intros j Hj. apply Hb. right. exact Hj.
Qed.

(** X9.  The errors of [validate], for a body whose fields are valid.  When
    no phone model of the store with the body's key is active, [create]
    answers 400 with "Invalid or inactive phone model".  When the phone
    model is there and an entry selects no active repair price, the entries
    before it selecting parts in stock, [create] answers 400 with "Invalid
    repair option" for the problem and the part type of that entry.  The
    store is left as it was. *)
Theorem create_validation_errors
    (s : Store) (d : Request.data) (data : OrderCreateSerializer.validated) :
  OrderCreateSerializer.to_internal_value d = inr data ->
  ((forall pm, In pm (phone_models s) ->
      PhoneModel.id pm = OrderCreateSerializer.phone_model_id data ->
      PhoneModel.is_active pm = false) ->
   OrderViewSet.create s d
   = (s, HTTP_400_BAD_REQUEST [invalid_or_inactive_phone_model]))
  /\ (forall (pm : PhoneModel.t)
        (before after : list OrderItemCreateSerializer.validated)
        (item : OrderItemCreateSerializer.validated),
        objects_get
          (fun pm => (PhoneModel.id pm =? OrderCreateSerializer.phone_model_id data)
                     && PhoneModel.is_active pm)
          (phone_models s) = Found pm ->
        OrderCreateSerializer.items data = before ++ item :: after ->
        (forall i, In i before ->
           exists r, OrderCreateSerializer.get_repair_price s pm i = Found r
                     /\ RepairPrice.in_stock r = true) ->
        (forall rp, In rp (repair_prices s) ->
           PhoneModel.id (RepairPrice.phone_model rp) = PhoneModel.id pm ->
           problem_of rp = OrderItemCreateSerializer.problem_id item ->
           RepairPrice.part_type rp = OrderItemCreateSerializer.part_type item ->
           RepairPrice.is_active rp = false) ->
        OrderViewSet.create s d
        = (s, HTTP_400_BAD_REQUEST
                [invalid_repair_option
                   (Some (OrderItemCreateSerializer.problem_id item))
                   (Some (part_type_value
                            (OrderItemCreateSerializer.part_type item)))])).
Proof.
  intros Hf. split.
  - intros Hnone.
    unfold OrderViewSet.create, OrderCreateSerializer.is_valid,
      OrderCreateSerializer.validate.
    rewrite Hf. unfold objects_get. rewrite filter_none; [reflexivity|].
    intros pm Hin. destruct (PhoneModel.id pm =? _) eqn:E; [|reflexivity].
    apply Z.eqb_eq in E. rewrite (Hnone pm Hin E). reflexivity.
  - intros pm before after item Hm Hitems Hb Hnone.
    unfold OrderViewSet.create, OrderCreateSerializer.is_valid,
      OrderCreateSerializer.validate.
    rewrite Hf, Hm, Hitems.
    rewrite (validate_repair_prices_unknown _ _ _ _ _ Hb); [reflexivity|].
    unfold OrderCreateSerializer.get_repair_price, objects_get.
    rewrite filter_none; [reflexivity|].
    intros rp Hin.
    destruct (PhoneModel.id (RepairPrice.phone_model rp) =? PhoneModel.id pm) eqn:E1;
      [|reflexivity].
    destruct (PhoneProblem.id (RepairPrice.problem rp)
              =? OrderItemCreateSerializer.problem_id item) eqn:E2; [|reflexivity].
    destruct (part_type_eqb (RepairPrice.part_type rp)
                (OrderItemCreateSerializer.part_type item)) eqn:E3; [|reflexivity].
    apply Z.eqb_eq in E1, E2. cbn [andb]. apply (Hnone rp Hin E1 E2).
    destruct (RepairPrice.part_type rp), (OrderItemCreateSerializer.part_type item);
      try reflexivity; discriminate.
Qed.

Lemma create_validation_errors_witness :
  OrderViewSet.create scenario_B_store unknown_model_request
  = (scenario_B_store, HTTP_400_BAD_REQUEST [invalid_or_inactive_phone_model])
  /\ OrderViewSet.create scenario_B_store unknown_option_request
     = (scenario_B_store,
        HTTP_400_BAD_REQUEST [invalid_repair_option (Some 9) (Some "original"%string)]).
Proof.
  split.
  - eapply (proj1 (create_validation_errors scenario_B_store unknown_model_request
                     _ eq_refl)).
    intros pm [<-|[]] E. vm_compute in E. discriminate.
  - eapply (proj2 (create_validation_errors scenario_B_store unknown_option_request
                     _ eq_refl)
              iphone [OrderItemCreateSerializer.mk 1 Original] []
              (OrderItemCreateSerializer.mk 9 Original)).
    + reflexivity.
    + reflexivity.
    + intros i [<-|[]]. eexists. split; vm_compute; reflexivity.
    + intros rp [<-|[<-|[]]] _ E; vm_compute in E; discriminate.
Defined.

(* ================================================================== *)
(** ** Further properties: the preview and [create] side by side *)







(* ================================================================== *)
(** ** Further properties: the price preview *)

(** A successful preview, with what it checked. *)
Lemma calculate_price_inv (s : Store) (d : Request.data)
    (body : RepairPriceViewSet.price_data) :
  RepairPriceViewSet.calculate_price s d = HTTP_200_OK body ->
  exists n pm sub disc,
    Request.phone_model_id d = Some n
    /\ n <> 0
    /\ Request.items d <> []
    /\ objects_get (fun pm => (PhoneModel.id pm =? n) && PhoneModel.is_active pm)
         (phone_models s) = Found pm
    /\ RepairPriceViewSet.price_items s pm (Request.items d) Dec.zero2 Dec.zero2 []
       = inr (sub, disc, RepairPriceViewSet.items body)
    /\ RepairPriceViewSet.phone_model body = PhoneModel.name pm
    /\ RepairPriceViewSet.brand body = PhoneBrand.name (PhoneModel.brand pm)
    /\ RepairPriceViewSet.subtotal body = sub
    /\ RepairPriceViewSet.item_discount body = disc.
Proof.
  unfold RepairPriceViewSet.calculate_price. intros H.
  destruct (Request.phone_model_id d) as [[|p|p]|]; try discriminate;
    (destruct (Request.items d) as [|i is_] eqn:Ei; [discriminate|]);
    (destruct (objects_get _ (phone_models s)) as [pm| |] eqn:Em; try discriminate);
    (destruct (RepairPriceViewSet.price_items s pm (i :: is_) _ _ _)
       as [r|[[sub disc] bd]] eqn:Ep;
     [ exfalso; subst r; eapply price_items_early_return; [exact Ep|reflexivity]
     | injection H as <-; eexists _, pm, sub, disc; cbn;
       repeat split; try assumption; try reflexivity; discriminate ]).
Qed.

(** The lines that the loop of the preview appends answer the entries one
    by one. *)
Lemma price_items_lines (s : Store) (pm : PhoneModel.t) (raws : list Request.item) :
  forall sub disc bd sub' disc' bd',
    RepairPriceViewSet.price_items s pm raws sub disc bd = inr (sub', disc', bd') ->
    exists added,
      bd' = bd ++ added
      /\ Forall2 (fun raw line =>
                    exists rp,
                      RepairPriceViewSet.get_repair_price s pm
                        (Request.problem_id raw) (requested_part_type raw)
                      = Found rp
                      /\ line_of raw rp line)
           raws added.
Proof.
  induction raws as [|raw rest IH]; intros sub disc bd sub' disc' bd' H;
    cbn [RepairPriceViewSet.price_items] in H.
  - injection H as _ _ <-. exists []. rewrite app_nil_r. split; constructor.
  - fold (requested_part_type raw) in H.
    destruct (RepairPriceViewSet.get_repair_price s pm _ _) as [rp| |] eqn:E;
      try discriminate.
    apply IH in H. destruct H as (added & -> & HF).
    eexists (_ :: added). rewrite <- app_assoc. split; [reflexivity|].
    constructor; [|exact HF].
    exists rp. split; [exact E|]. repeat split.
Qed.

(** X11.  The lines of a preview answer the entries of the body one by
    one, in their order.  The preview names an active phone model of the
    store with the body's key; each line repeats the problem key of its
    entry and its part type (['original'] when the entry names none) and
    gives the problem name, base price, final price, discount and warranty
    days of an active repair price of the store for that phone model,
    problem and part type. *)
Theorem preview_lines_follow_request
    (s : Store) (d : Request.data) (body : RepairPriceViewSet.price_data) :
  RepairPriceViewSet.calculate_price s d = HTTP_200_OK body ->
  exists pm,
    In pm (phone_models s)
    /\ PhoneModel.is_active pm = true
    /\ Request.phone_model_id d = Some (PhoneModel.id pm)
    /\ RepairPriceViewSet.phone_model body = PhoneModel.name pm
    /\ RepairPriceViewSet.brand body = PhoneBrand.name (PhoneModel.brand pm)
    /\ Forall2
         (fun raw line =>
            exists rp,
              In rp (repair_prices s)
              /\ RepairPrice.is_active rp = true
              /\ PhoneModel.id (RepairPrice.phone_model rp) = PhoneModel.id pm
              /\ Request.problem_id raw = Some (problem_of rp)
              /\ part_type_value (RepairPrice.part_type rp)
                 = requested_part_type raw
              /\ line_of raw rp line)
         (Request.items d) (RepairPriceViewSet.items body).
Proof.
  intros H.
  destruct (calculate_price_inv _ _ _ H)
    as (n & pm & sub & disc & Hn & _ & _ & Hm & Hloop & Hname & Hbrand & _).
  destruct (objects_get_cond _ _ _ Hm) as [Hin Hc].
  apply andb_true_iff in Hc. destruct Hc as [Hid Hact]. apply Z.eqb_eq in Hid.
  exists pm. split; [exact Hin|]. split; [exact Hact|].
  split; [congruence|]. split; [exact Hname|]. split; [exact Hbrand|].
  destruct (price_items_lines _ _ _ _ _ _ _ _ _ Hloop) as (added & Hadd & HF).
  cbn [app] in Hadd. rewrite Hadd.
  eapply Forall2_impl; [|exact HF].
  intros raw line (rp & Hget & Hline).
  destruct (objects_get_cond _ _ _ Hget) as [Hrp Hcond].
  rewrite !andb_true_iff in Hcond. destruct Hcond as [[[Hmo Hpr] Hty] Ha].
  exists rp. split; [exact Hrp|]. split; [exact Ha|].
  split; [apply Z.eqb_eq, Hmo|]. split.
  { destruct (Request.problem_id raw) as [k|]; [|discriminate].
    apply Z.eqb_eq in Hpr. unfold problem_of. congruence. }
  split; [apply String.eqb_eq, Hty|exact Hline].
Qed.

Lemma preview_lines_follow_request_witness :
  exists body pm,
    RepairPriceViewSet.calculate_price scenario_B_store no_part_type_request
    = HTTP_200_OK body
    /\ RepairPriceViewSet.phone_model body = PhoneModel.name pm
    /\ PhoneModel.is_active pm = true.
Proof.
  destruct (RepairPriceViewSet.calculate_price scenario_B_store no_part_type_request)
    as [body|body| | |] eqn:E; try (vm_compute in E; discriminate).
  destruct (preview_lines_follow_request _ _ _ E) as (pm & _ & Hact & _ & Hn & _).
  exists body, pm. repeat split; assumption.
Defined.

(** The loop of the preview over two lists is the loop over the second
    started where the loop over the first ended. *)
Lemma price_items_app (s : Store) (pm : PhoneModel.t) (l1 l2 : list Request.item) :
  forall sub disc bd,
    RepairPriceViewSet.price_items s pm (l1 ++ l2) sub disc bd
    = match RepairPriceViewSet.price_items s pm l1 sub disc bd with
      | inl r => inl r
      | inr (sub1, disc1, bd1) =>
          RepairPriceViewSet.price_items s pm l2 sub1 disc1 bd1
      end.
Proof.
  induction l1 as [|raw rest IH]; intros sub disc bd;
    cbn [app RepairPriceViewSet.price_items]; [reflexivity|].
  destruct (RepairPriceViewSet.get_repair_price s pm _ _); try reflexivity.
  apply IH.
Qed.

(** X12.  The preview names the first entry that selects no active repair
    price.  For a body with a phone model key other than 0 and an active
    phone model under it, when the entries before an entry each select one
    active repair price and the entry selects none, the preview answers 400
    with "Invalid repair option" for the problem key and the part type of
    that entry, whatever entries follow. *)
Theorem preview_names_first_unknown_option
    (s : Store) (d : Request.data) (n : Z) (pm : PhoneModel.t)
    (before after : list Request.item) (raw : Request.item) :
  Request.phone_model_id d = Some n -> n <> 0 ->
  objects_get (fun pm => (PhoneModel.id pm =? n) && PhoneModel.is_active pm)
    (phone_models s) = Found pm ->
  Request.items d = before ++ raw :: after ->
  (forall r, In r before ->
     exists rp, RepairPriceViewSet.get_repair_price s pm (Request.problem_id r)
                  (requested_part_type r) = Found rp) ->
  RepairPriceViewSet.get_repair_price s pm (Request.problem_id raw)
    (requested_part_type raw) = DoesNotExist ->
  RepairPriceViewSet.calculate_price s d
  = HTTP_400_BAD_REQUEST
      [invalid_repair_option (Request.problem_id raw)
         (Some (requested_part_type raw))].
Proof.
  intros Hn Hnz Hm Hitems Hb Hraw.
  assert (Hloop : forall sub disc bd,
             RepairPriceViewSet.price_items s pm (before ++ raw :: after) sub disc bd
             = inl (HTTP_400_BAD_REQUEST
                      [invalid_repair_option (Request.problem_id raw)
                         (Some (requested_part_type raw))])).
  { clear - Hb Hraw. induction before as [|r rest IH]; intros sub disc bd;
      cbn [app RepairPriceViewSet.price_items].
    - fold (requested_part_type raw). rewrite Hraw. reflexivity.
    - fold (requested_part_type r).
      destruct (Hb r (or_introl eq_refl)) as (rp & ->).
      apply IH. intros r' Hr'. apply Hb. right. exact Hr'. }
  unfold RepairPriceViewSet.calculate_price. rewrite Hn, Hitems.
  destruct n as [|p|p]; [congruence| |];
    (destruct (before ++ raw :: after) as [|i is_] eqn:E;
     [destruct before; discriminate|]);
    cbv beta iota; rewrite Hm, Hloop; reflexivity.
Qed.

Lemma preview_names_first_unknown_option_witness :
  RepairPriceViewSet.calculate_price scenario_B_store unknown_option_request
  = HTTP_400_BAD_REQUEST [invalid_repair_option (Some 9) (Some "original"%string)].
Proof.
  apply (preview_names_first_unknown_option scenario_B_store unknown_option_request
           1 iphone [Request.mk_item (Some 1) None] []
           (Request.mk_item (Some 9) None)).
  - reflexivity.
  - discriminate.
  - reflexivity.
  - reflexivity.
  - intros r [<-|[]]. eexists. vm_compute. reflexivity.
  - vm_compute. reflexivity.
Defined.

(** The loop of the preview appends the same lines wherever it starts. *)
Lemma price_items_shift (s : Store) (pm : PhoneModel.t) (raws : list Request.item) :
  forall sub disc bd sub' disc' bd',
    RepairPriceViewSet.price_items s pm raws sub disc bd = inr (sub', disc', bd') ->
    exists added,
      bd' = bd ++ added
      /\ forall sub2 disc2 bd2,
           exists sub2' disc2',
             RepairPriceViewSet.price_items s pm raws sub2 disc2 bd2
             = inr (sub2', disc2', bd2 ++ added).
Proof.
  induction raws as [|raw rest IH]; intros sub disc bd sub' disc' bd' H;
    cbn [RepairPriceViewSet.price_items] in H.
  - injection H as _ _ <-. exists []. rewrite app_nil_r. split; [reflexivity|].
    intros sub2 disc2 bd2. exists sub2, disc2. rewrite app_nil_r. reflexivity.
  - destruct (RepairPriceViewSet.get_repair_price s pm _ _) as [rp| |] eqn:E;
      try discriminate.
    apply IH in H. destruct H as (added & -> & Hall).
    eexists (_ :: added). rewrite <- app_assoc. split; [reflexivity|].
    intros sub2 disc2 bd2. cbn [RepairPriceViewSet.price_items]. rewrite E.
    edestruct Hall as (sub2' & disc2' & ->).
    exists sub2', disc2'. rewrite <- app_assoc. reflexivity.
Qed.

(** X13.  The preview of two selections taken together.  When the preview
    answers 200 for two bodies with the same phone model key, it answers
    200 for the body that holds the entries of the first followed by the
    entries of the second; its lines are the lines of the first followed by
    the lines of the second, and its subtotal and its item discount are the
    sums of theirs.  An entry that is repeated is priced once for each time
    it appears. *)
Theorem preview_of_joined_selections
    (s : Store) (d1 d2 : Request.data)
    (body1 body2 : RepairPriceViewSet.price_data) :
  Request.phone_model_id d1 = Request.phone_model_id d2 ->
  RepairPriceViewSet.calculate_price s d1 = HTTP_200_OK body1 ->
  RepairPriceViewSet.calculate_price s d2 = HTTP_200_OK body2 ->
  exists body,
    RepairPriceViewSet.calculate_price s
      (with_items d1 (Request.items d1 ++ Request.items d2))
    = HTTP_200_OK body
    /\ RepairPriceViewSet.items body
       = RepairPriceViewSet.items body1 ++ RepairPriceViewSet.items body2
    /\ ($(RepairPriceViewSet.subtotal body)
        == $(RepairPriceViewSet.subtotal body1)
           + $(RepairPriceViewSet.subtotal body2))%Q
    /\ ($(RepairPriceViewSet.item_discount body)
        == $(RepairPriceViewSet.item_discount body1)
           + $(RepairPriceViewSet.item_discount body2))%Q.
Proof.
  intros Hid H1 H2.
  destruct (calculate_price_inv _ _ _ H1)
    as (n & pm & sub1 & disc1 & Hn & Hnz & Hne & Hm & Hl1 & _ & _ & Es1 & Ed1).
  destruct (calculate_price_inv _ _ _ H2)
    as (n2 & pm2 & sub2 & disc2 & Hn2 & _ & _ & Hm2 & Hl2 & _ & _ & Es2 & Ed2).
  assert (n2 = n) by congruence. subst n2.
  assert (pm2 = pm) by congruence. subst pm2.
  destruct (price_items_shift _ _ _ _ _ _ _ _ _ Hl2) as (added & Hadd & Hall).
  cbn [app] in Hadd.
  destruct (Hall sub1 disc1 (RepairPriceViewSet.items body1)) as (sub & disc & Hl).
  assert (Hloop : RepairPriceViewSet.price_items s pm
                    (Request.items d1 ++ Request.items d2) Dec.zero2 Dec.zero2 []
                  = inr (sub, disc, RepairPriceViewSet.items body1 ++ added)).
  { rewrite price_items_app, Hl1. exact Hl. }
  assert (Hprev : exists body,
             RepairPriceViewSet.calculate_price s
               (with_items d1 (Request.items d1 ++ Request.items d2))
             = HTTP_200_OK body
             /\ RepairPriceViewSet.items body
                = RepairPriceViewSet.items body1 ++ added
             /\ RepairPriceViewSet.subtotal body = sub
             /\ RepairPriceViewSet.item_discount body = disc).
  { unfold RepairPriceViewSet.calculate_price.
    cbn [with_items Request.phone_model_id Request.items]. rewrite Hn.
    destruct n as [|p|p]; [congruence| |];
      (destruct (Request.items d1 ++ Request.items d2) as [|i is_] eqn:E;
       [destruct (Request.items d1); [congruence|discriminate]|]);
      cbv beta iota; rewrite Hm, Hloop; eexists; repeat split. }
  destruct Hprev as (body & Hprev & Hitems & Hs & Hd).
  exists body. split; [exact Hprev|]. rewrite Hadd. split; [exact Hitems|].
  (* the sums *)
  destruct (price_items_totals _ _ _ _ _ _ _ _ _ Hl1) as (a1 & Ha1 & Hs1 & Hd1).
  destruct (price_items_totals _ _ _ _ _ _ _ _ _ Hl2) as (a2 & Ha2 & Hs2 & Hd2).
  destruct (price_items_totals _ _ _ _ _ _ _ _ _ Hl) as (a3 & Ha3 & Hs3 & Hd3).
  cbn [app] in Ha1, Ha2.
  assert (a3 = a2).
  { rewrite <- Ha2, Hadd in *. apply app_inv_head in Ha3. congruence. }
  subst a3.
  rewrite Hs, Hd, Es1, Es2, Ed1, Ed2, Hs3, Hd3, Hs2, Hd2, value_zero2.
  split; ring.
Qed.

Lemma preview_of_joined_selections_witness :
  exists body1 body,
    RepairPriceViewSet.calculate_price scenario_B_store scenario_B_request
    = HTTP_200_OK body1
    /\ RepairPriceViewSet.calculate_price scenario_B_store
         (with_items scenario_B_request
            (Request.items scenario_B_request ++ Request.items scenario_B_request))
       = HTTP_200_OK body
    /\ ($(RepairPriceViewSet.subtotal body)
        == $(RepairPriceViewSet.subtotal body1)
           + $(RepairPriceViewSet.subtotal body1))%Q.
Proof.
  destruct (RepairPriceViewSet.calculate_price scenario_B_store scenario_B_request)
    as [body1|body1| | |] eqn:E; try (vm_compute in E; discriminate).
  destruct (preview_of_joined_selections _ _ _ _ _ eq_refl E E)
    as (body & Hb & _ & Hs & _).
  exists body1, body. repeat split; assumption.
Defined.

(* ================================================================== *)
(** ** Further properties: the life cycle *)

Lemma warranty_day (now days : Z) :
  (now + 86400 * days) / 86400 = now / 86400 + days.
Proof. rewrite (Z.mul_comm 86400 days). apply Z.div_add. lia. Qed.

(** X14.  Confirming a pending order stores, on each of its items, the
    warranty expiry: the day of the confirmation plus the item's warranty
    days.  Nothing else of the items changes, and the order keeps its key,
    phone model, figures, payment status and completion time. *)
Theorem confirm_sets_warranty_expiry
    (s : Store) (now pk : Z) (order : Order.t) :
  OrderViewSet.get_object s pk = Found order ->
  Order.status order = "pending"%string ->
  exists order',
    OrderViewSet.get_object (fst (OrderViewSet.confirm s now pk)) pk = Found order'
    /\ same_order_figures order order'
    /\ Forall2 (fun it it' =>
                  OrderItem.warranty_expires_at it'
                  = Some (now / 86400 + OrderItem.warranty_days it)
                  /\ same_item_but_expiry it it')
         (Order.order_items order) (Order.order_items order').
Proof.
  intros H Hs. unfold OrderViewSet.confirm. rewrite H, Hs.
  cbn [String.eqb Ascii.eqb Bool.eqb negb fst].
  eexists. split.
  - apply (get_object_save_order _ _ _ _ H). cbn. apply (get_object_id _ _ _ H).
  - split; [repeat split|].
    cbn [Order.order_items Order.set_order_items Order.set_status
           Order.confirmed_at].
    induction (Order.order_items order) as [|it items IH]; cbn [map];
      constructor; [|exact IH].
    cbn [OrderItem.set_warranty_expiry OrderItem.warranty_expires_at].
    rewrite warranty_day. split; [reflexivity|]. repeat split.
Qed.

Lemma confirm_sets_warranty_expiry_witness :
  exists order',
    OrderViewSet.get_object (fst (OrderViewSet.confirm pending_store 1700000000 1)) 1
    = Found order'
    /\ map OrderItem.warranty_expires_at (Order.order_items order')
       = [Some (19675 + 90); Some (19675 + 90)].
Proof.
  destruct (confirm_sets_warranty_expiry pending_store 1700000000 1
              (Order.calculate_totals scenario_B_order) eq_refl eq_refl)
    as (order' & Hget & _ & HF).
  exists order'. split; [exact Hget|].
  cbn [Order.order_items Order.calculate_totals Order.set_totals scenario_B_order] in HF.
  inversion HF as [|? it1 ? l1 [E1 _] HF1]; subst.
  inversion HF1 as [|? it2 ? l2 [E2 _] HF2]; subst.
  inversion HF2; subst. cbn [map]. rewrite E1, E2. reflexivity.
Defined.

(** X15.  Cancelling an order that can be cancelled changes its status and
    nothing else: the stored order has status ['cancelled'] and the key,
    phone model, figures, payment status, confirmation and completion times
    and items that it had. *)
Theorem cancel_changes_only_status (s : Store) (pk : Z) (order : Order.t) :
  OrderViewSet.get_object s pk = Found order ->
  ~ In (Order.status order) ["completed"; "cancelled"; "refunded"]%string ->
  exists order',
    OrderViewSet.get_object (fst (OrderViewSet.cancel s pk)) pk = Found order'
    /\ Order.status order' = "cancelled"%string
    /\ same_order_figures order order'
    /\ Order.confirmed_at order' = Order.confirmed_at order
    /\ Order.order_items order' = Order.order_items order.
Proof.
  intros H Hs. unfold OrderViewSet.cancel. rewrite H.
  assert (E : existsb (String.eqb (Order.status order))
                ["completed"; "cancelled"; "refunded"]%string = false).
  { apply not_true_is_false. intros E. apply existsb_exists in E.
    destruct E as (x & Hx & Ex). apply String.eqb_eq in Ex. subst x.
    contradiction. }
  rewrite E. cbn [fst]. eexists. split.
  - apply (get_object_save_order _ _ _ _ H). cbn. apply (get_object_id _ _ _ H).
  - repeat split.
Qed.

Lemma cancel_changes_only_status_witness :
  exists order',
    OrderViewSet.get_object (fst (OrderViewSet.cancel pending_store 1)) 1
    = Found order'
    /\ Order.status order' = "cancelled"%string
    /\ Order.total_amount order'
       = Order.total_amount (Order.calculate_totals scenario_B_order).
Proof.
  destruct (cancel_changes_only_status pending_store 1
              (Order.calculate_totals scenario_B_order) eq_refl)
    as (order' & Hget & Hs & Hfig & _).
  - cbn. intros [E|[E|[E|[]]]]; discriminate.
  - exists order'. split; [exact Hget|]. split; [exact Hs|].
    apply Hfig.
Defined.

Lemma confirm_pending (s : Store) (now pk : Z) (order : Order.t) :
  OrderViewSet.get_object s pk = Found order ->
  Order.status order = "pending"%string ->
  exists order',
    fst (OrderViewSet.confirm s now pk) = save_order s order'
    /\ OrderViewSet.get_object (save_order s order') pk = Found order'
    /\ Order.status order' = "confirmed"%string.
Proof.
  intros H Hs. unfold OrderViewSet.confirm. rewrite H, Hs.
  cbn [String.eqb Ascii.eqb Bool.eqb negb fst].
  eexists. split; [reflexivity|]. split; [|reflexivity].
  apply (get_object_save_order _ _ _ _ H). cbn. apply (get_object_id _ _ _ H).
Qed.

Lemma cancel_open (s : Store) (pk : Z) (order : Order.t) :
  OrderViewSet.get_object s pk = Found order ->
  ~ In (Order.status order) ["completed"; "cancelled"; "refunded"]%string ->
  exists order',
    OrderViewSet.cancel s pk
    = (save_order s order', HTTP_200_OK (OrderSerializer.to_representation order'))
    /\ OrderViewSet.get_object (save_order s order') pk = Found order'
    /\ Order.status order' = "cancelled"%string.
Proof.
  intros H Hs. unfold OrderViewSet.cancel. rewrite H.
  assert (E : existsb (String.eqb (Order.status order))
                ["completed"; "cancelled"; "refunded"]%string = false).
  { apply not_true_is_false. intros E. apply existsb_exists in E.
    destruct E as (x & Hx & Ex). apply String.eqb_eq in Ex. subst x.
    contradiction. }
  rewrite E. eexists. split; [reflexivity|]. split; [|reflexivity].
  apply (get_object_save_order _ _ _ _ H). cbn. apply (get_object_id _ _ _ H).
Qed.

(** X16.  Transitions one after the other.  After a pending order was
    confirmed, confirming it again fails with "Only pending orders can be
    confirmed", and cancelling it succeeds.  After an order was cancelled,
    confirming it and cancelling it both fail, and the store stays as the
    cancellation left it. *)
Theorem transitions_in_sequence (s : Store) (now now' pk : Z) (order : Order.t) :
  OrderViewSet.get_object s pk = Found order ->
  (Order.status order = "pending"%string ->
   let s1 := fst (OrderViewSet.confirm s now pk) in
   OrderViewSet.confirm s1 now' pk
   = (s1, HTTP_400_BAD_REQUEST [only_pending_orders_can_be_confirmed])
   /\ exists order2,
        OrderViewSet.cancel s1 pk
        = (save_order s1 order2,
           HTTP_200_OK (OrderSerializer.to_representation order2))
        /\ OrderViewSet.get_object (save_order s1 order2) pk = Found order2
        /\ Order.status order2 = "cancelled"%string)
  /\ (~ In (Order.status order) ["completed"; "cancelled"; "refunded"]%string ->
      let s1 := fst (OrderViewSet.cancel s pk) in
      OrderViewSet.confirm s1 now' pk
      = (s1, HTTP_400_BAD_REQUEST [only_pending_orders_can_be_confirmed])
      /\ OrderViewSet.cancel s1 pk
         = (s1, HTTP_400_BAD_REQUEST [cannot_cancel_order_with_status "cancelled"])).
Proof.
  intros H. split.
  - intros Hs s1.
    destruct (confirm_pending s now pk order H Hs) as (o1 & Hs1 & Hget & Hst).
    subst s1. rewrite Hs1. split.
    + unfold OrderViewSet.confirm. rewrite Hget, Hst. reflexivity.
    + apply (cancel_open _ _ _ Hget). rewrite Hst.
      cbn. intros [E|[E|[E|[]]]]; discriminate.
  - intros Hs s1.
    destruct (cancel_open s pk order H Hs) as (o1 & Hc & Hget & Hst).
    subst s1. rewrite Hc. cbn [fst]. split.
    + unfold OrderViewSet.confirm. rewrite Hget, Hst. reflexivity.
    + unfold OrderViewSet.cancel. rewrite Hget, Hst. reflexivity.
Qed.

Lemma transitions_in_sequence_witness :
  OrderViewSet.get_object pending_store 1
  = Found (Order.calculate_totals scenario_B_order)
  /\ OrderViewSet.confirm (fst (OrderViewSet.confirm pending_store 1700000000 1))
       1700000060 1
     = (fst (OrderViewSet.confirm pending_store 1700000000 1),
        HTTP_400_BAD_REQUEST [only_pending_orders_can_be_confirmed]).
Proof.
  split; [reflexivity|].
  apply (proj1 (transitions_in_sequence pending_store 1700000000 1700000060 1
                  (Order.calculate_totals scenario_B_order) eq_refl)).
  reflexivity.
Defined.

Lemma filter_save_other (order' : Order.t) (pk' : Z) (rows : list Order.t) :
  Order.id order' <> pk' ->
  filter (fun o => Order.id o =? pk')
    (map (fun o => if Order.id o =? Order.id order' then order' else o) rows)
  = filter (fun o => Order.id o =? pk') rows.
Proof.
  intros Hne. induction rows as [|o rows IH]; cbn [map filter]; [reflexivity|].
  destruct (Order.id o =? Order.id order') eqn:E.
  - apply Z.eqb_eq in E.
    assert (E1 : (Order.id order' =? pk') = false) by (apply Z.eqb_neq; exact Hne).
    assert (E2 : (Order.id o =? pk') = false) by (apply Z.eqb_neq; congruence).
    rewrite E1, E2. exact IH.
  - destruct (Order.id o =? pk'); [f_equal|]; exact IH.
Qed.

Lemma save_order_frame (s : Store) (order' : Order.t) (pk' : Z) :
  Order.id order' <> pk' ->
  OrderViewSet.get_object (save_order s order') pk' = OrderViewSet.get_object s pk'
  /\ map Order.id (orders (save_order s order')) = map Order.id (orders s)
  /\ phone_models (save_order s order') = phone_models s
  /\ repair_prices (save_order s order') = repair_prices s
  /\ website_discounts (save_order s order') = website_discounts s.
Proof.
  intros Hne. split; [|split; [|repeat split]].
  - unfold OrderViewSet.get_object, objects_get, save_order.
    cbn [orders with_orders]. rewrite filter_save_other by exact Hne. reflexivity.
  - unfold save_order. cbn [orders with_orders]. rewrite map_map.
    apply map_ext. intros o. destruct (Order.id o =? Order.id order') eqn:E;
      [|reflexivity].
    apply Z.eqb_eq in E. congruence.
Qed.

(** X17.  [confirm] and [cancel] touch one order.  Whatever they answer,
    every order under another key is found as before, the keys of the
    orders are the same, and the phone models, repair prices and website
    discounts of the store are as they were. *)
Theorem transitions_touch_one_order (s : Store) (now pk pk' : Z) :
  pk' <> pk ->
  (OrderViewSet.get_object (fst (OrderViewSet.confirm s now pk)) pk'
   = OrderViewSet.get_object s pk'
   /\ map Order.id (orders (fst (OrderViewSet.confirm s now pk)))
      = map Order.id (orders s)
   /\ phone_models (fst (OrderViewSet.confirm s now pk)) = phone_models s
   /\ repair_prices (fst (OrderViewSet.confirm s now pk)) = repair_prices s
   /\ website_discounts (fst (OrderViewSet.confirm s now pk)) = website_discounts s)
  /\ (OrderViewSet.get_object (fst (OrderViewSet.cancel s pk)) pk'
      = OrderViewSet.get_object s pk'
      /\ map Order.id (orders (fst (OrderViewSet.cancel s pk)))
         = map Order.id (orders s)
      /\ phone_models (fst (OrderViewSet.cancel s pk)) = phone_models s
      /\ repair_prices (fst (OrderViewSet.cancel s pk)) = repair_prices s
      /\ website_discounts (fst (OrderViewSet.cancel s pk)) = website_discounts s).
Proof.
  intros Hne. split.
  - unfold OrderViewSet.confirm.
    destruct (OrderViewSet.get_object s pk) as [order| |] eqn:H;
      try (cbn [fst]; repeat split; reflexivity).
    destruct (negb (String.eqb (Order.status order) "pending")); cbn [fst];
      [repeat split; reflexivity|].
    apply save_order_frame. cbn. rewrite (get_object_id _ _ _ H). congruence.
  - unfold OrderViewSet.cancel.
    destruct (OrderViewSet.get_object s pk) as [order| |] eqn:H;
      try (cbn [fst]; repeat split; reflexivity).
    destruct (existsb _ _); cbn [fst]; [repeat split; reflexivity|].
    apply save_order_frame. cbn. rewrite (get_object_id _ _ _ H). congruence.
Qed.

Lemma transitions_touch_one_order_witness :
  OrderViewSet.get_object (fst (OrderViewSet.cancel pending_store 1)) 2
  = OrderViewSet.get_object pending_store 2.
Proof.
  apply (proj2 (transitions_touch_one_order pending_store 0 1 2 ltac:(discriminate))).
Defined.

(* ================================================================== *)
(** ** Further properties: order numbers *)

Lemma upper_char_hex (c : ascii) :
  OrderNumber.is_hex_lower c = true ->
  OrderNumber.is_hex_upper (OrderNumber.upper_char c) = true.
Proof.
  destruct c as [[] [] [] [] [] [] [] []]; vm_compute; intros H;
    first [reflexivity | discriminate H].
Qed.

Lemma upper_length (s : string) :
  String.length (OrderNumber.upper s) = String.length s.
Proof. induction s as [|c s IH]; cbn; [reflexivity|f_equal; exact IH]. Qed.

Lemma upper_hex (s : string) :
  forallb OrderNumber.is_hex_lower (list_ascii_of_string s) = true ->
  forallb OrderNumber.is_hex_upper (list_ascii_of_string (OrderNumber.upper s)) = true.
Proof.
  induction s as [|c s IH]; cbn [list_ascii_of_string OrderNumber.upper forallb];
    [reflexivity|].
  intros H. apply andb_true_iff in H. destruct H as [Hc Hs].
  rewrite (upper_char_hex c Hc), (IH Hs). reflexivity.
Qed.

Lemma prefix_length (n : nat) (s : string) :
  (n <= String.length s)%nat -> String.length (substring 0 n s) = n.
Proof.
  revert s. induction n as [|n IH]; intros s H.
  - destruct s; reflexivity.
  - destruct s as [|c s]; cbn in H; [lia|].
    cbn. f_equal. apply IH. lia.
Qed.

Lemma prefix_forallb (p : ascii -> bool) (n : nat) (s : string) :
  forallb p (list_ascii_of_string s) = true ->
  forallb p (list_ascii_of_string (substring 0 n s)) = true.
Proof.
  revert s. induction n as [|n IH]; intros s H.
  - destruct s; reflexivity.
  - destruct s as [|c s]; [reflexivity|].
    cbn in H |- *. apply andb_true_iff in H. destruct H as [Hc Hs].
    rewrite Hc. apply IH. exact Hs.
Qed.

Lemma digits_of_order_number (hex : string) :
  (8 <= String.length hex)%nat ->
  digits_of (OrderNumber.order_number_of hex)
  = OrderNumber.upper (substring 0 8 hex).
Proof.
  intros H. unfold digits_of, OrderNumber.order_number_of.
  pose proof (prefix_length 8 hex H) as Hl. rewrite <- upper_length in Hl.
  change (substring 4 8 ("ORD-" ++ ?s)) with (substring 0 8 s).
  set (u := OrderNumber.upper (substring 0 8 hex)) in *.
  clearbody u. clear H.
  do 8 (destruct u as [|? u]; [discriminate Hl|]).
  destruct u; [reflexivity|discriminate Hl].
Qed.

Lemma generate_order_number_some (existing draws : list string) (n : string) :
  OrderNumber.generate_order_number existing draws = Some n ->
  ~ In n existing
  /\ exists skipped hex rest,
       draws = skipped ++ hex :: rest
       /\ n = OrderNumber.order_number_of hex
       /\ Forall (fun h => In (OrderNumber.order_number_of h) existing) skipped.
Proof.
  induction draws as [|hex rest IH]; cbn [OrderNumber.generate_order_number];
    [discriminate|].
  destruct (existsb (String.eqb (OrderNumber.order_number_of hex)) existing) eqn:E;
    cbn [negb].
  - intros H. destruct (IH H) as (Hn & sk & h & r & -> & -> & Hsk).
    split; [exact Hn|]. exists (hex :: sk), h, r. split; [reflexivity|].
    split; [reflexivity|]. constructor; [|exact Hsk].
    apply existsb_exists in E. destruct E as (x & Hx & Ex).
    apply String.eqb_eq in Ex. subst x. exact Hx.
  - intros H. injection H as <-. split.
    + intros Hin. apply not_true_iff_false in E. apply E.
      apply existsb_exists. eexists. split; [exact Hin|apply String.eqb_refl].
    + exists [], hex, rest. repeat split. constructor.
Qed.

Lemma generate_order_number_returns (existing draws : list string) :
  (exists hex, In hex draws /\ ~ In (OrderNumber.order_number_of hex) existing) ->
  exists n, OrderNumber.generate_order_number existing draws = Some n.
Proof.
  intros (hex & Hin & Hfree).
  induction draws as [|h rest IH]; [destruct Hin|].
  cbn [OrderNumber.generate_order_number].
  destruct (existsb (String.eqb (OrderNumber.order_number_of h)) existing) eqn:E;
    cbn [negb]; [|eexists; reflexivity].
  destruct Hin as [->|Hin]; [|exact (IH Hin)].
  exfalso. apply Hfree. apply existsb_exists in E. destruct E as (x & Hx & Ex).
  apply String.eqb_eq in Ex. subst x. exact Hx.
Qed.

(** X18.  The order number that [save] leaves on an order.  An order that
    has a number keeps it.  An order without one gets a number from
    [generate_order_number] as soon as one of the values drawn from
    [uuid4] gives a number that is not in the table: the number is that of
    the first such draw, no order of the table has it, and it reads
    ["ORD-"] followed by eight hexadecimal digits in upper case, the first
    eight of the draw. *)
Theorem saved_order_number_is_new (current : string)
    (existing draws : list string) :
  Forall (fun hex => OrderNumber.is_uuid_hex hex = true) draws ->
  (exists hex, In hex draws /\ ~ In (OrderNumber.order_number_of hex) existing) ->
  (current <> ""%string ->
   OrderNumber.save current existing draws = Some current)
  /\ (current = ""%string ->
      exists n skipped hex rest,
        OrderNumber.save current existing draws = Some n
        /\ ~ In n existing
        /\ draws = skipped ++ hex :: rest
        /\ Forall (fun h => In (OrderNumber.order_number_of h) existing) skipped
        /\ n = ("ORD-" ++ digits_of n)%string
        /\ digits_of n = OrderNumber.upper (substring 0 8 hex)
        /\ String.length (digits_of n) = 8%nat
        /\ forallb OrderNumber.is_hex_upper (list_ascii_of_string (digits_of n))
           = true).
Proof.
  intros Hhex Hfree. split.
  - intros Hc. unfold OrderNumber.save.
    destruct (String.eqb current "") eqn:E; [|reflexivity].
    apply String.eqb_eq in E. contradiction.
  - intros ->. unfold OrderNumber.save. cbn [String.eqb].
    destruct (generate_order_number_returns existing draws Hfree) as [n Hn].
    destruct (generate_order_number_some _ _ _ Hn)
      as (Hnew & sk & hex & rest & Hd & Hof & Hsk).
    exists n, sk, hex, rest.
    assert (Hu : OrderNumber.is_uuid_hex hex = true).
    { rewrite Forall_forall in Hhex. apply Hhex. rewrite Hd.
      apply in_or_app. right. left. reflexivity. }
    unfold OrderNumber.is_uuid_hex in Hu. apply andb_true_iff in Hu.
    destruct Hu as [Hl Hh]. apply Nat.eqb_eq in Hl.
    assert (H8 : (8 <= String.length hex)%nat) by lia.
    assert (Hdg : digits_of n = OrderNumber.upper (substring 0 8 hex))
      by (rewrite Hof; apply digits_of_order_number; exact H8).
    split; [exact Hn|]. split; [exact Hnew|]. split; [exact Hd|].
    split; [exact Hsk|]. split; [rewrite Hdg, Hof; reflexivity|].
    split; [exact Hdg|]. rewrite Hdg. split.
    + rewrite upper_length. apply prefix_length. exact H8.
    + apply upper_hex. apply prefix_forallb. exact Hh.
Qed.

Lemma saved_order_number_is_new_witness :
  OrderNumber.save "" ["ORD-3F2A9C0E"%string] [sample_hex; other_hex]
  = Some "ORD-00FF9C0E"%string.
Proof.
  destruct (proj2 (saved_order_number_is_new ""
                     ["ORD-3F2A9C0E"%string] [sample_hex; other_hex]
                     ltac:(repeat constructor)
                     ltac:(exists other_hex; split;
                           [right; left; reflexivity
                           |vm_compute; intros [E|[]]; discriminate E]))
                  eq_refl)
    as (n & sk & hex & rest & Hs & _).
  rewrite Hs. vm_compute in Hs. symmetry. exact Hs.
Defined.

(* ================================================================== *)
(** ** Further properties: the list of repair prices *)

Lemma filter_comm {A : Type} (p q : A -> bool) (l : list A) :
  filter p (filter q l) = filter q (filter p l).
Proof.
  induction l as [|a l IH]; [reflexivity|]. cbn [filter].
  destruct (p a) eqn:Ep, (q a) eqn:Eq; cbn [filter];
    rewrite ?Ep, ?Eq, IH; reflexivity.
Qed.

Lemma first_appearances_length (keys : list Z) :
  List.length (first_appearances keys) = List.length (nodup Z.eq_dec keys).
Proof.
  apply Nat.le_antisymm; apply NoDup_incl_length.
  - apply first_appearances_NoDup.
  - intros k Hk. apply nodup_In. apply first_appearances_In. exact Hk.
  - apply NoDup_nodup.
  - intros k Hk. apply first_appearances_In. apply nodup_In in Hk. exact Hk.
Qed.

Lemma group_by_problem_length (qs : list RepairPrice.t) :
  List.length (RepairPriceViewSet.group_by_problem qs)
  = List.length (first_appearances (map problem_of qs)).
Proof.
  unfold RepairPriceViewSet.group_by_problem.
  destruct (grouping_invariant qs) as [Hk _].
  rewrite <- Hk, !length_map. reflexivity.
Qed.

Lemma list_queryset (s : Store) (phone_model_id brand_id : option Z) :
  RepairPriceViewSet.list_ s phone_model_id brand_id
  = match filter (in_scope phone_model_id brand_id)
            (RepairPriceViewSet.get_queryset s) with
    | [] => HTTP_404_NOT_FOUND [no_repair_prices_found]
    | qs => HTTP_200_OK (RepairPriceViewSet.group_by_problem qs)
    end.
Proof.
  unfold RepairPriceViewSet.list_, in_scope.
  destruct phone_model_id as [m|], brand_id as [b|];
    try (destruct (filter _ _); reflexivity).
  rewrite filter_all by reflexivity.
  destruct (RepairPriceViewSet.get_queryset s); reflexivity.
Qed.

(** X19.  The count of available repairs that the detail of a phone model
    shows is the number of groups that [list] answers for that phone
    model, whatever the brand parameter: at least one group with status
    200, and a count of 0 exactly when [list] answers 404. *)
Theorem repairs_count_is_number_of_groups (s : Store) (obj : PhoneModel.t)
    (brand_id : option Z) :
  match RepairPriceViewSet.list_ s (Some (PhoneModel.id obj)) brand_id with
  | HTTP_200_OK groups =>
      PhoneModelDetailSerializer.get_available_repairs_count s obj
      = List.length groups
      /\ (0 < List.length groups)%nat
  | HTTP_404_NOT_FOUND errors =>
      PhoneModelDetailSerializer.get_available_repairs_count s obj = 0%nat
      /\ errors = [no_repair_prices_found]
  | _ => False
  end.
Proof.
  unfold PhoneModelDetailSerializer.get_available_repairs_count.
  rewrite filter_comm. rewrite list_queryset.
  unfold in_scope, RepairPriceViewSet.get_queryset.
  set (qs := filter _ (filter RepairPrice.is_active (repair_prices s))).
  fold problem_of.
  change (fun rp => PhoneProblem.id (RepairPrice.problem rp)) with problem_of.
  rewrite <- first_appearances_length, <- group_by_problem_length.
  destruct qs as [|rp qs'] eqn:E; [split; reflexivity|].
  split; [reflexivity|].
  rewrite group_by_problem_length. cbn [map first_appearances List.length]. lia.
Qed.

Lemma part_type_eqb_eq (a b : PartType) : part_type_eqb a b = true <-> a = b.
Proof. destruct a, b; cbn; split; intros H; try reflexivity; discriminate H. Qed.

Lemma last_option_some (qs : list RepairPrice.t) (k : Z) (t : PartType)
    (rp : RepairPrice.t) :
  last_option qs k t = Some rp ->
  In rp qs /\ problem_of rp = k /\ RepairPrice.part_type rp = t.
Proof.
  unfold last_option. intros H. apply find_some in H. destruct H as [Hin Hc].
  apply andb_true_iff in Hc. destruct Hc as [Hk Ht].
  split; [apply in_rev; exact Hin|].
  split; [apply Z.eqb_eq; exact Hk|apply part_type_eqb_eq; exact Ht].
Qed.

Lemma last_option_present (qs : list RepairPrice.t) (rp : RepairPrice.t) :
  In rp qs ->
  exists rp', last_option qs (problem_of rp) (RepairPrice.part_type rp) = Some rp'.
Proof.
  intros Hin. unfold last_option.
  destruct (find _ (rev qs)) as [rp'|] eqn:E; [exists rp'; reflexivity|].
  exfalso.
  pose proof (find_none _ _ E rp (proj1 (in_rev qs rp) Hin)) as Hc.
  cbv beta in Hc. rewrite Z.eqb_refl in Hc.
  rewrite (proj2 (part_type_eqb_eq _ _) eq_refl) in Hc. discriminate Hc.
Qed.

Lemma child_reflects (qs : list RepairPrice.t) (g : RepairPriceViewSet.group)
    (t : PartType) :
  group_reflects qs g ->
  child g t
  = option_map RepairPriceSerializer.to_representation
      (last_option qs (RepairPriceViewSet.problem_id g) t).
Proof. intros (Ho & Hd & _). destruct t; [exact Ho|exact Hd]. Qed.

Lemma groups_reflect (qs : list RepairPrice.t) :
  Forall (group_reflects qs) (RepairPriceViewSet.group_by_problem qs).
Proof.
  unfold RepairPriceViewSet.group_by_problem.
  destruct (grouping_invariant qs) as [_ Hf].
  apply Forall_map. eapply Forall_impl; [|exact Hf]. intros kv [_ Hr]. exact Hr.
Qed.

Lemma group_of_option (qs : list RepairPrice.t) (rp : RepairPrice.t) :
  In rp qs ->
  exists g, In g (RepairPriceViewSet.group_by_problem qs)
            /\ RepairPriceViewSet.problem_id g = problem_of rp.
Proof.
  intros Hin. unfold RepairPriceViewSet.group_by_problem.
  destruct (grouping_invariant qs) as [Hk Hf].
  assert (Hkey : In (problem_of rp)
                   (map fst (fold_left RepairPriceViewSet.group_step qs []))).
  { rewrite Hk. apply first_appearances_In. apply in_map. exact Hin. }
  apply in_map_iff in Hkey. destruct Hkey as ([k g] & Ek & Hkv).
  cbn [fst] in Ek. subst k. exists g. split.
  - apply in_map_iff. exists (problem_of rp, g). split; [reflexivity|exact Hkv].
  - rewrite Forall_forall in Hf. apply (Hf _ Hkv).
Qed.

(** X20.  What a successful [list] holds.  There is at least one group; a
    group has at least one child; and each child is the data of an active
    repair price of the store that the query parameters ask for, of the
    group's problem and of the part type the child is filed under. *)
Theorem listed_groups_hold_options (s : Store) (phone_model_id brand_id : option Z)
    (groups : list RepairPriceViewSet.group) :
  RepairPriceViewSet.list_ s phone_model_id brand_id = HTTP_200_OK groups ->
  groups <> []
  /\ Forall
       (fun g =>
          (exists t data, child g t = Some data)
          /\ forall t data, child g t = Some data ->
               exists rp,
                 In rp (repair_prices s)
                 /\ RepairPrice.is_active rp = true
                 /\ in_scope phone_model_id brand_id rp = true
                 /\ problem_of rp = RepairPriceViewSet.problem_id g
                 /\ RepairPrice.part_type rp = t
                 /\ data = RepairPriceSerializer.to_representation rp)
       groups.
Proof.
  rewrite list_queryset.
  set (qs := filter (in_scope phone_model_id brand_id)
               (RepairPriceViewSet.get_queryset s)).
  assert (Hqs : forall rp, In rp qs ->
            In rp (repair_prices s) /\ RepairPrice.is_active rp = true
            /\ in_scope phone_model_id brand_id rp = true).
  { intros rp Hin. subst qs. apply filter_In in Hin. destruct Hin as [Hin Hsc].
    unfold RepairPriceViewSet.get_queryset in Hin. apply filter_In in Hin.
    destruct Hin as [Hin Ha]. repeat split; assumption. }
  destruct qs as [|rp0 qs'] eqn:E; [discriminate|].
  rewrite <- E in *. intros H. injection H as <-. split.
  - intros Hnil. apply (f_equal (@List.length _)) in Hnil.
    rewrite group_by_problem_length, E in Hnil. discriminate Hnil.
  - pose proof (groups_reflect qs) as Hf.
    eapply Forall_impl; [|exact Hf]. intros g Hr. split.
    + destruct Hr as (Ho & Hd & rp & Hfirst & _).
      unfold first_option in Hfirst. apply find_some in Hfirst.
      destruct Hfirst as [Hin Hk]. apply Z.eqb_eq in Hk.
      destruct (last_option_present qs rp Hin) as [rp' Hl]. rewrite Hk in Hl.
      exists (RepairPrice.part_type rp),
             (RepairPriceSerializer.to_representation rp').
      destruct (RepairPrice.part_type rp); cbn [child];
        [rewrite Ho|rewrite Hd]; rewrite Hl; reflexivity.
    + intros t data Hc. rewrite (child_reflects qs g t Hr) in Hc.
      destruct (last_option qs (RepairPriceViewSet.problem_id g) t)
        as [rp|] eqn:El; [|discriminate Hc].
      cbn [option_map] in Hc. injection Hc as <-.
      apply last_option_some in El. destruct El as (Hin & Hk & Ht).
      destruct (Hqs rp Hin) as (H1 & H2 & H3).
      exists rp. repeat split; assumption.
Qed.

Lemma listed_groups_hold_options_witness :
  RepairPriceViewSet.group_by_problem three_options <> [].
Proof.
  apply (listed_groups_hold_options three_options_store (Some 1) None
           (RepairPriceViewSet.group_by_problem three_options) eq_refl).
Defined.

Lemma NoDup_map_injective {A B : Type} (f : A -> B) (l : list A) (a b : A) :
  NoDup (map f l) -> In a l -> In b l -> f a = f b -> a = b.
Proof.
  induction l as [|x l IH]; cbn [map]; intros Hnd Ha Hb Hf; [destruct Ha|].
  inversion Hnd as [|? ? Hx Hl]; subst.
  destruct Ha as [->|Ha], Hb as [->|Hb].
  - reflexivity.
  - exfalso. apply Hx. rewrite Hf. apply in_map. exact Hb.
  - exfalso. apply Hx. rewrite <- Hf. apply in_map. exact Ha.
  - exact (IH Hl Ha Hb Hf).
Qed.

(** X21.  No option is lost from the list of one phone model.  With at most
    one repair price for a phone model, a problem and a part type (the
    table's [unique_together]), every active repair price of the phone
    model is in the answer of [list] for that phone model: the answer has
    status 200, and the group of the repair price's problem holds its data
    under its part type. *)
Theorem every_option_is_listed (s : Store) (m : Z) (brand_id : option Z)
    (rp : RepairPrice.t) :
  unique_together s ->
  In rp (repair_prices s) ->
  RepairPrice.is_active rp = true ->
  PhoneModel.id (RepairPrice.phone_model rp) = m ->
  exists groups g,
    RepairPriceViewSet.list_ s (Some m) brand_id = HTTP_200_OK groups
    /\ In g groups
    /\ RepairPriceViewSet.problem_id g = problem_of rp
    /\ child g (RepairPrice.part_type rp)
       = Some (RepairPriceSerializer.to_representation rp).
Proof.
  intros Hu Hin Ha Hm. rewrite list_queryset.
  set (qs := filter (in_scope (Some m) brand_id)
               (RepairPriceViewSet.get_queryset s)).
  assert (Hq : In rp qs).
  { subst qs. apply filter_In. split.
    - unfold RepairPriceViewSet.get_queryset. apply filter_In. split; assumption.
    - cbn [in_scope]. apply Z.eqb_eq. exact Hm. }
  assert (Hqs : forall rp', In rp' qs ->
            In rp' (repair_prices s)
            /\ PhoneModel.id (RepairPrice.phone_model rp') = m).
  { intros rp' H. subst qs. apply filter_In in H. destruct H as [H Hsc].
    unfold RepairPriceViewSet.get_queryset in H. apply filter_In in H.
    split; [apply H|]. cbn [in_scope] in Hsc. apply Z.eqb_eq. exact Hsc. }
  destruct qs as [|rp0 qs'] eqn:E; [destruct Hq|]. rewrite <- E in *.
  destruct (group_of_option qs rp Hq) as (g & Hg & Hk).
  exists (RepairPriceViewSet.group_by_problem qs), g.
  split; [reflexivity|]. split; [exact Hg|]. split; [exact Hk|].
  pose proof (groups_reflect qs) as Hf. rewrite Forall_forall in Hf.
  rewrite (child_reflects qs g _ (Hf g Hg)), Hk.
  destruct (last_option_present qs rp Hq) as [rp' Hl]. rewrite Hl.
  cbn [option_map]. do 2 f_equal.
  apply last_option_some in Hl. destruct Hl as (Hin' & Hk' & Ht').
  destruct (Hqs rp' Hin') as [Hs' Hm'].
  apply (NoDup_map_injective _ _ _ _ Hu Hs' Hin). congruence.
Qed.

Lemma every_option_is_listed_witness :
  exists groups g,
    RepairPriceViewSet.list_ three_options_store (Some 1) None
    = HTTP_200_OK groups
    /\ In g groups
    /\ RepairPriceViewSet.problem_id g = 2
    /\ child g Duplicate
       = Some (RepairPriceSerializer.to_representation
                 (sample_price 2 battery_replacement Duplicate 5000 2000 0 true)).
Proof.
  apply (every_option_is_listed three_options_store 1 None
           (sample_price 2 battery_replacement Duplicate 5000 2000 0 true)).
  - unfold unique_together. cbn.
    repeat constructor; cbn; intros H;
      repeat (destruct H as [H|H]; [discriminate H|]); exact H.
  - left. reflexivity.
  - reflexivity.
  - reflexivity.
Defined.

(* ================================================================== *)
(** ** Further properties: website discounts *)

Lemma to_internal_value_places (f : DecimalField) (x q : Decimal) :
  to_internal_value f x = Some q -> Dec.places q = decimal_places f.
Proof.
  unfold to_internal_value. intros H.
  destruct (validate_precision f x); [|discriminate].
  destruct (run_validators f _); [|discriminate].
  injection H as <-. reflexivity.
Qed.

Lemma discount_decimal_field (name : string) (f : DecimalField)
    (input : option Decimal) (q : Decimal) :
  decimal_places f = 2%nat ->
  WebsiteDiscountSerializer.decimal_field name f input = inr q ->
  ($q == given input)%Q /\ Dec.places q = 2%nat.
Proof.
  intros Hf. unfold WebsiteDiscountSerializer.decimal_field.
  destruct input as [x|].
  - destruct (to_internal_value f x) as [q'|] eqn:E; [|discriminate].
    intros H. injection H as <-. split.
    + apply (to_internal_value_value _ _ _ E).
    + rewrite (to_internal_value_places _ _ _ E). exact Hf.
  - intros H. injection H as <-. split; reflexivity.
Qed.

Lemma hd_error_app {A : Type} (l : list A) (a : A) :
  hd_error (l ++ [a]) = match hd_error l with Some x => Some x | None => Some a end.
Proof. destruct l; reflexivity. Qed.

(** X22.  Creating a website discount.  The view answers 201 or 400 and
    never raises.  With 400 the store is as it was.  With 201 one row is
    added after the others, under a key no row had: it is active, and its
    percentage and amount have the values of the body (0 for a missing
    one) written with two fractional digits; the other tables are as they
    were.  The new row joins the active discounts last, so the discount in
    force ([filter(is_active=True).first()]) is the one that was in force
    before, and the new row only when there was none. *)
Theorem created_discount_waits_behind_active (s : Store) (d : Request.discount) :
  match DiscountViewSet.create s d with
  | (s', HTTP_201_CREATED row) =>
      website_discounts s' = website_discounts s ++ [row]
      /\ phone_models s' = phone_models s
      /\ repair_prices s' = repair_prices s
      /\ orders s' = orders s
      /\ ~ In (WebsiteDiscount.id row) (map WebsiteDiscount.id (website_discounts s))
      /\ WebsiteDiscount.is_active row = true
      /\ ($(WebsiteDiscount.percentage row) == given (Request.percentage d))%Q
      /\ ($(WebsiteDiscount.amount row) == given (Request.amount d))%Q
      /\ Dec.places (WebsiteDiscount.percentage row) = 2%nat
      /\ Dec.places (WebsiteDiscount.amount row) = 2%nat
      /\ DiscountViewSet.get_queryset s' = DiscountViewSet.get_queryset s ++ [row]
      /\ active_website_discount s'
         = match active_website_discount s with
           | Some o => Some o
           | None => Some row
           end
  | (s', HTTP_400_BAD_REQUEST errors) => s' = s /\ errors <> []
  | _ => False
  end.
Proof.
  unfold DiscountViewSet.create, WebsiteDiscountSerializer.is_valid.
  destruct (WebsiteDiscountSerializer.decimal_field "percentage" _ _)
    as [e1|p] eqn:E1;
  destruct (WebsiteDiscountSerializer.decimal_field "amount" _ _)
    as [e2|a] eqn:E2.
  - split; [reflexivity|].
    unfold WebsiteDiscountSerializer.decimal_field in E1.
    destruct (Request.percentage d) as [x|]; [|discriminate].
    destruct (to_internal_value _ x); [discriminate|].
    injection E1 as <-. discriminate.
  - split; [reflexivity|].
    unfold WebsiteDiscountSerializer.decimal_field in E1.
    destruct (Request.percentage d) as [x|]; [|discriminate].
    destruct (to_internal_value _ x); [discriminate|].
    injection E1 as <-. discriminate.
  - split; [reflexivity|].
    unfold WebsiteDiscountSerializer.decimal_field in E2.
    destruct (Request.amount d) as [x|]; [|discriminate].
    destruct (to_internal_value _ x); [discriminate|].
    injection E2 as <-. discriminate.
  - destruct (discount_decimal_field "percentage" WebsiteDiscount.percentage_field
                _ _ eq_refl E1) as [Hp Hpp].
    destruct (discount_decimal_field "amount" WebsiteDiscount.amount_field
                _ _ eq_refl E2) as [Ha Hap].
    cbn [WebsiteDiscountSerializer.percentage WebsiteDiscountSerializer.amount
         website_discounts with_website_discounts phone_models repair_prices
         orders WebsiteDiscount.id WebsiteDiscount.is_active
         WebsiteDiscount.percentage WebsiteDiscount.amount].
    do 4 (split; [reflexivity|]).
    split.
    { intros Hin. apply fresh_id_above in Hin. lia. }
    split; [reflexivity|].
    do 4 (split; [assumption|]).
    assert (Hq : forall row, WebsiteDiscount.is_active row = true ->
              filter WebsiteDiscount.is_active (website_discounts s ++ [row])
              = filter WebsiteDiscount.is_active (website_discounts s) ++ [row]).
    { intros row Hrow. rewrite filter_app. cbn [filter]. rewrite Hrow.
      reflexivity. }
    unfold DiscountViewSet.get_queryset, active_website_discount, objects_first.
    cbn [website_discounts with_website_discounts].
    rewrite Hq by reflexivity. split; [reflexivity|apply hd_error_app].
Qed.

(* ================================================================== *)
(** ** Further properties: user names *)


Lemma newline_not_allowed : SetCredentialsSerializer.allowed newline = false.
Proof. reflexivity. Qed.


